(** * CML toolkit: the authenticated request gateway and the tools built on it

    A shallow embedding of [claude_modeling_labs.py]: the [CMLAuth] class
    (token handling, request forwarding, re-authentication on 401) and the
    tool functions: the ones that normalise collections, create interfaces and
    links and poll node states, and the other tools built on them (labs,
    nodes, interfaces, links, configurations, the topology summary and the
    lab templates).

    - Python values that travel through the tools (decoded JSON, result
      dictionaries, error strings) are one type [PyVal]; a dict is an
      association list in insertion order.  JSON numbers are integers here:
      identifiers on this API are strings, floats are left out.
    - A string is a sequence of characters with codes below 256; a character
      is ASCII when its code is below 128.  httpx writes header names and
      values as ASCII and raises [UnicodeEncodeError] for any other string.
    - The remote server is a state machine, a parameter of the development:
      it maps its state and a request to an outcome, a latency and a next
      state.  A call of the client that ends without a reply, because the
      connection failed or because httpx refused the request, is the outcome
      [Failed].  Which addresses httpx takes as the base URL of a client
      (it raises [InvalidURL] for the others) is a parameter too.
    - Coroutines run one after another (the program never spawns tasks), so an
      [async def] is a computation in the monad [M]: it takes the world (the
      module global [cml_auth], the remote server, the event-loop clock and the
      trace of observable events) and returns a value, or raises an exception,
      both with the world reached.
    - The event-loop clock counts milliseconds.
    - The trace also notes each entry into [authenticate] and [request], so
      that calls can be counted and ordered against the exchanges. *)

From Stdlib Require Import String Ascii ZArith NArith List Bool Lia DecimalString
  DecimalZ.
Import ListNotations.
Local Open Scope list_scope.
Local Open Scope string_scope.

(** ** Python values *)

#[local] Set Warnings "-register-all".

Inductive PyVal : Type :=
| PNone
| PBool (b : bool)
| PInt (z : Z)
| PStr (s : string)
| PList (l : list PyVal)
| PDict (d : list (PyVal * PyVal)).

(** Truth value of an object, as [if x:] and [not x] test it. *)
Definition truthy (v : PyVal) : bool :=
  match v with
  | PNone => false
  | PBool b => b
  | PInt z => negb (z =? 0)%Z
  | PStr s => negb (String.eqb s EmptyString)
  | PList l => match l with [] => false | _ => true end
  | PDict d => match d with [] => false | _ => true end
  end.

Definition isinstance_dict (v : PyVal) : bool :=
  match v with PDict _ => true | _ => false end.

(** Hashable objects are the scalars; lists and dicts are not. *)
Definition hashable (v : PyVal) : bool :=
  match v with PList _ | PDict _ => false | _ => true end.

(** Equality of dict keys: [True == 1] and [False == 0], a string equals only
    the same string, [None] only [None]. *)
Definition key_num (v : PyVal) : option Z :=
  match v with
  | PBool true => Some 1%Z
  | PBool false => Some 0%Z
  | PInt z => Some z
  | _ => None
  end.

Definition key_eqb (a b : PyVal) : bool :=
  match a, b with
  | PNone, PNone => true
  | PStr s, PStr t => String.eqb s t
  | _, _ =>
      match key_num a, key_num b with
      | Some x, Some y => (x =? y)%Z
      | _, _ => false
      end
  end.

(** [x == "literal"] against a string literal. *)
Definition eq_str (v : PyVal) (lit : string) : bool :=
  match v with PStr s => String.eqb s lit | _ => false end.

(** [d.get(k)] on the items of a dict. *)
Fixpoint items_get (d : list (PyVal * PyVal)) (k : PyVal) : option PyVal :=
  match d with
  | [] => None
  | (k', v) :: d' => if key_eqb k' k then Some v else items_get d' k
  end.

(** [d[k] = v]: an existing key keeps its place (and its key object), a new
    one goes last. *)
Fixpoint items_set (d : list (PyVal * PyVal)) (k v : PyVal) : list (PyVal * PyVal) :=
  match d with
  | [] => [(k, v)]
  | (k', v') :: d' =>
      if key_eqb k' k then (k', v) :: d' else (k', v') :: items_set d' k v
  end.

(** ** Strings *)

Definition dquote : ascii := "034"%char.

Fixpoint lstrip (c : ascii) (s : string) : string :=
  match s with
  | String a s' => if Ascii.eqb a c then lstrip c s' else s
  | EmptyString => EmptyString
  end.

Fixpoint rev_onto (s acc : string) : string :=
  match s with
  | EmptyString => acc
  | String a s' => rev_onto s' (String a acc)
  end.

Definition string_rev (s : string) : string := rev_onto s EmptyString.

(** [s.strip(c)] for a one-character argument. *)
Definition strip (c : ascii) (s : string) : string :=
  string_rev (lstrip c (string_rev (lstrip c s))).

(** [needle in hay] on strings. *)
Fixpoint contains (needle hay : string) : bool :=
  if String.prefix needle hay then true
  else match hay with
       | EmptyString => false
       | String _ hay' => contains needle hay'
       end.

(** [s.isascii()]: every character of [s] is below 128, which is what
    [s.encode("ascii")] needs. *)
Fixpoint is_ascii (s : string) : bool :=
  match s with
  | EmptyString => true
  | String c s' => (N_of_ascii c <? 128)%N && is_ascii s'
  end.

(** [str(n)] of an int. *)
Definition str_of_int (z : Z) : string := NilZero.string_of_int (Z.to_int z).

(** ** httpx: requests, replies, headers *)

Definition Headers := list (string * string).

Fixpoint hget (h : Headers) (k : string) : option string :=
  match h with
  | [] => None
  | (k', v) :: h' => if String.eqb k' k then Some v else hget h' k
  end.

(** [h[k] = v] *)
Fixpoint hset (h : Headers) (k v : string) : Headers :=
  match h with
  | [] => [(k, v)]
  | (k', v') :: h' =>
      if String.eqb k' k then (k', v) :: h' else (k', v') :: hset h' k v
  end.

(** [h.update(more)] *)
Definition hupdate (h more : Headers) : Headers :=
  fold_left (fun acc kv => hset acc (fst kv) (snd kv)) more h.

(** [httpx.Headers(h)] encodes every key and every value as ASCII, in the
    order of the dict: the first string it cannot encode, if there is one. *)
Fixpoint unencodable (h : Headers) : option string :=
  match h with
  | [] => None
  | (k, v) :: h' =>
      if negb (is_ascii k) then Some k
      else if negb (is_ascii v) then Some v
      else unencodable h'
  end.

Record HttpRequest := {
  rq_method : string;
  rq_base : string;            (* the client's base_url *)
  rq_endpoint : string;
  rq_headers : Headers;        (* client headers updated with the call's *)
  rq_json : option PyVal;      (* json= *)
  rq_content : option string   (* content= *)
}.

Record Reply := {
  rp_status : Z;
  rp_text : string;
  rp_json : option PyVal       (* what .json() decodes, None when it cannot *)
}.

Record Response := {
  rs_request : HttpRequest;
  rs_reply : Reply
}.

Definition status_code (r : Response) : Z := rp_status (rs_reply r).
Definition text (r : Response) : string := rp_text (rs_reply r).

(** What a call of the client ends in: a reply, or no reply at all (the
    connection failed, or httpx refused to build or to send the request). *)
Inductive Outcome :=
| Failed (detail : string)
| Replied (rp : Reply).

(** [Response.is_success] *)
Definition is_success (status : Z) : bool :=
  ((200 <=? status) && (status <=? 299))%Z.

(** ** Exceptions (all of them subclasses of [Exception]) *)

Inductive Exn :=
| TransportError (detail : string)
| HTTPStatusError (rs : Response)
| JSONDecodeError (body : string)
| AttributeError (what : string)
| TypeError (what : string)
| KeyError (key : PyVal)
| UnicodeEncodeError (value : string)  (* value.encode("ascii") failed *)
| InvalidURL (url : string).           (* httpx could not parse the address *)

Definition is_HTTPStatusError (e : Exn) : bool :=
  match e with HTTPStatusError _ => true | _ => false end.

(** ** The session object *)

Record AsyncClient := {
  ac_base_url : string;
  ac_verify : bool;
  ac_headers : Headers
}.

Record CMLAuth := {
  base_url : string;
  username : string;
  password : string;
  token : option string;
  verify_ssl : bool;
  client : AsyncClient
}.

Definition with_token (self : CMLAuth) (t : option string) : CMLAuth :=
  {| base_url := base_url self; username := username self;
     password := password self; token := t;
     verify_ssl := verify_ssl self; client := client self |}.

Definition with_client_headers (self : CMLAuth) (h : Headers) : CMLAuth :=
  {| base_url := base_url self; username := username self;
     password := password self; token := token self;
     verify_ssl := verify_ssl self;
     client := {| ac_base_url := ac_base_url (client self);
                  ac_verify := ac_verify (client self);
                  ac_headers := h |} |}.

(** [f"{self.token}"] *)
Definition fmt_token (t : option string) : string :=
  match t with Some s => s | None => "None" end.

(** [not self.token] *)
Definition no_token (t : option string) : bool :=
  match t with
  | None => true
  | Some s => String.eqb s EmptyString
  end.

Definition bearer (t : option string) : string := "Bearer " ++ fmt_token t.

(** ** Observable events *)

Inductive Via := ViaPost | ViaGet | ViaRequest.

Inductive Event :=
| EvAuthenticate                       (* CMLAuth.authenticate was entered *)
| EvRequest (method endpoint : string) (payload : option PyVal)
                                       (* CMLAuth.request was entered *)
| EvSend (via : Via) (stored : option string) (rq : HttpRequest) (out : Outcome)
      (* one exchange on the transport, through client.post, client.get or
         client.request; [stored] is self.token at that moment *)
| EvSleep (seconds : N)                (* asyncio.sleep *)
| EvStderr (line : string)             (* print(..., file=sys.stderr) *)
| EvTraceback (e : Exn).               (* traceback.print_exc *)

(** ** The environment of the program

    The remote server (a state machine: state and request to outcome, latency
    in ms and next state), the text of an exception ([str(e)]), the [repr] of
    a container, the headers a fresh httpx client carries and the addresses
    httpx takes as the [base_url] of a client (it raises [InvalidURL] for the
    others). *)

Class Remote := {
  Server : Type;
  serve : Server -> HttpRequest -> Outcome * N * Server;
  str_of_exn : Exn -> string;
  py_repr : PyVal -> string;
  httpx_default_headers : Headers;
  httpx_accepts : string -> bool
}.

Section Computations.

Context {R : Remote}.

Record World := {
  cml_auth : option CMLAuth;   (* the module global *)
  remote : Server;
  clock : N;                   (* loop.time(), in ms *)
  trace : list Event
}.

Inductive Res (A : Type) :=
| Return (a : A) (w : World)
| Raise (e : Exn) (w : World)
| OutOfFuel.
Arguments Return {A} a w.
Arguments Raise {A} e w.
Arguments OutOfFuel {A}.

(** The world a computation stopped in, [w0] when it did not stop. *)
Definition final {A} (r : Res A) (w0 : World) : World :=
  match r with
  | Return _ w => w
  | Raise _ w => w
  | OutOfFuel => w0
  end.

Definition M (A : Type) := World -> Res A.

Definition ret {A} (a : A) : M A := fun w => Return a w.

Definition bind {A B} (m : M A) (k : A -> M B) : M B :=
  fun w =>
    match m w with
    | Return a w' => k a w'
    | Raise e w' => Raise e w'
    | OutOfFuel => OutOfFuel
    end.

Definition raise {A} (e : Exn) : M A := fun w => Raise e w.

(** [try: body / except Exception as e: handler e] *)
Definition try_except {A} (body : M A) (handler : Exn -> M A) : M A :=
  fun w =>
    match body w with
    | Return a w' => Return a w'
    | Raise e w' => handler e w'
    | OutOfFuel => OutOfFuel
    end.

End Computations.

Arguments Return {R A} a w.
Arguments Raise {R A} e w.
Arguments OutOfFuel {R A}.

Declare Scope py_scope.
Delimit Scope py_scope with py.
Notation "x <- c1 ;; c2" := (bind c1 (fun x => c2))
  (at level 61, c1 at next level, right associativity) : py_scope.
Notation "c1 ;; c2" := (bind c1 (fun _ => c2))
  (at level 61, right associativity) : py_scope.
Local Open Scope py_scope.

Section Gateway.

Context {R : Remote}.

Definition emit (ev : Event) : M unit :=
  fun w => Return tt {| cml_auth := cml_auth w; remote := remote w;
                        clock := clock w; trace := (trace w ++ [ev])%list |}.

Definition print (line : string) : M unit := emit (EvStderr line).

(** The only [CMLAuth] instance the program can reach is the one bound to the
    global, so [self] is read from there. *)
Definition get_self : M CMLAuth :=
  fun w =>
    match cml_auth w with
    | Some self => Return self w
    | None => Raise (AttributeError "NoneType") w
    end.

Definition set_self (self : CMLAuth) : M unit :=
  fun w => Return tt {| cml_auth := Some self; remote := remote w;
                        clock := clock w; trace := trace w |}.

(** One exchange through the httpx client of [self]. *)
Definition transport (via : Via) (method endpoint : string) (hdrs : Headers)
    (js : option PyVal) (content : option string) : M Response :=
  self <- get_self ;;
  fun w =>
    let rq := {| rq_method := method;
                 rq_base := ac_base_url (client self);
                 rq_endpoint := endpoint;
                 rq_headers := hupdate (ac_headers (client self)) hdrs;
                 rq_json := js; rq_content := content |} in
    let '(out, latency, srv) := serve (remote w) rq in
    let w' := {| cml_auth := cml_auth w; remote := srv;
                 clock := (clock w + latency)%N;
                 trace := (trace w ++ [EvSend via (token self) rq out])%list |} in
    match out with
    | Failed detail => Raise (TransportError detail) w'
    | Replied rp => Return {| rs_request := rq; rs_reply := rp |} w'
    end.

(** [response.raise_for_status()]: httpx >= 0.26 raises for every status
    outside 200..299. *)
Definition raise_for_status (r : Response) : M unit :=
  if is_success (status_code r) then ret tt else raise (HTTPStatusError r).

(** [response.json()] *)
Definition json (r : Response) : M PyVal :=
  match rp_json (rs_reply r) with
  | Some v => ret v
  | None => raise (JSONDecodeError (text r))
  end.

(** ** class CMLAuth *)

(** [CMLAuth(base, user, pass, verify)]: the new object, or the exception
    of [httpx.AsyncClient(base_url=base, ...)] when httpx cannot parse the
    address, in which case no object comes to exist. *)
Definition CMLAuth_init (base user pass : string) (verify : bool)
    : Exn + CMLAuth :=
  if httpx_accepts base
  then inr {| base_url := base; username := user; password := pass;
              token := None; verify_ssl := verify;
              client := {| ac_base_url := base; ac_verify := verify;
                           ac_headers := httpx_default_headers |} |}
  else inl (InvalidURL base).

(** [self.client.headers.update(more)]: the new entries are encoded first,
    and nothing is changed when one of them cannot be. *)
Definition client_headers_update (more : Headers) : M unit :=
  self <- get_self ;;
  match unencodable more with
  | Some value => raise (UnicodeEncodeError value)
  | None =>
      set_self (with_client_headers self (hupdate (ac_headers (client self)) more))
  end.

(** [headers.update] comes after the token is stored and before the [try]
    of the verification call: when the token cannot be encoded its exception
    leaves [authenticate] with the token stored and the headers unchanged. *)
Definition authenticate : M (option string) :=
  emit EvAuthenticate ;;
  self <- get_self ;;
  print ("Authenticating with CML at " ++ base_url self) ;;
  response <- transport ViaPost "POST" "/api/v0/authenticate" []
                (Some (PDict [(PStr "username", PStr (username self));
                              (PStr "password", PStr (password self))]))
                None ;;
  raise_for_status response ;;
  self <- get_self ;;
  set_self (with_token self (Some (strip dquote (text response)))) ;;
  self <- get_self ;;
  client_headers_update [("Authorization", bearer (token self))] ;;
  try_except
    (auth_check <- transport ViaGet "GET" "/api/v0/authok" [] None None ;;
     raise_for_status auth_check ;;
     print "Authentication successful, token verified")
    (fun e => print ("Warning: Token verification failed: " ++ str_of_exn e)) ;;
  self <- get_self ;;
  ret (token self).

(** Keyword arguments of [request] that the tools use. *)
Record Kwargs := {
  kw_json : option PyVal;
  kw_content : option string;
  kw_headers : option Headers
}.

Definition no_kwargs : Kwargs :=
  {| kw_json := None; kw_content := None; kw_headers := None |}.

(** The caller's headers dict is passed by value: [request] overwrites its
    Authorization entry before every use, so the entry it leaves behind in
    the caller's dict is never read. *)
Definition request (method endpoint : string) (kwargs : Kwargs) : M Response :=
  emit (EvRequest method endpoint (kw_json kwargs)) ;;
  self <- get_self ;;
  (if no_token (token self) then authenticate ;; ret tt else ret tt) ;;
  print ("Making " ++ method ++ " request to " ++ endpoint) ;;
  let headers := match kw_headers kwargs with Some h => h | None => [] end in
  self <- get_self ;;
  let headers := hset headers "Authorization" (bearer (token self)) in
  try_except
    (response <- transport ViaRequest method endpoint headers
                   (kw_json kwargs) (kw_content kwargs) ;;
     response <-
       (if (status_code response =? 401)%Z then
          print "Got 401 response, re-authenticating..." ;;
          authenticate ;;
          self <- get_self ;;
          let headers := hset headers "Authorization" (bearer (token self)) in
          transport ViaRequest method endpoint headers
            (kw_json kwargs) (kw_content kwargs)
        else ret response) ;;
     raise_for_status response ;;
     ret response)
    (fun e => print ("Request error: " ++ str_of_exn e) ;; raise e).

End Gateway.

(** ** Module-level helpers and tools *)

Section Tools.

Context {R : Remote}.

(** [f"{v}"] *)
Definition py_str (v : PyVal) : string :=
  match v with
  | PNone => "None"
  | PBool true => "True"
  | PBool false => "False"
  | PInt z => str_of_int z
  | PStr s => s
  | _ => py_repr v
  end.

(** [v.get(k)] and [v.get(k, default)]: only a dict has the method. *)
Definition py_get_default (v : PyVal) (k : string) (default : PyVal) : M PyVal :=
  match v with
  | PDict d =>
      ret (match items_get d (PStr k) with Some x => x | None => default end)
  | _ => raise (AttributeError "get")
  end.

Definition py_get (v : PyVal) (k : string) : M PyVal := py_get_default v k PNone.

(** [v[k]] on a dict *)
Definition py_subscript (v : PyVal) (k : string) : M PyVal :=
  match v with
  | PDict d =>
      match items_get d (PStr k) with
      | Some x => ret x
      | None => raise (KeyError (PStr k))
      end
  | _ => raise (TypeError "subscript")
  end.

(** [v.items()] *)
Definition py_items (v : PyVal) : M (list (PyVal * PyVal)) :=
  match v with
  | PDict d => ret d
  | _ => raise (AttributeError "items")
  end.

(** [result[k] = v] *)
Definition py_setitem (result : list (PyVal * PyVal)) (k v : PyVal)
    : M (list (PyVal * PyVal)) :=
  if hashable k then ret (items_set result k v)
  else raise (TypeError "unhashable").

(** [loop.time()].  Time passes only while the program waits: for a reply
    (the latency the server reports) and in [asyncio.sleep]. *)
Definition loop_time : M N := fun w => Return (clock w) w.

Definition sleep (seconds : N) : M unit :=
  fun w => Return tt {| cml_auth := cml_auth w; remote := remote w;
                        clock := (clock w + seconds * 1000)%N;
                        trace := (trace w ++ [EvSleep seconds])%list |}.

Definition print_exc (e : Exn) : M unit := emit (EvTraceback e).

Definition NOT_INITIALIZED : string :=
  "You must initialize the client first with initialize_client()".

Definition _check_auth : M PyVal :=
  fun w =>
    match cml_auth w with
    | None => Return (PDict [(PStr "error", PStr NOT_INITIALIZED)]) w
    | Some _ => Return PNone w
    end.

Definition _handle_api_error (operation : string) (error : Exn) : M PyVal :=
  print ("Error during " ++ operation ++ ": " ++ str_of_exn error) ;;
  print_exc error ;;
  ret (PDict [(PStr "error",
               PStr ("Error during " ++ operation ++ ": " ++ str_of_exn error))]).

Definition set_global (a : CMLAuth) : M unit :=
  fun w => Return tt {| cml_auth := Some a; remote := remote w;
                        clock := clock w; trace := trace w |}.

(** The urllib3 warning filter set for [verify_ssl=False] has no effect on
    anything modelled here.  The two [except] clauses are one handler that
    looks at the class of the exception. *)
Definition initialize_client (base user pass : string) (verify : bool) : M PyVal :=
  let base :=
    if String.prefix "http://" base || String.prefix "https://" base
    then base else "https://" ++ base in
  print ("Initializing CML client with base_url: " ++ base) ;;
  match CMLAuth_init base user pass verify with
  | inl e => raise e
  | inr self => set_global self
  end ;;
  try_except
    (token <- authenticate ;;
     first10 <- match token with
                | Some t => ret (substring 0 10 t)
                | None => raise (TypeError "subscript")
                end ;;
     print ("Token received: " ++ first10 ++ "...") ;;
     let ssl_status :=
       if verify then "enabled"
       else "disabled (accepting self-signed certificates)" in
     ret (PStr ("Successfully authenticated with CML at " ++ base
                ++ " (SSL verification: " ++ ssl_status ++ ")")))
    (fun e =>
       if is_HTTPStatusError e
       then ret (PStr ("Authentication failed: " ++ str_of_exn e))
       else
         print ("Error connecting to CML: " ++ str_of_exn e) ;;
         print_exc e ;;
         ret (PStr ("Error connecting to CML: " ++ str_of_exn e))).

Definition get_lab_details (lab_id : string) : M PyVal :=
  auth_check <- _check_auth ;;
  if truthy auth_check then ret auth_check
  else
    try_except
      (response <- request "GET" ("/api/v0/labs/" ++ lab_id) no_kwargs ;;
       lab_details <- json response ;;
       ret lab_details)
      (fun e => _handle_api_error "get_lab_details" e).

(** The loop the three collection queries run over a list answer:
    [for x in xs: x_id = x.get("id"); if x_id: result[x_id] = x]. *)
Fixpoint index_by_id (xs : list PyVal) (result : list (PyVal * PyVal))
    : M (list (PyVal * PyVal)) :=
  match xs with
  | [] => ret result
  | x :: rest =>
      x_id <- py_get x "id" ;;
      result <- (if truthy x_id then py_setitem result x_id x else ret result) ;;
      index_by_id rest result
  end.

(** The loop of [list_node_definitions] over a dict answer. *)
Fixpoint format_node_defs (items : list (PyVal * PyVal))
    (result : list (PyVal * PyVal)) : M (list (PyVal * PyVal)) :=
  match items with
  | [] => ret result
  | (node_id, node_info) :: rest =>
      description <- py_get_default node_info "description" (PStr EmptyString) ;;
      type <- py_get_default node_info "type" (PStr EmptyString) ;;
      interfaces <- py_get_default node_info "interfaces" (PList []) ;;
      result <- py_setitem result node_id
                  (PDict [(PStr "description", description);
                          (PStr "type", type);
                          (PStr "interfaces", interfaces)]) ;;
      format_node_defs rest result
  end.

Definition list_node_definitions : M PyVal :=
  auth_check <- _check_auth ;;
  if truthy auth_check then py_subscript auth_check "error"
  else
    try_except
      (response <- request "GET" "/api/v0/node_definitions" no_kwargs ;;
       node_defs <- json response ;;
       match node_defs with
       | PList xs =>
           print "Converting node definitions list to dictionary" ;;
           result <- index_by_id xs [] ;;
           ret (PDict result)
       | _ =>
           items <- py_items node_defs ;;
           result <- format_node_defs items [] ;;
           ret (PDict result)
       end)
      (fun e => ret (PStr ("Error listing node definitions: " ++ str_of_exn e))).

Definition get_lab_nodes (lab_id : string) : M PyVal :=
  auth_check <- _check_auth ;;
  if truthy auth_check then py_subscript auth_check "error"
  else
    try_except
      (response <- request "GET" ("/api/v0/labs/" ++ lab_id ++ "/nodes") no_kwargs ;;
       nodes <- json response ;;
       match nodes with
       | PList xs =>
           print "Converting nodes list to dictionary" ;;
           result <- index_by_id xs [] ;;
           ret (PDict result)
       | _ => ret nodes
       end)
      (fun e => ret (PStr ("Error getting lab nodes: " ++ str_of_exn e))).

Definition get_lab_links (lab_id : string) : M PyVal :=
  auth_check <- _check_auth ;;
  if truthy auth_check then py_subscript auth_check "error"
  else
    try_except
      (response <- request "GET" ("/api/v0/labs/" ++ lab_id ++ "/links") no_kwargs ;;
       links <- json response ;;
       match links with
       | PList xs =>
           print "Converting links list to dictionary" ;;
           result <- index_by_id xs [] ;;
           ret (PDict result)
       | _ => ret links
       end)
      (fun e => ret (PStr ("Error getting lab links: " ++ str_of_exn e))).

(** [isinstance(lab_details, dict) and lab_details.get("state") == "STARTED"] *)
Definition lab_is_started (lab_details : PyVal) : bool :=
  match lab_details with
  | PDict d =>
      match items_get d (PStr "state") with
      | Some st => eq_str st "STARTED"
      | None => false
      end
  | _ => false
  end.

Definition LAB_RUNNING : string :=
  "Cannot create interfaces while the lab is running. Please stop the lab first.".

Definition interface_created (interface_id interface_label : PyVal)
    (node_id : string) (slot : Z) (result : PyVal) : PyVal :=
  PDict [(PStr "interface_id", interface_id);
         (PStr "message",
          PStr ("Created interface " ++ py_str interface_label ++ " on node "
                ++ node_id ++ ", slot " ++ str_of_int slot));
         (PStr "status", PStr "success");
         (PStr "details", result)].

Definition create_interface (lab_id node_id : string) (slot : Z) : M PyVal :=
  auth_check <- _check_auth ;;
  if truthy auth_check then ret auth_check
  else
    try_except
      (lab_details <- get_lab_details lab_id ;;
       if lab_is_started lab_details then
         ret (PDict [(PStr "error", PStr LAB_RUNNING)])
       else
         print ("Creating interface on node " ++ node_id ++ ", slot "
                ++ str_of_int slot) ;;
         let interface_data :=
           PDict [(PStr "node", PStr node_id); (PStr "slot", PInt slot)] in
         print ("Interface creation payload: " ++ py_str interface_data) ;;
         response <- request "POST" ("/api/v0/labs/" ++ lab_id ++ "/interfaces")
                       {| kw_json := Some interface_data; kw_content := None;
                          kw_headers := None |} ;;
         result <- json response ;;
         print ("Interface creation response: " ++ py_str result) ;;
         let failed :=
           ret (PDict [(PStr "error",
                        PStr "Failed to create interface, unexpected response format");
                       (PStr "response", result)]) in
         match result with
         | PList (first :: _) =>
             interface_id <- py_get first "id" ;;
             interface_label <- py_get first "label" ;;
             ret (interface_created interface_id interface_label node_id slot result)
         | PDict _ =>
             interface_id <- py_get result "id" ;;
             interface_label <- py_get result "label" ;;
             if truthy interface_id then
               ret (interface_created interface_id interface_label node_id slot result)
             else failed
         | _ => failed
         end)
      (fun e => _handle_api_error "create_interface" e).

(** *** create_link_v3 *)

Definition links_endpoint (lab_id : string) : string :=
  "/api/v0/labs/" ++ lab_id ++ "/links".

Definition link_headers : Headers := [("Content-Type", "application/json")].

Definition link_data (interface_id_a interface_id_b : string) : PyVal :=
  PDict [(PStr "src_int", PStr interface_id_a);
         (PStr "dst_int", PStr interface_id_b)].

Definition link_data_alt (interface_id_a interface_id_b : string) : PyVal :=
  PDict [(PStr "i1", PStr interface_id_a); (PStr "i2", PStr interface_id_b)].

Definition between (interface_id_a interface_id_b : string) : string :=
  "between interfaces " ++ interface_id_a ++ " and " ++ interface_id_b.

(** The body of the outer [try]. *)
Definition create_link_standard (lab_id interface_id_a interface_id_b : string)
    : M PyVal :=
  print ("Creating link " ++ between interface_id_a interface_id_b) ;;
  response <- request "POST" (links_endpoint lab_id)
                {| kw_json := Some (link_data interface_id_a interface_id_b);
                   kw_content := None; kw_headers := Some link_headers |} ;;
  result <- json response ;;
  print ("Link creation response: " ++ py_str result) ;;
  link_id <- py_get result "id" ;;
  if negb (truthy link_id) then
    ret (PDict [(PStr "error", PStr "Failed to create link, no link ID returned");
                (PStr "response", result)])
  else
    ret (PDict [(PStr "link_id", link_id);
                (PStr "message",
                 PStr ("Created link " ++ between interface_id_a interface_id_b));
                (PStr "status", PStr "success");
                (PStr "details", result)]).

(** The body of the [try] inside the outer [except]. *)
Definition create_link_alternative (lab_id interface_id_a interface_id_b : string)
    : M PyVal :=
  print "First format failed, trying alternative format..." ;;
  response_alt <- request "POST" (links_endpoint lab_id)
                    {| kw_json := Some (link_data_alt interface_id_a interface_id_b);
                       kw_content := None; kw_headers := Some link_headers |} ;;
  result_alt <- json response_alt ;;
  print ("Link creation response (alt format): " ++ py_str result_alt) ;;
  link_id_alt <- py_get result_alt "id" ;;
  if truthy link_id_alt then
    ret (PDict [(PStr "link_id", link_id_alt);
                (PStr "message",
                 PStr ("Created link " ++ between interface_id_a interface_id_b
                       ++ " using alternative format"));
                (PStr "status", PStr "success");
                (PStr "details", result_alt)])
  else
    ret (PDict [(PStr "error", PStr "Failed to create link with both formats")]).

Definition create_link_v3 (lab_id interface_id_a interface_id_b : string)
    : M PyVal :=
  auth_check <- _check_auth ;;
  if truthy auth_check then ret auth_check
  else
    try_except
      (create_link_standard lab_id interface_id_a interface_id_b)
      (fun e =>
         try_except
           (create_link_alternative lab_id interface_id_a interface_id_b)
           (fun alt_err =>
              print ("Alternative format also failed: " ++ str_of_exn alt_err) ;;
              _handle_api_error "create_link" e)).

(** *** wait_for_lab_nodes *)

Definition ALL_READY : string :=
  "All nodes in the lab are initialized and ready".

Definition TIMED_OUT (timeout : Z) : string :=
  "Timeout reached (" ++ str_of_int timeout
  ++ " seconds). Some nodes may not be fully initialized.".

Definition LAB_NOT_STARTED : string :=
  "Lab is not in STARTED state. Start the lab first.".

Definition node_endpoint (lab_id : string) (node_id : PyVal) : string :=
  "/api/v0/labs/" ++ lab_id ++ "/nodes/" ++ py_str node_id.

(** The first lines of the [for] body: ask for one node and read its state. *)
Definition node_state (lab_id : string) (node_id : PyVal) : M PyVal :=
  node_info <- request "GET" (node_endpoint lab_id node_id) no_kwargs ;;
  node_data <- json node_info ;;
  state <- py_get_default node_data "state" (PStr "UNKNOWN") ;;
  label <- py_get_default node_data "label" (PStr "unknown") ;;
  print ("Node " ++ py_str label ++ " state: " ++ py_str state) ;;
  ret state.

(** [for node_id, node in items: ...; if state != "STARTED": all_ready = False] *)
Fixpoint poll_round (lab_id : string) (items : list (PyVal * PyVal))
    (all_ready : bool) : M bool :=
  match items with
  | [] => ret all_ready
  | (node_id, _) :: rest =>
      state <- node_state lab_id node_id ;;
      poll_round lab_id rest
        (if negb (eq_str state "STARTED") then false else all_ready)
  end.

(** [(loop.time() - start_time) < timeout], the clock in ms and the timeout
    in seconds. *)
Definition within (start_time now : N) (timeout : Z) : bool :=
  (Z.of_N (now - start_time) <? timeout * 1000)%Z.

(** The [while] loop; [fuel] bounds the number of times its test is run. *)
Fixpoint poll_loop (fuel : nat) (lab_id : string) (nodes : PyVal)
    (start_time : N) (timeout : Z) (all_ready : bool) : M bool :=
  match fuel with
  | O => fun _ => OutOfFuel
  | S fuel' =>
      now <- loop_time ;;
      if negb all_ready && within start_time now timeout then
        items <- py_items nodes ;;
        all_ready <- poll_round lab_id items true ;;
        (if negb all_ready then sleep 5 else ret tt) ;;
        poll_loop fuel' lab_id nodes start_time timeout all_ready
      else ret all_ready
  end.

Definition wait_for_lab_nodes (fuel : nat) (lab_id : string) (timeout : Z)
    : M PyVal :=
  auth_check <- _check_auth ;;
  if truthy auth_check then py_subscript auth_check "error"
  else
    try_except
      (lab_details <- get_lab_details lab_id ;;
       if negb (lab_is_started lab_details) then ret (PStr LAB_NOT_STARTED)
       else
         print ("Waiting for nodes in lab " ++ lab_id ++ " to initialize...") ;;
         nodes <- get_lab_nodes lab_id ;;
         if match nodes with PStr s => contains "Error" s | _ => false end
         then ret nodes
         else
           start_time <- loop_time ;;
           all_ready <- poll_loop fuel lab_id nodes start_time timeout false ;;
           if all_ready then ret (PStr ALL_READY)
           else ret (PStr (TIMED_OUT timeout)))
      (fun e =>
         print ("Error waiting for nodes: " ++ str_of_exn e) ;;
         print_exc e ;;
         ret (PStr ("Error waiting for nodes: " ++ str_of_exn e))).

End Tools.

(** ** The other tools

    The tools below are the ones no statement of the specification names.
    An identifier parameter is only ever interpolated into an endpoint or a
    message, so a caller inside the module that passes a value [v] it took
    from a JSON answer is modelled by passing [py_str v], the text the
    f-string makes of it. *)

Section MoreTools.

Context {R : Remote}.

Definition nl : string := String "010"%char EmptyString.

(** [len(v)] *)
Definition py_len (v : PyVal) : M nat :=
  match v with
  | PStr s => ret (String.length s)
  | PList xs => ret (List.length xs)
  | PDict d => ret (List.length d)
  | _ => raise (TypeError "len")
  end.

(** ["lit" in v] for a string literal: a key of a dict, an element of a
    list, a substring of a string. *)
Definition py_in (lit : string) (v : PyVal) : M bool :=
  match v with
  | PDict d =>
      ret (match items_get d (PStr lit) with Some _ => true | None => false end)
  | PList xs => ret (existsb (fun x => eq_str x lit) xs)
  | PStr s => ret (contains lit s)
  | _ => raise (TypeError "in")
  end.

(** [isinstance(v, dict) and "error" in v] *)
Definition has_error (v : PyVal) : bool :=
  match v with
  | PDict d => match items_get d (PStr "error") with Some _ => true | None => false end
  | _ => false
  end.

(** [isinstance(v, str) and "Error" in v] *)
Definition is_error_text (v : PyVal) : bool :=
  match v with PStr s => contains "Error" s | _ => false end.

(** [k in d] and [d[k]] on the items of a dict, for any key object. *)
Definition dict_contains (d : list (PyVal * PyVal)) (k : PyVal) : M bool :=
  if hashable k
  then ret (match items_get d k with Some _ => true | None => false end)
  else raise (TypeError "unhashable").

Definition dict_subscript (d : list (PyVal * PyVal)) (k : PyVal) : M PyVal :=
  if hashable k
  then match items_get d k with
       | Some v => ret v
       | None => raise (KeyError k)
       end
  else raise (TypeError "unhashable").

(** [for x in v] *)
Definition py_iter (v : PyVal) : M (list PyVal) :=
  match v with
  | PList xs => ret xs
  | PDict d => ret (map fst d)
  | PStr s => ret (map (fun c => PStr (String c EmptyString)) (list_ascii_of_string s))
  | _ => raise (TypeError "iter")
  end.

(** [type(v)] as an f-string shows it. *)
Definition py_type (v : PyVal) : string :=
  match v with
  | PNone => "<class 'NoneType'>"
  | PBool _ => "<class 'bool'>"
  | PInt _ => "<class 'int'>"
  | PStr _ => "<class 'str'>"
  | PList _ => "<class 'list'>"
  | PDict _ => "<class 'dict'>"
  end.

(** Whitespace as [str.split()] sees it, among the characters below 256. *)
Definition is_space (c : ascii) : bool :=
  let n := nat_of_ascii c in
  ((9 <=? n) && (n <=? 13) || (28 <=? n) && (n <=? 32) || (n =? 133) || (n =? 160))%nat.

(** [s.split()]: the maximal runs of characters that are no whitespace;
    [word] is the run being read. *)
Fixpoint split_from (s word : string) : list string :=
  match s with
  | EmptyString => match word with EmptyString => [] | _ => [word] end
  | String c rest =>
      if is_space c then
        match word with
        | EmptyString => split_from rest EmptyString
        | _ => word :: split_from rest EmptyString
        end
      else split_from rest (word ++ String c EmptyString)
  end.

Definition py_split (s : string) : list string := split_from s EmptyString.

(** *** Labs *)

(** The [for] loop of [list_labs]. *)
Fixpoint format_labs (items : list (PyVal * PyVal)) (result : string) : M string :=
  match items with
  | [] => ret result
  | (lab_id, lab_info) :: rest =>
      title <- py_get_default lab_info "title" (PStr "Untitled") ;;
      let result :=
        result ++ "- " ++ py_str title ++ " (ID: " ++ py_str lab_id ++ ")" ++ nl in
      description <- py_get lab_info "description" ;;
      result <- (if truthy description then
                   description <- py_subscript lab_info "description" ;;
                   ret (result ++ "  Description: " ++ py_str description ++ nl)
                 else ret result) ;;
      state <- py_get_default lab_info "state" (PStr "unknown") ;;
      format_labs rest (result ++ "  State: " ++ py_str state ++ nl)
  end.

Definition NO_LABS : string := "No labs found in CML.".

Definition list_labs : M PyVal :=
  auth_check <- _check_auth ;;
  if truthy auth_check then py_subscript auth_check "error"
  else
    try_except
      (print "Attempting to list labs..." ;;
       response <- request "GET" "/api/v0/labs" no_kwargs ;;
       labs <- json response ;;
       n <- py_len labs ;;
       print ("Found " ++ str_of_int (Z.of_nat n) ++ " labs") ;;
       if negb (truthy labs) then ret (PStr NO_LABS)
       else
         items <- py_items labs ;;
         result <- format_labs items ("Available Labs:" ++ nl ++ nl) ;;
         ret (PStr result))
      (fun e => ret (PStr ("Error listing labs: " ++ str_of_exn e))).

Definition create_lab (title description : string) : M PyVal :=
  auth_check <- _check_auth ;;
  if truthy auth_check then ret auth_check
  else
    try_except
      (print ("Creating lab with title: " ++ title) ;;
       response <- request "POST" "/api/v0/labs"
                     {| kw_json := Some (PDict [(PStr "title", PStr title);
                                                (PStr "description", PStr description)]);
                        kw_content := None; kw_headers := None |} ;;
       lab_data <- json response ;;
       print ("Lab creation response: " ++ py_str lab_data) ;;
       lab_id <- py_get lab_data "id" ;;
       if negb (truthy lab_id) then
         ret (PDict [(PStr "error", PStr "Failed to create lab, no lab ID returned")])
       else
         ret (PDict [(PStr "lab_id", lab_id);
                     (PStr "message",
                      PStr ("Created lab '" ++ title ++ "' with ID: " ++ py_str lab_id));
                     (PStr "status", PStr "success")]))
      (fun e => _handle_api_error "create_lab" e).

Definition start_lab (lab_id : string) : M PyVal :=
  auth_check <- _check_auth ;;
  if truthy auth_check then py_subscript auth_check "error"
  else
    try_except
      (request "PUT" ("/api/v0/labs/" ++ lab_id ++ "/start") no_kwargs ;;
       ret (PStr ("Lab " ++ lab_id ++ " started successfully")))
      (fun e => ret (PStr ("Error starting lab: " ++ str_of_exn e))).

Definition stop_lab (lab_id : string) : M PyVal :=
  auth_check <- _check_auth ;;
  if truthy auth_check then py_subscript auth_check "error"
  else
    try_except
      (request "PUT" ("/api/v0/labs/" ++ lab_id ++ "/stop") no_kwargs ;;
       ret (PStr ("Lab " ++ lab_id ++ " stopped successfully")))
      (fun e => ret (PStr ("Error stopping lab: " ++ str_of_exn e))).

Definition delete_lab (lab_id : string) : M PyVal :=
  auth_check <- _check_auth ;;
  if truthy auth_check then py_subscript auth_check "error"
  else
    try_except
      (lab_details <- get_lab_details lab_id ;;
       (if lab_is_started lab_details then
          stop_lab lab_id ;;
          sleep 2
        else ret tt) ;;
       request "DELETE" ("/api/v0/labs/" ++ lab_id) no_kwargs ;;
       ret (PStr ("Lab " ++ lab_id ++ " deleted successfully")))
      (fun e => ret (PStr ("Error deleting lab: " ++ str_of_exn e))).

(** *** Nodes *)

Definition nodes_endpoint (lab_id : string) (populate_interfaces : bool) : string :=
  let endpoint := "/api/v0/labs/" ++ lab_id ++ "/nodes" in
  if populate_interfaces then endpoint ++ "?populate_interfaces=true" else endpoint.

(** The payload of [add_node]; [parameters] is [None] or a dict. *)
Definition node_data (label node_definition : string) (x y : Z)
    (ram cpu_limit : option Z) (parameters : option (list (PyVal * PyVal)))
    : list (PyVal * PyVal) :=
  let parameters := match parameters with Some d => PDict d | None => PNone end in
  let node_data :=
    [(PStr "label", PStr label);
     (PStr "node_definition", PStr node_definition);
     (PStr "x", PInt x);
     (PStr "y", PInt y);
     (PStr "parameters", if truthy parameters then parameters else PDict []);
     (PStr "tags", PList []);
     (PStr "hide_links", PBool false)] in
  let node_data :=
    match ram with
    | Some ram => items_set node_data (PStr "ram") (PInt ram)
    | None => node_data
    end in
  match cpu_limit with
  | Some cpu_limit => items_set node_data (PStr "cpu_limit") (PInt cpu_limit)
  | None => node_data
  end.

Definition add_node (lab_id label node_definition : string) (x y : Z)
    (populate_interfaces : bool) (ram cpu_limit : option Z)
    (parameters : option (list (PyVal * PyVal))) : M PyVal :=
  auth_check <- _check_auth ;;
  if truthy auth_check then ret auth_check
  else
    try_except
      (let node_data :=
         PDict (node_data label node_definition x y ram cpu_limit parameters) in
       let endpoint := nodes_endpoint lab_id populate_interfaces in
       let headers := [("Content-Type", "application/json")] in
       response <- request "POST" endpoint
                     {| kw_json := Some node_data; kw_content := None;
                        kw_headers := Some headers |} ;;
       result <- json response ;;
       node_id <- py_get result "id" ;;
       if negb (truthy node_id) then
         ret (PDict [(PStr "error", PStr "Failed to create node, no node ID returned");
                     (PStr "response", result)])
       else
         ret (PDict [(PStr "node_id", node_id);
                     (PStr "message",
                      PStr ("Added node '" ++ label ++ "' with ID: " ++ py_str node_id));
                     (PStr "status", PStr "success");
                     (PStr "details", result)]))
      (fun e => _handle_api_error "add_node" e).

Definition create_router (lab_id label : string) (x y : Z) : M PyVal :=
  auth_check <- _check_auth ;;
  if truthy auth_check then ret auth_check
  else add_node lab_id label "iosv" x y true None None None.

Definition create_switch (lab_id label : string) (num_interfaces x y : Z) : M PyVal :=
  auth_check <- _check_auth ;;
  if truthy auth_check then ret auth_check
  else
    try_except
      (add_node lab_id label "iosvl2" x y true None None
         (Some [(PStr "slot1", PStr (str_of_int num_interfaces))]))
      (fun e => _handle_api_error "create_switch" e).

(** *** Interfaces *)

(** [range(0, n, 36)] *)
Definition range36 (n : nat) : list nat :=
  map (fun k => 36 * k) (seq 0 ((n + 35) / 36)).

(** [[s[i:i+36] for i in range(0, len(s), 36)]] *)
Definition uuid_chunks (s : string) : list string :=
  map (fun i => substring i 36 s) (range36 (String.length s)).

Definition get_node_interfaces (lab_id node_id : string) : M PyVal :=
  auth_check <- _check_auth ;;
  if truthy auth_check then py_subscript auth_check "error"
  else
    try_except
      (response <- request "GET" ("/api/v0/labs/" ++ lab_id ++ "/nodes/" ++ node_id
                                  ++ "/interfaces") no_kwargs ;;
       interfaces <- json response ;;
       match interfaces with
       | PList _ =>
           print ("Got list of interface IDs: " ++ py_str interfaces) ;;
           ret interfaces
       | PStr s =>
           print ("Got string of interface IDs: " ++ py_str interfaces) ;;
           if (String.length s mod 36 =? 0)%nat
           then ret (PList (map PStr (uuid_chunks s)))
           else ret interfaces
       | _ => ret interfaces
       end)
      (fun e =>
         print ("Error getting node interfaces: " ++ str_of_exn e) ;;
         print_exc e ;;
         ret (PStr ("Error getting node interfaces: " ++ str_of_exn e))).

Definition interface_endpoint (lab_id : string) (interface_id : PyVal) : string :=
  "/api/v0/labs/" ++ lab_id ++ "/interfaces/" ++ py_str interface_id.

(** The [for] loop of [get_physical_interfaces]. *)
Fixpoint physical_details (lab_id : string) (interface_ids : list PyVal)
    (physical_interfaces : list PyVal) : M (list PyVal) :=
  match interface_ids with
  | [] => ret physical_interfaces
  | interface_id :: rest =>
      interface_details <- request "GET" (interface_endpoint lab_id interface_id)
                             no_kwargs ;;
      interface_data <- json interface_details ;;
      type <- py_get interface_data "type" ;;
      let is_physical := eq_str type "physical" in
      has_type <- py_in "type" interface_data ;;
      is_physical <- (if negb has_type then
                        has_slot <- py_in "slot" interface_data ;;
                        ret (if has_slot then true else is_physical)
                      else ret is_physical) ;;
      physical_details lab_id rest
        (if is_physical then (physical_interfaces ++ [interface_data])%list
         else physical_interfaces)
  end.

Definition get_physical_interfaces (lab_id node_id : string) : M PyVal :=
  auth_check <- _check_auth ;;
  if truthy auth_check then py_subscript auth_check "error"
  else
    try_except
      (interfaces_response <- get_node_interfaces lab_id node_id ;;
       let scan interface_ids :=
         physical_interfaces <- physical_details lab_id interface_ids [] ;;
         if negb (truthy (PList physical_interfaces)) then
           ret (PStr ("No physical interfaces found for node " ++ node_id))
         else ret (PList physical_interfaces) in
       if is_error_text interfaces_response then ret interfaces_response
       else
         match interfaces_response with
         | PList interface_ids => scan interface_ids
         | PStr s =>
             if (String.length s mod 36 =? 0)%nat
             then scan (map PStr (uuid_chunks s))
             else ret (PStr ("Unexpected interface response format: " ++ s))
         | PDict d => scan (map fst d)
         | _ =>
             ret (PStr ("Unexpected interface response type: "
                        ++ py_type interfaces_response))
         end)
      (fun e => _handle_api_error "get_physical_interfaces" e).

(** *** Links between nodes *)

Definition available_endpoint (lab_id : string) (interface_id : PyVal) : string :=
  "/api/v0/labs/" ++ lab_id ++ "/interfaces/" ++ py_str interface_id
  ++ "?operational=true".

(** The [for] loop of [find_available_interface]: [Some] is the [return]
    inside the loop, [None] its normal end. *)
Fixpoint first_available (lab_id : string) (interfaces : list PyVal)
    : M (option PyVal) :=
  match interfaces with
  | [] => ret None
  | interface_id :: rest =>
      interface_detail <- request "GET" (available_endpoint lab_id interface_id)
                            no_kwargs ;;
      interface_data <- json interface_detail ;;
      type <- py_get interface_data "type" ;;
      available <- (if eq_str type "physical" then
                      is_connected <- py_get interface_data "is_connected" ;;
                      ret (key_eqb is_connected (PBool false))
                    else ret false) ;;
      if available then ret (Some interface_id)
      else first_available lab_id rest
  end.

Definition find_available_interface (lab_id node_id : string) : M PyVal :=
  auth_check <- _check_auth ;;
  if truthy auth_check then ret auth_check
  else
    try_except
      (interfaces_response <- request "GET" ("/api/v0/labs/" ++ lab_id ++ "/nodes/"
                                ++ node_id ++ "/interfaces?operational=true")
                                no_kwargs ;;
       interfaces <- json interfaces_response ;;
       let interfaces :=
         match interfaces with
         | PStr s => PList (map PStr (py_split s))
         | PDict d => PList (map fst d)
         | _ => interfaces
         end in
       if negb (truthy interfaces) then
         ret (PDict [(PStr "error", PStr ("No interfaces found for node " ++ node_id))])
       else
         interface_ids <- py_iter interfaces ;;
         found <- first_available lab_id interface_ids ;;
         match found with
         | Some interface_id => ret interface_id
         | None =>
             ret (PDict [(PStr "error",
                          PStr ("No available physical interface found for node "
                                ++ node_id))])
         end)
      (fun e => _handle_api_error "find_available_interface" e).

(** [create_link_v3] as [link_nodes] calls it, with the interface ids it got
    from [find_available_interface]: the values are sent as they are and
    formatted in the messages. *)
Definition link_data_of (interface_id_a interface_id_b : PyVal) : PyVal :=
  PDict [(PStr "src_int", interface_id_a); (PStr "dst_int", interface_id_b)].

Definition link_data_alt_of (interface_id_a interface_id_b : PyVal) : PyVal :=
  PDict [(PStr "i1", interface_id_a); (PStr "i2", interface_id_b)].

Definition create_link_standard_of (lab_id : string)
    (interface_id_a interface_id_b : PyVal) : M PyVal :=
  let between := between (py_str interface_id_a) (py_str interface_id_b) in
  print ("Creating link " ++ between) ;;
  response <- request "POST" (links_endpoint lab_id)
                {| kw_json := Some (link_data_of interface_id_a interface_id_b);
                   kw_content := None; kw_headers := Some link_headers |} ;;
  result <- json response ;;
  print ("Link creation response: " ++ py_str result) ;;
  link_id <- py_get result "id" ;;
  if negb (truthy link_id) then
    ret (PDict [(PStr "error", PStr "Failed to create link, no link ID returned");
                (PStr "response", result)])
  else
    ret (PDict [(PStr "link_id", link_id);
                (PStr "message", PStr ("Created link " ++ between));
                (PStr "status", PStr "success");
                (PStr "details", result)]).

Definition create_link_alternative_of (lab_id : string)
    (interface_id_a interface_id_b : PyVal) : M PyVal :=
  let between := between (py_str interface_id_a) (py_str interface_id_b) in
  print "First format failed, trying alternative format..." ;;
  response_alt <- request "POST" (links_endpoint lab_id)
                    {| kw_json := Some (link_data_alt_of interface_id_a interface_id_b);
                       kw_content := None; kw_headers := Some link_headers |} ;;
  result_alt <- json response_alt ;;
  print ("Link creation response (alt format): " ++ py_str result_alt) ;;
  link_id_alt <- py_get result_alt "id" ;;
  if truthy link_id_alt then
    ret (PDict [(PStr "link_id", link_id_alt);
                (PStr "message",
                 PStr ("Created link " ++ between ++ " using alternative format"));
                (PStr "status", PStr "success");
                (PStr "details", result_alt)])
  else
    ret (PDict [(PStr "error", PStr "Failed to create link with both formats")]).

Definition create_link_v3_of (lab_id : string)
    (interface_id_a interface_id_b : PyVal) : M PyVal :=
  auth_check <- _check_auth ;;
  if truthy auth_check then ret auth_check
  else
    try_except
      (create_link_standard_of lab_id interface_id_a interface_id_b)
      (fun e =>
         try_except
           (create_link_alternative_of lab_id interface_id_a interface_id_b)
           (fun alt_err =>
              print ("Alternative format also failed: " ++ str_of_exn alt_err) ;;
              _handle_api_error "create_link" e)).

Definition link_nodes (lab_id node_id_a node_id_b : string) : M PyVal :=
  auth_check <- _check_auth ;;
  if truthy auth_check then ret auth_check
  else
    try_except
      (interface_a <- find_available_interface lab_id node_id_a ;;
       if has_error interface_a then ret interface_a
       else
         interface_b <- find_available_interface lab_id node_id_b ;;
         if has_error interface_b then ret interface_b
         else create_link_v3_of lab_id interface_a interface_b)
      (fun e => _handle_api_error "link_nodes" e).

Definition delete_link (lab_id link_id : string) : M PyVal :=
  auth_check <- _check_auth ;;
  if truthy auth_check then py_subscript auth_check "error"
  else
    try_except
      (request "DELETE" ("/api/v0/labs/" ++ lab_id ++ "/links/" ++ link_id)
         no_kwargs ;;
       ret (PStr ("Link " ++ link_id ++ " deleted successfully")))
      (fun e => ret (PStr ("Error deleting link: " ++ str_of_exn e))).

(** *** Configurations *)

Definition config_endpoint (lab_id node_id : string) : string :=
  "/api/v0/labs/" ++ lab_id ++ "/nodes/" ++ node_id ++ "/config".

Definition configure_node (lab_id node_id config : string) : M PyVal :=
  auth_check <- _check_auth ;;
  if truthy auth_check then py_subscript auth_check "error"
  else
    try_except
      (request "PUT" (config_endpoint lab_id node_id)
         {| kw_json := None; kw_content := Some config; kw_headers := None |} ;;
       ret (PStr ("Configuration applied to node " ++ node_id)))
      (fun e => ret (PStr ("Error configuring node: " ++ str_of_exn e))).

Definition get_node_config (lab_id node_id : string) : M PyVal :=
  auth_check <- _check_auth ;;
  if truthy auth_check then py_subscript auth_check "error"
  else
    try_except
      (response <- request "GET" (config_endpoint lab_id node_id) no_kwargs ;;
       let config := text response in
       ret (PStr config))
      (fun e => ret (PStr ("Error getting node configuration: " ++ str_of_exn e))).

(** *** The topology summary *)

(** The arrow U+2192 of the link lines is outside the alphabet of the
    strings here; it stands as its three UTF-8 bytes, and nothing measures
    or encodes the text it is part of. *)
Definition arrow : string :=
  String "226"%char (String "134"%char (String "146"%char EmptyString)).

(** The loop over the nodes. *)
Fixpoint topology_nodes (items : list (PyVal * PyVal)) (result : string) : M string :=
  match items with
  | [] => ret result
  | (node_id, node) :: rest =>
      label <- py_get_default node "label" (PStr "Unnamed") ;;
      let result :=
        result ++ "- " ++ py_str label ++ " (ID: " ++ py_str node_id ++ ")" ++ nl in
      definition <- py_get_default node "node_definition" (PStr "unknown") ;;
      let result := result ++ "  Type: " ++ py_str definition ++ nl in
      state <- py_get_default node "state" (PStr "unknown") ;;
      topology_nodes rest (result ++ "  State: " ++ py_str state ++ nl)
  end.

(** The loop over the links; [nodes] are the items of the dict of nodes. *)
Fixpoint topology_links (nodes items : list (PyVal * PyVal)) (result : string)
    : M string :=
  match items with
  | [] => ret result
  | (link_id, link) :: rest =>
      src_node_id <- py_get link "src_node" ;;
      dst_node_id <- py_get link "dst_node" ;;
      src_known <- dict_contains nodes src_node_id ;;
      both_known <- (if src_known then dict_contains nodes dst_node_id
                     else ret false) ;;
      line <- (if both_known then
                 node <- dict_subscript nodes src_node_id ;;
                 src_node <- py_get_default node "label" src_node_id ;;
                 node <- dict_subscript nodes dst_node_id ;;
                 dst_node <- py_get_default node "label" dst_node_id ;;
                 src_int <- py_get_default link "src_int" (PStr "unknown") ;;
                 dst_int <- py_get_default link "dst_int" (PStr "unknown") ;;
                 ret ("- Link " ++ py_str link_id ++ ": " ++ py_str src_node
                      ++ " (" ++ py_str src_int ++ ") " ++ arrow ++ " "
                      ++ py_str dst_node ++ " (" ++ py_str dst_int ++ ")" ++ nl)
               else
                 src_int <- py_get link "src_int" ;;
                 dst_int <- py_get link "dst_int" ;;
                 ret ("- Link " ++ py_str link_id ++ ": " ++ py_str src_node_id
                      ++ ":" ++ py_str src_int ++ " " ++ arrow ++ " "
                      ++ py_str dst_node_id ++ ":" ++ py_str dst_int ++ nl)) ;;
      topology_links nodes rest (result ++ line)
  end.

Definition get_lab_topology (lab_id : string) : M PyVal :=
  auth_check <- _check_auth ;;
  if truthy auth_check then py_subscript auth_check "error"
  else
    try_except
      (lab_details <- get_lab_details lab_id ;;
       if has_error lab_details then py_subscript lab_details "error"
       else
         nodes <- get_lab_nodes lab_id ;;
         if is_error_text nodes then ret nodes
         else
           links <- get_lab_links lab_id ;;
           if is_error_text links then ret links
           else
             title <- py_get_default lab_details "title" (PStr "Untitled") ;;
             let result := "Lab Topology: " ++ py_str title ++ nl in
             state <- py_get_default lab_details "state" (PStr "unknown") ;;
             let result := result ++ "State: " ++ py_str state ++ nl in
             description <- py_get_default lab_details "description" (PStr "None") ;;
             let result := result ++ "Description: " ++ py_str description ++ nl ++ nl in
             let result := result ++ "Nodes:" ++ nl in
             node_items <- py_items nodes ;;
             result <- topology_nodes node_items result ;;
             let result := result ++ nl ++ "Links:" ++ nl in
             link_items <- py_items links ;;
             result <- topology_links node_items link_items result ;;
             ret (PStr result))
      (fun e => ret (PStr ("Error getting lab topology: " ++ str_of_exn e))).

(** *** Lab templates *)

Definition create_simple_network (title description : string) : M PyVal :=
  auth_check <- _check_auth ;;
  if truthy auth_check then ret auth_check
  else
    try_except
      (lab_response <- create_lab title description ;;
       failed <- py_in "error" lab_response ;;
       if failed then ret lab_response
       else
         lab_id <- py_subscript lab_response "lab_id" ;;
         router_result <- create_router (py_str lab_id) "Router1" 50 50 ;;
         failed <- py_in "error" router_result ;;
         if failed then
           error <- py_subscript router_result "error" ;;
           ret (PDict [(PStr "error",
                        PStr ("Failed to create router: " ++ py_str error))])
         else
           switch_result <- create_switch (py_str lab_id) "Switch1" 8 50 150 ;;
           failed <- py_in "error" switch_result ;;
           if failed then
             error <- py_subscript switch_result "error" ;;
             ret (PDict [(PStr "error",
                          PStr ("Failed to create switch: " ++ py_str error))])
           else
             router_id <- py_subscript router_result "node_id" ;;
             switch_id <- py_subscript switch_result "node_id" ;;
             link_result <- link_nodes (py_str lab_id) (py_str router_id)
                              (py_str switch_id) ;;
             router_id <- py_subscript router_result "node_id" ;;
             switch_id <- py_subscript switch_result "node_id" ;;
             linked <- py_in "link_id" link_result ;;
             ret (PDict [(PStr "lab_id", lab_id);
                         (PStr "title", PStr title);
                         (PStr "router_id", router_id);
                         (PStr "switch_id", switch_id);
                         (PStr "link_status",
                          PStr (if linked then "success" else "failed"));
                         (PStr "link_details", link_result)]))
      (fun e => _handle_api_error "create_simple_network" e).

(** *** generate_switch_stp_config

    The tool sends nothing and catches nothing; the one exception it can
    raise is the IndexError of [vlans[0]], shown here as [None]. *)

Definition stp_config_lines (switch_name stp_mode role : string) (vlans : list Z)
    (mst_instance_mapping : option (list (Z * list Z))) : option (list string) :=
  let config_lines :=
    ["! " ++ switch_name ++ " Configuration";
     "!";
     "hostname " ++ switch_name;
     "!";
     "! VLANs Configuration"] in
  let config_lines :=
    List.app config_lines (
     flat_map (fun vlan_id =>
                 if (vlan_id =? 1)%Z then []
                 else ["vlan " ++ str_of_int vlan_id;
                       " name VLAN" ++ str_of_int vlan_id;
                       "!"]) vlans) in
  let config_lines := List.app config_lines ( ["! Spanning-tree Configuration"]) in
  let config_lines :=
    if String.eqb stp_mode "mst" then
      let config_lines := List.app config_lines ( ["spanning-tree mode mst"]) in
      let config_lines :=
        List.app config_lines (
         ["!";
          "! Configure MST instance to VLAN mapping";
          "spanning-tree mst configuration";
          " name " ++ switch_name ++ "-REGION";
          " revision 1"]) in
      let config_lines :=
        match mst_instance_mapping with
        | Some ((_ :: _) as items) =>
            List.app config_lines (
             map (fun '(instance, mapped_vlans) =>
                    let vlan_list := String.concat "," (map str_of_int mapped_vlans) in
                    " instance " ++ str_of_int instance ++ " vlan " ++ vlan_list)
                 items)
        | _ =>
            List.app config_lines (
             [" instance 1 vlan 10, 20";
              " instance 2 vlan 30, 40"])
        end in
      if String.eqb role "root" then
        List.app config_lines (
         ["!";
          "! Set as MST root for instance 0 (CST)";
          "spanning-tree mst 0 priority 4096";
          "spanning-tree mst 1 priority 4096";
          "spanning-tree mst 2 priority 4096"])
      else if String.eqb role "secondary" then
        List.app config_lines (
         ["!";
          "! Set as MST secondary root";
          "spanning-tree mst 0 priority 8192";
          "spanning-tree mst 1 priority 8192";
          "spanning-tree mst 2 priority 8192"])
      else
        List.app config_lines (
         ["!";
          "! Normal switch (not root)";
          "spanning-tree mst 0 priority 32768";
          "spanning-tree mst 1 priority 32768";
          "spanning-tree mst 2 priority 32768"])
    else if String.eqb stp_mode "rapid-pvst" then
      let config_lines := List.app config_lines ( ["spanning-tree mode rapid-pvst"]) in
      if String.eqb role "root" then
        List.app config_lines (
         map (fun vlan_id =>
                "spanning-tree vlan " ++ str_of_int vlan_id ++ " priority 4096")
             vlans)
      else if String.eqb role "secondary" then
        List.app config_lines (
         map (fun vlan_id =>
                "spanning-tree vlan " ++ str_of_int vlan_id ++ " priority 8192")
             vlans)
      else
        List.app config_lines (
         map (fun vlan_id =>
                "spanning-tree vlan " ++ str_of_int vlan_id ++ " priority 32768")
             vlans)
    else
      let config_lines := List.app config_lines ( ["spanning-tree mode pvst"]) in
      if String.eqb role "root" then
        List.app config_lines (
         map (fun vlan_id =>
                "spanning-tree vlan " ++ str_of_int vlan_id ++ " priority 4096")
             vlans)
      else if String.eqb role "secondary" then
        List.app config_lines (
         map (fun vlan_id =>
                "spanning-tree vlan " ++ str_of_int vlan_id ++ " priority 8192")
             vlans)
      else
        List.app config_lines (
         map (fun vlan_id =>
                "spanning-tree vlan " ++ str_of_int vlan_id ++ " priority 32768")
             vlans) in
  let config_lines :=
    List.app config_lines (
     ["!";
      "! Common STP features";
      "spanning-tree extend system-id";
      "spanning-tree portfast edge default";
      "spanning-tree portfast bpduguard default"]) in
  let config_lines :=
    List.app config_lines (
     ["!";
      "! Configure interfaces";
      "!";
      "interface range GigabitEthernet0/0 - 7";
      " switchport trunk encapsulation dot1q";
      " switchport mode trunk";
      " switchport trunk allowed vlan all";
      " no shutdown"]) in
  match vlans with
  | [] => None
  | first :: _ =>
      Some (List.app config_lines (
            ["!";
             "! Management interface";
             "interface Vlan1";
             " ip address 10.0.0." ++ str_of_int first ++ " 255.255.255.0";
             " no shutdown";
             "!";
             "! End of configuration"]))
  end.

Definition generate_switch_stp_config (switch_name stp_mode role : string)
    (vlans : list Z) (mst_instance_mapping : option (list (Z * list Z)))
    : option string :=
  match stp_config_lines switch_name stp_mode role vlans mst_instance_mapping with
  | Some config_lines => Some (String.concat nl config_lines)
  | None => None
  end.

(** *** create_stp_lab and create_ospf_lab *)

(** One switch of [create_stp_lab]: create it, then append its entry. *)
Definition add_switch (lab_id name : string) (interfaces_per_switch x y : Z)
    (layer : string) (switches : list PyVal) : M (list PyVal) :=
  result <- create_switch lab_id name interfaces_per_switch x y ;;
  node_id <- py_subscript result "node_id" ;;
  ret (switches ++ [PDict [(PStr "name", PStr name); (PStr "id", node_id);
                           (PStr "layer", PStr layer)]])%list.

(** One link of [create_stp_lab], between [switches[i]] and [switches[j]];
    the tests on [len(switches)] keep both indices in range. *)
Definition connect (lab_id : string) (switches : list PyVal) (i j : nat)
    (links : list PyVal) : M (list PyVal) :=
  id_i <- py_subscript (nth i switches PNone) "id" ;;
  id_j <- py_subscript (nth j switches PNone) "id" ;;
  link <- link_nodes lab_id (py_str id_i) (py_str id_j) ;;
  from <- py_subscript (nth i switches PNone) "name" ;;
  to <- py_subscript (nth j switches PNone) "name" ;;
  link_id <- py_get link "link_id" ;;
  ret (links ++ [PDict [(PStr "from", from); (PStr "to", to);
                        (PStr "id", link_id)]])%list.

Definition create_stp_lab (title description : string)
    (num_switches interfaces_per_switch : Z) : M PyVal :=
  auth_check <- _check_auth ;;
  if truthy auth_check then ret auth_check
  else
    try_except
      (lab_response <- create_lab title description ;;
       failed <- py_in "error" lab_response ;;
       if failed then ret lab_response
       else
         lab_id <- py_subscript lab_response "lab_id" ;;
         let lab := py_str lab_id in
         let n := interfaces_per_switch in
         let switches := [] in
         switches <- add_switch lab "SW1-Core" n 100 100 "core" switches ;;
         switches <- add_switch lab "SW2-Core" n 300 100 "core" switches ;;
         switches <-
           (if (num_switches >? 2)%Z then
              switches <- add_switch lab "SW3-Distribution" n 50 200
                            "distribution" switches ;;
              add_switch lab "SW4-Distribution" n 350 200 "distribution" switches
            else ret switches) ;;
         switches <-
           (if (num_switches >? 4)%Z then
              switches <- add_switch lab "SW5-Access" n 150 300 "access" switches ;;
              add_switch lab "SW6-Access" n 250 300 "access" switches
            else ret switches) ;;
         let links := [] in
         links <-
           (if (2 <=? List.length switches)%nat then connect lab switches 0 1 links
            else ret links) ;;
         links <-
           (if (4 <=? List.length switches)%nat then
              links <- connect lab switches 0 2 links ;;
              links <- connect lab switches 0 3 links ;;
              links <- connect lab switches 1 2 links ;;
              links <- connect lab switches 1 3 links ;;
              connect lab switches 2 3 links
            else ret links) ;;
         links <-
           (if (6 <=? List.length switches)%nat then
              links <- connect lab switches 2 4 links ;;
              links <- connect lab switches 2 5 links ;;
              links <- connect lab switches 3 4 links ;;
              links <- connect lab switches 3 5 links ;;
              connect lab switches 4 5 links
            else ret links) ;;
         ret (PDict [(PStr "lab_id", lab_id);
                     (PStr "title", PStr title);
                     (PStr "switches", PList switches);
                     (PStr "links", PList links);
                     (PStr "status", PStr "success");
                     (PStr "message",
                      PStr ("Created STP lab with "
                            ++ str_of_int (Z.of_nat (List.length switches))
                            ++ " switches, each having "
                            ++ str_of_int interfaces_per_switch ++ " interfaces"))]))
      (fun e => _handle_api_error "create_stp_lab" e).

Definition ospf_config (router address : string) : string :=
  String.concat nl
    [EmptyString;
     "! Basic " ++ router ++ " Configuration with OSPF";
     "!";
     "hostname " ++ router;
     "!";
     "interface GigabitEthernet0/0";
     " ip address " ++ address ++ " 255.255.255.0";
     " no shutdown";
     "!";
     "router ospf 1";
     " network 10.0.0.0 0.0.0.255 area 0";
     "!";
     EmptyString].

Definition OSPF_INSTRUCTIONS : string :=
  "Lab created with OSPF routing between Router1 (10.0.0.1) and Router2 (10.0.0.2). Start the lab to test connectivity.".

Definition create_ospf_lab (title description : string) : M PyVal :=
  auth_check <- _check_auth ;;
  if truthy auth_check then ret auth_check
  else
    try_except
      (lab_response <- create_lab title description ;;
       failed <- py_in "error" lab_response ;;
       if failed then ret lab_response
       else
         lab_id <- py_subscript lab_response "lab_id" ;;
         let lab := py_str lab_id in
         router1_result <- create_router lab "Router1" 50 50 ;;
         failed <- py_in "error" router1_result ;;
         if failed then
           error <- py_subscript router1_result "error" ;;
           ret (PDict [(PStr "error",
                        PStr ("Failed to create Router1: " ++ py_str error))])
         else
           router2_result <- create_router lab "Router2" 200 50 ;;
           failed <- py_in "error" router2_result ;;
           if failed then
             error <- py_subscript router2_result "error" ;;
             ret (PDict [(PStr "error",
                          PStr ("Failed to create Router2: " ++ py_str error))])
           else
             router1_id <- py_subscript router1_result "node_id" ;;
             router2_id <- py_subscript router2_result "node_id" ;;
             link_result <- link_nodes lab (py_str router1_id) (py_str router2_id) ;;
             failed <- py_in "error" link_result ;;
             if failed then
               error <- py_subscript link_result "error" ;;
               ret (PDict [(PStr "error",
                            PStr ("Failed to link routers: " ++ py_str error))])
             else
               let router1_config := ospf_config "Router1" "10.0.0.1" in
               router1_id <- py_subscript router1_result "node_id" ;;
               configure_node lab (py_str router1_id) router1_config ;;
               let router2_config := ospf_config "Router2" "10.0.0.2" in
               router2_id <- py_subscript router2_result "node_id" ;;
               configure_node lab (py_str router2_id) router2_config ;;
               router1_id <- py_subscript router1_result "node_id" ;;
               router2_id <- py_subscript router2_result "node_id" ;;
               link_id <- py_get link_result "link_id" ;;
               ret (PDict [(PStr "lab_id", lab_id);
                           (PStr "title", PStr title);
                           (PStr "router1_id", router1_id);
                           (PStr "router2_id", router2_id);
                           (PStr "link_id", link_id);
                           (PStr "status", PStr "success");
                           (PStr "instructions", PStr OSPF_INSTRUCTIONS)]))
      (fun e => _handle_api_error "create_ospf_lab" e).

End MoreTools.

(** ** Reading a trace *)

Definition exchange : Type := option string * HttpRequest * Outcome.

(** Number of times [authenticate] was entered. *)
Fixpoint auth_calls (evs : list Event) : nat :=
  match evs with
  | [] => 0
  | EvAuthenticate :: tl => S (auth_calls tl)
  | _ :: tl => auth_calls tl
  end.

(** The calls of [request]: method, endpoint and json payload. *)
Fixpoint request_calls (evs : list Event) : list (string * string * option PyVal) :=
  match evs with
  | [] => []
  | EvRequest m ep js :: tl => (m, ep, js) :: request_calls tl
  | _ :: tl => request_calls tl
  end.

(** The exchanges that [request] itself put on the wire (client.request). *)
Fixpoint issued (evs : list Event) : list exchange :=
  match evs with
  | [] => []
  | EvSend ViaRequest stored rq out :: tl => (stored, rq, out) :: issued tl
  | _ :: tl => issued tl
  end.

(** The login exchanges (client.post) and the verification ones (client.get). *)
Fixpoint logins (evs : list Event) : list exchange :=
  match evs with
  | [] => []
  | EvSend ViaPost stored rq out :: tl => (stored, rq, out) :: logins tl
  | _ :: tl => logins tl
  end.

Fixpoint verifications (evs : list Event) : list exchange :=
  match evs with
  | [] => []
  | EvSend ViaGet stored rq out :: tl => (stored, rq, out) :: verifications tl
  | _ :: tl => verifications tl
  end.

(** Every request that went out, whoever sent it. *)
Fixpoint wire (evs : list Event) : list HttpRequest :=
  match evs with
  | [] => []
  | EvSend _ _ rq _ :: tl => rq :: wire tl
  | _ :: tl => wire tl
  end.

Fixpoint sleeps (evs : list Event) : list N :=
  match evs with
  | [] => []
  | EvSleep n :: tl => n :: sleeps tl
  | _ :: tl => sleeps tl
  end.

(** The events before, and after, the first exchange issued by [request]. *)
Fixpoint before_issue (evs : list Event) : list Event :=
  match evs with
  | [] => []
  | EvSend ViaRequest _ _ _ :: _ => []
  | ev :: tl => ev :: before_issue tl
  end.

Fixpoint after_issue (evs : list Event) : list Event :=
  match evs with
  | [] => []
  | EvSend ViaRequest _ _ _ :: tl => tl
  | _ :: tl => after_issue tl
  end.

Section Reading.

Context {R : Remote}.

(** The events of a run from [w] to [w']. *)
Definition since (w w' : World) : list Event :=
  skipn (length (trace w)) (trace w').

Definition stored_token (w : World) : option string :=
  match cml_auth w with
  | Some self => token self
  | None => None
  end.

(** The requests [authenticate] builds for the session [self]. *)
Definition login_request (self : CMLAuth) : HttpRequest :=
  {| rq_method := "POST"; rq_base := ac_base_url (client self);
     rq_endpoint := "/api/v0/authenticate";
     rq_headers := ac_headers (client self);
     rq_json := Some (PDict [(PStr "username", PStr (username self));
                             (PStr "password", PStr (password self))]);
     rq_content := None |}.

(** The session after a login that returned the body [body]. *)
Definition refreshed (self : CMLAuth) (body : string) : CMLAuth :=
  with_client_headers (with_token self (Some (strip dquote body)))
    (hset (ac_headers (client self)) "Authorization"
          ("Bearer " ++ strip dquote body)).

(** The session after a login whose token cannot go into a header: the token
    is stored, the headers of the client are as they were. *)
Definition garbled (self : CMLAuth) (body : string) : CMLAuth :=
  with_token self (Some (strip dquote body)).

(** The exception of [headers.update] for the token [t]. *)
Definition unencodable_token (t : string) : Exn :=
  UnicodeEncodeError ("Bearer " ++ t).

Definition authok_request (self : CMLAuth) : HttpRequest :=
  {| rq_method := "GET"; rq_base := ac_base_url (client self);
     rq_endpoint := "/api/v0/authok";
     rq_headers := ac_headers (client self);
     rq_json := None; rq_content := None |}.

(** The line [authenticate] prints after the verification call. *)
Definition verification_line (rq : HttpRequest) (out : Outcome) : string :=
  match out with
  | Failed detail =>
      "Warning: Token verification failed: " ++ str_of_exn (TransportError detail)
  | Replied rp =>
      if is_success (rp_status rp)
      then "Authentication successful, token verified"
      else "Warning: Token verification failed: "
           ++ str_of_exn (HTTPStatusError {| rs_request := rq; rs_reply := rp |})
  end.

(** The exception an exchange ends in: none for a 2xx reply. *)
Definition exchange_error (rq : HttpRequest) (out : Outcome) : option Exn :=
  match out with
  | Failed detail => Some (TransportError detail)
  | Replied rp =>
      if is_success (rp_status rp) then None
      else Some (HTTPStatusError {| rs_request := rq; rs_reply := rp |})
  end.

(** The request the client of [self] puts on the wire for one call. *)
Definition call_request (self : CMLAuth) (method endpoint : string)
    (hdrs : Headers) (js : option PyVal) (content : option string) : HttpRequest :=
  {| rq_method := method; rq_base := ac_base_url (client self);
     rq_endpoint := endpoint;
     rq_headers := hupdate (ac_headers (client self)) hdrs;
     rq_json := js; rq_content := content |}.

(** What [authenticate] leaves in the trace: up to the login exchange, and
    from the verification call on. *)
Definition login_events (self : CMLAuth) (out : Outcome) : list Event :=
  [EvAuthenticate;
   EvStderr ("Authenticating with CML at " ++ base_url self);
   EvSend ViaPost (token self) (login_request self) out].

Definition verify_events (self' : CMLAuth) (check : Outcome) : list Event :=
  [EvSend ViaGet (token self') (authok_request self') check;
   EvStderr (verification_line (authok_request self') check)].

(** *** The runs of [request], case by case

    [request] is its prologue (the call is noted, a missing token is fetched,
    the call is announced) followed by the [try] block with its handler. *)

Definition request_prologue (method endpoint : string) (kwargs : Kwargs) : M unit :=
  emit (EvRequest method endpoint (kw_json kwargs)) ;;
  self <- get_self ;;
  (if no_token (token self) then authenticate ;; ret tt else ret tt) ;;
  print ("Making " ++ method ++ " request to " ++ endpoint).

Definition request_attempt (method endpoint : string) (kwargs : Kwargs) : M Response :=
  let headers := match kw_headers kwargs with Some h => h | None => [] end in
  self <- get_self ;;
  let headers := hset headers "Authorization" (bearer (token self)) in
  try_except
    (response <- transport ViaRequest method endpoint headers
                   (kw_json kwargs) (kw_content kwargs) ;;
     response <-
       (if (status_code response =? 401)%Z then
          print "Got 401 response, re-authenticating..." ;;
          authenticate ;;
          self <- get_self ;;
          let headers := hset headers "Authorization" (bearer (token self)) in
          transport ViaRequest method endpoint headers
            (kw_json kwargs) (kw_content kwargs)
        else ret response) ;;
     raise_for_status response ;;
     ret response)
    (fun e => print ("Request error: " ++ str_of_exn e) ;; raise e).

Definition announce (method endpoint : string) : Event :=
  EvStderr ("Making " ++ method ++ " request to " ++ endpoint).

Definition complaint (e : Exn) : Event :=
  EvStderr ("Request error: " ++ str_of_exn e).

Definition is_401 (out : Outcome) : bool :=
  match out with
  | Replied rp => (rp_status rp =? 401)%Z
  | Failed _ => false
  end.

Inductive Prologue (w : World) (self : CMLAuth) (m ep : string) (kw : Kwargs)
    : Res unit -> Prop :=
| PrologueHeld :
    no_token (token self) = false ->
    Prologue w self m ep kw
      (Return tt (Build_World (Some self) (remote w) (clock w)
                    (trace w ++ [EvRequest m ep (kw_json kw); announce m ep])))
| PrologueRefused login lat srv e :
    no_token (token self) = true ->
    serve (remote w) (login_request self) = (login, lat, srv) ->
    exchange_error (login_request self) login = Some e ->
    Prologue w self m ep kw
      (Raise e (Build_World (Some self) srv (clock w + lat)
                  (trace w ++ EvRequest m ep (kw_json kw)
                           :: login_events self login)))
| PrologueGarbled rp lat srv :
    no_token (token self) = true ->
    serve (remote w) (login_request self) = (Replied rp, lat, srv) ->
    is_success (rp_status rp) = true ->
    is_ascii (strip dquote (rp_text rp)) = false ->
    Prologue w self m ep kw
      (Raise (unencodable_token (strip dquote (rp_text rp)))
         (Build_World (Some (garbled self (rp_text rp))) srv (clock w + lat)
            (trace w ++ EvRequest m ep (kw_json kw)
                     :: login_events self (Replied rp))))
| PrologueGranted rp lat srv check lat' srv' :
    no_token (token self) = true ->
    serve (remote w) (login_request self) = (Replied rp, lat, srv) ->
    is_success (rp_status rp) = true ->
    is_ascii (strip dquote (rp_text rp)) = true ->
    serve srv (authok_request (refreshed self (rp_text rp))) = (check, lat', srv') ->
    Prologue w self m ep kw
      (Return tt (Build_World (Some (refreshed self (rp_text rp))) srv'
                    (clock w + lat + lat')
                    (trace w ++ EvRequest m ep (kw_json kw)
                             :: login_events self (Replied rp)
                             ++ verify_events (refreshed self (rp_text rp)) check
                             ++ [announce m ep]))).

(** The headers [request] passes to the client, and the two requests it can
    issue: the first with the token held by [self], the retry with the token
    of the refreshed session. *)
Definition call_headers (kw : Kwargs) (t : option string) : Headers :=
  hset match kw_headers kw with Some h => h | None => [] end
       "Authorization" (bearer t).

Definition first_request (self : CMLAuth) (m ep : string) (kw : Kwargs) : HttpRequest :=
  call_request self m ep (call_headers kw (token self)) (kw_json kw) (kw_content kw).

Definition retry_request (self self' : CMLAuth) (m ep : string) (kw : Kwargs)
    : HttpRequest :=
  call_request self' m ep
    (hset (call_headers kw (token self)) "Authorization" (bearer (token self')))
    (kw_json kw) (kw_content kw).

Inductive Attempt (w : World) (self : CMLAuth) (m ep : string) (kw : Kwargs)
    : Res Response -> Prop :=
| AttemptOk rp lat srv :
    serve (remote w) (first_request self m ep kw) = (Replied rp, lat, srv) ->
    is_success (rp_status rp) = true ->
    Attempt w self m ep kw
      (Return {| rs_request := first_request self m ep kw; rs_reply := rp |}
         (Build_World (Some self) srv (clock w + lat)
            (trace w ++ [EvSend ViaRequest (token self)
                           (first_request self m ep kw) (Replied rp)])))
| AttemptError out lat srv e :
    serve (remote w) (first_request self m ep kw) = (out, lat, srv) ->
    is_401 out = false ->
    exchange_error (first_request self m ep kw) out = Some e ->
    Attempt w self m ep kw
      (Raise e
         (Build_World (Some self) srv (clock w + lat)
            (trace w ++ [EvSend ViaRequest (token self)
                           (first_request self m ep kw) out;
                         complaint e])))
| AttemptReauthRefused rp lat srv login lat' srv' e :
    serve (remote w) (first_request self m ep kw) = (Replied rp, lat, srv) ->
    rp_status rp = 401%Z ->
    serve srv (login_request self) = (login, lat', srv') ->
    exchange_error (login_request self) login = Some e ->
    Attempt w self m ep kw
      (Raise e
         (Build_World (Some self) srv' (clock w + lat + lat')
            (trace w ++ [EvSend ViaRequest (token self)
                           (first_request self m ep kw) (Replied rp);
                         EvStderr "Got 401 response, re-authenticating..."]
                     ++ login_events self login
                     ++ [complaint e])))
| AttemptReauthGarbled rp lat srv rp' lat' srv' :
    serve (remote w) (first_request self m ep kw) = (Replied rp, lat, srv) ->
    rp_status rp = 401%Z ->
    serve srv (login_request self) = (Replied rp', lat', srv') ->
    is_success (rp_status rp') = true ->
    is_ascii (strip dquote (rp_text rp')) = false ->
    let e := unencodable_token (strip dquote (rp_text rp')) in
    Attempt w self m ep kw
      (Raise e
         (Build_World (Some (garbled self (rp_text rp'))) srv' (clock w + lat + lat')
            (trace w ++ [EvSend ViaRequest (token self)
                           (first_request self m ep kw) (Replied rp);
                         EvStderr "Got 401 response, re-authenticating..."]
                     ++ login_events self (Replied rp')
                     ++ [complaint e])))
| AttemptRetryOk rp lat srv rp' lat' srv' check lat'' srv'' rp2 lat2 srv2 :
    serve (remote w) (first_request self m ep kw) = (Replied rp, lat, srv) ->
    rp_status rp = 401%Z ->
    serve srv (login_request self) = (Replied rp', lat', srv') ->
    is_success (rp_status rp') = true ->
    is_ascii (strip dquote (rp_text rp')) = true ->
    let self' := refreshed self (rp_text rp') in
    serve srv' (authok_request self') = (check, lat'', srv'') ->
    serve srv'' (retry_request self self' m ep kw) = (Replied rp2, lat2, srv2) ->
    is_success (rp_status rp2) = true ->
    Attempt w self m ep kw
      (Return {| rs_request := retry_request self self' m ep kw; rs_reply := rp2 |}
         (Build_World (Some self') srv2 (clock w + lat + lat' + lat'' + lat2)
            (trace w ++ [EvSend ViaRequest (token self)
                           (first_request self m ep kw) (Replied rp);
                         EvStderr "Got 401 response, re-authenticating..."]
                     ++ login_events self (Replied rp')
                     ++ verify_events self' check
                     ++ [EvSend ViaRequest (token self')
                           (retry_request self self' m ep kw) (Replied rp2)])))
| AttemptRetryError rp lat srv rp' lat' srv' check lat'' srv'' out2 lat2 srv2 e :
    serve (remote w) (first_request self m ep kw) = (Replied rp, lat, srv) ->
    rp_status rp = 401%Z ->
    serve srv (login_request self) = (Replied rp', lat', srv') ->
    is_success (rp_status rp') = true ->
    is_ascii (strip dquote (rp_text rp')) = true ->
    let self' := refreshed self (rp_text rp') in
    serve srv' (authok_request self') = (check, lat'', srv'') ->
    serve srv'' (retry_request self self' m ep kw) = (out2, lat2, srv2) ->
    exchange_error (retry_request self self' m ep kw) out2 = Some e ->
    Attempt w self m ep kw
      (Raise e
         (Build_World (Some self') srv2 (clock w + lat + lat' + lat'' + lat2)
            (trace w ++ [EvSend ViaRequest (token self)
                           (first_request self m ep kw) (Replied rp);
                         EvStderr "Got 401 response, re-authenticating..."]
                     ++ login_events self (Replied rp')
                     ++ verify_events self' check
                     ++ [EvSend ViaRequest (token self')
                           (retry_request self self' m ep kw) out2;
                         complaint e]))).

End Reading.

(** ** What is stated about the gateway *)

(** A dict holds each key once. *)
Definition kwargs_ok (kw : Kwargs) : Prop :=
  match kw_headers kw with
  | Some h => NoDup (map fst h)
  | None => True
  end.

(** The token invariant of the session: absent, or a non-empty string. *)
Definition token_ok (t : option string) : Prop :=
  match t with
  | None => True
  | Some s => s <> EmptyString
  end.

(** Two sessions that differ in nothing but the stored token. *)
Definition only_token_differs (a b : CMLAuth) : Prop :=
  with_token b (token a) = a.

(** Two sessions with the same server address, credentials and transport
    settings (the token and the transport's headers aside). *)
Definition same_identity (a b : CMLAuth) : Prop :=
  base_url a = base_url b /\ username a = username b /\
  password a = password b /\ verify_ssl a = verify_ssl b /\
  ac_base_url (client a) = ac_base_url (client b) /\
  ac_verify (client a) = ac_verify (client b).

(** What one login does to the session: it stores a token [t] and, when [t]
    is made of ASCII characters, sets the transport's Authorization header
    to Bearer [t]; for another [t] the headers stay as they were. *)
Definition login_step (a b : CMLAuth) : Prop :=
  exists t,
    token b = Some t /\
    ac_headers (client b)
      = if is_ascii t
        then hset (ac_headers (client a)) "Authorization" ("Bearer " ++ t)
        else ac_headers (client a).

(** What a gateway operation may do to the session, login by login: nothing,
    or one login. *)
Definition session_step (a b : CMLAuth) : Prop :=
  same_identity a b /\
  ((token b = token a /\ ac_headers (client b) = ac_headers (client a)) \/
   login_step a b).

(** The login endpoint never answers a success with a body that is empty
    once its quotes are stripped. *)
Definition login_bodies_nonempty {R : Remote} : Prop :=
  forall s rq rp lat s',
    serve s rq = (Replied rp, lat, s') ->
    rq_endpoint rq = "/api/v0/authenticate" ->
    is_success (rp_status rp) = true ->
    strip dquote (rp_text rp) <> EmptyString.

(** C1 as the specification words it: after a first answer 401 the session
    authenticates once and the request goes out once more, whatever the login
    answers. *)
Definition retries_once_on_401 {R : Remote} (w : World) (m ep : string)
    (kw : Kwargs) : Prop :=
  let r := request m ep kw w in
  let evs := since w (final r w) in
  forall stored rq rp rest,
    issued evs = (stored, rq, Replied rp) :: rest ->
    rp_status rp = 401%Z ->
    auth_calls (after_issue evs) = 1 /\ length rest = 1.

(** C3 as the specification words it, for the second half: after a login
    that was accepted the verification call is made and the token is
    returned. *)
Definition verifies_accepted_login {R : Remote} (w : World) : Prop :=
  forall self rp lat srv,
    cml_auth w = Some self ->
    serve (remote w) (login_request self) = (Replied rp, lat, srv) ->
    is_success (rp_status rp) = true ->
    exists t w',
      authenticate w = Return (Some t) w' /\
      verifications (since w w') <> [].

(** C7 as the specification words it, for [authenticate]: a session whose
    token is absent or non-empty is left in that condition. *)
Definition authenticate_keeps_token_ok {R : Remote} (w : World) : Prop :=
  token_ok (stored_token w) ->
  token_ok (stored_token (final (authenticate w) w)).

(** C8 as the specification words it, for [authenticate]: the session after
    the call is the session before it, the token aside. *)
Definition authenticate_touches_only_token {R : Remote} (w : World) : Prop :=
  forall self self',
    cml_auth w = Some self ->
    cml_auth (final (authenticate w) w) = Some self' ->
    only_token_differs self self'.

(** C8 as the specification words it, for the program as a whole: nothing
    that is shared changes but the token, so the session the module global
    holds after a call of the tool [t] is the one it held before, the token
    aside. *)
Definition token_is_the_only_mutable_state {R : Remote} (t : M PyVal) (w : World)
    : Prop :=
  forall self self',
    cml_auth w = Some self ->
    cml_auth (final (t w) w) = Some self' ->
    only_token_differs self self'.

(** ** What is stated about the tools *)

(** *** Footprints *)

(** A call of [request]: method, endpoint, json payload. *)
Definition call : Type := string * string * option PyVal.

(** The requests that may be on the wire when the calls [calls] were made:
    those calls themselves, the login and the verification. *)
Definition allowed (calls : list call) (rq : HttpRequest) : Prop :=
  (rq_method rq = "POST" /\ rq_endpoint rq = "/api/v0/authenticate") \/
  (rq_method rq = "GET" /\ rq_endpoint rq = "/api/v0/authok") \/
  In (rq_method rq, rq_endpoint rq, rq_json rq) calls.

(** What a run from [w] to [w'] that made the calls [calls] and never slept
    leaves behind. *)
Record Footprint {R : Remote} (calls : list call) (w w' : World) : Prop := {
  fp_session : exists self', cml_auth w' = Some self';
  fp_clock : (clock w <= clock w')%N;
  fp_trace : exists evs,
      trace w' = (trace w ++ evs)%list /\
      request_calls evs = calls /\
      sleeps evs = [] /\
      Forall (allowed calls) (wire evs)
}.

(** A computation that stopped, by returning or by raising, with the
    footprint of the calls [calls]. *)
Definition stops_with {R : Remote} {A} (calls : list call) (w : World)
    (r : Res A) : Prop :=
  match r with
  | Return _ w' => Footprint calls w w'
  | Raise _ w' => Footprint calls w w'
  | OutOfFuel => False
  end.

(** Lines on stderr and tracebacks do not show in a footprint. *)
Definition silent (ev : Event) : Prop :=
  match ev with
  | EvStderr _ | EvTraceback _ => True
  | _ => False
  end.

(** A world that differs from [w] by lines on stderr and tracebacks only:
    nothing was sent and no time has passed in between. *)
Definition quiet {R : Remote} (w w' : World) : Prop :=
  cml_auth w' = cml_auth w /\ remote w' = remote w /\ clock w' = clock w /\
  exists evs, trace w' = (trace w ++ evs)%list /\ Forall silent evs.

(** What a caller of the gateway can make of a run of [request]: it came back
    with a response whose JSON is the object [d]; or it did not, and [e] is
    the exception of the call, of the decoding, or of the first use of the
    answer as an object. *)
Definition answered {R : Remote} (run : Res Response)
    (d : list (PyVal * PyVal)) (w1 : World) : Prop :=
  exists resp, run = Return resp w1 /\ rp_json (rs_reply resp) = Some (PDict d).

Definition unanswered {R : Remote} (run : Res Response) (e : Exn) (w1 : World)
    : Prop :=
  run = Raise e w1 \/
  exists resp,
    run = Return resp w1 /\
    match rp_json (rs_reply resp) with
    | None => e = JSONDecodeError (rp_text (rs_reply resp))
    | Some (PDict _) => False
    | Some _ => e = AttributeError "get"
    end.

(** *** Link creation *)

(** The two payloads of the specification, and the two calls that carry
    them. *)
Definition standard_payload (a b : string) : PyVal :=
  PDict [(PStr "src_int", PStr a); (PStr "dst_int", PStr b)].

Definition alternative_payload (a b : string) : PyVal :=
  PDict [(PStr "i1", PStr a); (PStr "i2", PStr b)].

Definition standard_call (lab a b : string) : call :=
  ("POST", "/api/v0/labs/" ++ lab ++ "/links", Some (standard_payload a b)).

Definition alternative_call (lab a b : string) : call :=
  ("POST", "/api/v0/labs/" ++ lab ++ "/links", Some (alternative_payload a b)).

(** One attempt: the payload is posted to the links of the lab. *)
Definition post_link {R : Remote} (lab : string) (payload : PyVal) : M Response :=
  request "POST" ("/api/v0/labs/" ++ lab ++ "/links")
    {| kw_json := Some payload; kw_content := None;
       kw_headers := Some [("Content-Type", "application/json")] |}.

(** The result for an attempt that was answered with the object [d]: the id
    of the link when [d] has one that counts as true, an error otherwise. *)
Definition link_outcome (d : list (PyVal * PyVal)) (v : PyVal) : Prop :=
  exists items,
    v = PDict items /\
    match items_get d (PStr "id") with
    | Some id =>
        if truthy id
        then items_get items (PStr "link_id") = Some id /\
             items_get items (PStr "error") = None
        else items_get items (PStr "error") <> None /\
             items_get items (PStr "link_id") = None
    | None =>
        items_get items (PStr "error") <> None /\
        items_get items (PStr "link_id") = None
    end.

(** C6, the run of [create_link_v3] from [w] to the result [v] in [w'], in
    terms of the gateway: the first payload is posted; if the attempt is
    answered that is all, and if it is not the second payload is posted,
    and when that attempt is not answered either the result is the error
    built from the first exception. *)
Definition link_attempts {R : Remote} (lab a b : string) (w : World) (v : PyVal)
    (w' : World) : Prop :=
  exists w0,
    quiet w w0 /\
    let first := post_link lab (standard_payload a b) w0 in
    (exists d w1,
       answered first d w1 /\ quiet w1 w' /\ link_outcome d v /\
       request_calls (since w w') = [standard_call lab a b]) \/
    (exists e w1 w2,
       unanswered first e w1 /\ quiet w1 w2 /\
       request_calls (since w w')
         = [standard_call lab a b; alternative_call lab a b] /\
       let second := post_link lab (alternative_payload a b) w2 in
       (exists d w3, answered second d w3 /\ quiet w3 w' /\ link_outcome d v) \/
       (exists e' w3,
          unanswered second e' w3 /\ quiet w3 w' /\
          v = PDict [(PStr "error",
                      PStr ("Error during create_link: " ++ str_of_exn e))])).

(** *** Collections *)

(** [x.get("id")], for an [x] that has the method. *)
Definition id_of (x : PyVal) : option PyVal :=
  match x with
  | PDict items =>
      Some (match items_get items (PStr "id") with Some k => k | None => PNone end)
  | _ => None
  end.

(** An element the indexing loop can take: an object whose id, when it
    counts as true, can be a dict key. *)
Definition indexable (x : PyVal) : Prop :=
  exists k, id_of x = Some k /\ (truthy k = true -> hashable k = true).

(** In the mapping [d], every element of [xs] with a true id that no later
    element repeats is found under that id. *)
Definition filed_last (xs : list PyVal) (d : list (PyVal * PyVal)) : Prop :=
  forall l1 x l2 k,
    xs = (l1 ++ x :: l2)%list ->
    id_of x = Some k -> truthy k = true ->
    (forall y k', In y l2 -> id_of y = Some k' -> truthy k' = true ->
                  key_eqb k' k = false) ->
    items_get d k = Some x.

(** The keys of a decoded JSON object: hashable and pairwise different. *)
Fixpoint distinct_keys (items : list (PyVal * PyVal)) : Prop :=
  match items with
  | [] => True
  | (k, _) :: rest =>
      hashable k = true /\
      (forall k' v', In (k', v') rest -> key_eqb k k' = false) /\
      distinct_keys rest
  end.

(** What [list_node_definitions] keeps of one definition. *)
Definition summary (node_info : list (PyVal * PyVal)) : PyVal :=
  PDict [(PStr "description",
          match items_get node_info (PStr "description") with
          | Some x => x | None => PStr EmptyString end);
         (PStr "type",
          match items_get node_info (PStr "type") with
          | Some x => x | None => PStr EmptyString end);
         (PStr "interfaces",
          match items_get node_info (PStr "interfaces") with
          | Some x => x | None => PList [] end)].

Definition summarize (entry : PyVal * PyVal) : PyVal * PyVal :=
  (fst entry,
   match snd entry with
   | PDict node_info => summary node_info
   | other => other
   end).

(** The three collection queries, each with its endpoint and with whether a
    mapping answer is returned as it came. *)
Inductive collection_query {R : Remote} (lab_id : string)
    : M PyVal -> string -> bool -> Prop :=
| query_nodes :
    collection_query lab_id (get_lab_nodes lab_id)
      ("/api/v0/labs/" ++ lab_id ++ "/nodes") true
| query_links :
    collection_query lab_id (get_lab_links lab_id)
      ("/api/v0/labs/" ++ lab_id ++ "/links") true
| query_node_definitions :
    collection_query lab_id list_node_definitions
      "/api/v0/node_definitions" false.

(** What the last exchange issued by [request] was answered with, decoded. *)
Fixpoint last_json (xs : list exchange) : option PyVal :=
  match xs with
  | [] => None
  | [(_, _, Replied rp)] => rp_json rp
  | _ :: rest => last_json rest
  end.

(** C5 as the specification words it, for the query [q] run from [w]: a list
    answer comes back as a mapping that holds every element with an id under
    that id, and a mapping answer comes back as it is. *)
Definition normalizes_as_specified {R : Remote} (q : M PyVal) (w : World) : Prop :=
  let r := q w in
  let answer := last_json (issued (since w (final r w))) in
  (forall xs x items k,
     answer = Some (PList xs) -> In x xs -> x = PDict items ->
     items_get items (PStr "id") = Some k ->
     exists d w', r = Return (PDict d) w' /\ items_get d k = Some x) /\
  (forall items,
     answer = Some (PDict items) -> exists w', r = Return (PDict items) w').

(** *** The readiness poll, round by round *)

(** The state an answer reports for a node: UNKNOWN when it names none. *)
Definition state_reported (d : list (PyVal * PyVal)) : PyVal :=
  match items_get d (PStr "state") with
  | Some state => state
  | None => PStr "UNKNOWN"
  end.

(** How a round ends: every node was asked for, and all of them reported
    STARTED or not; or the round broke off with an exception. *)
Inductive RoundEnd :=
| Checked (all_started : bool)
| Broke (e : Exn).

Definition then_checked (started : bool) (rest : RoundEnd) : RoundEnd :=
  match rest with
  | Checked all_started => Checked (started && all_started)
  | Broke e => Broke e
  end.

(** One round over the nodes [ids], in terms of the gateway: the nodes are
    asked for one by one, in order, each with a GET of its own, and the
    state is read off the answer.  A node that is not answered ends the
    round. *)
Inductive Round {R : Remote} (lab : string)
    : list PyVal -> World -> RoundEnd -> World -> Prop :=
| round_over w : Round lab [] w (Checked true) w
| round_asked id ids w d w1 w2 rest w' :
    answered (request "GET" ("/api/v0/labs/" ++ lab ++ "/nodes/" ++ py_str id)
                no_kwargs w) d w1 ->
    quiet w1 w2 ->
    Round lab ids w2 rest w' ->
    Round lab (id :: ids) w
      (then_checked (eq_str (state_reported d) "STARTED") rest) w'
| round_broke id ids w e w1 :
    unanswered (request "GET" ("/api/v0/labs/" ++ lab ++ "/nodes/" ++ py_str id)
                  no_kwargs w) e w1 ->
    Round lab (id :: ids) w (Broke e) w1.

(** The ids of the nodes, when the collection is a mapping. *)
Definition node_ids (nodes : PyVal) : option (list PyVal) :=
  match nodes with
  | PDict d => Some (map fst d)
  | _ => None
  end.

(** The clock reads less than [timeout] seconds after [start] (in ms). *)
Definition in_time (start now : N) (timeout : Z) : bool :=
  (Z.of_N (now - start) <? timeout * 1000)%Z.

Inductive PollOutcome :=
| AllReady
| TimedOut
| Aborted (e : Exn).

(** The poll from the world [w] on, for a deadline [timeout] seconds after
    [start]:
    - the deadline has passed: timed out, nothing more is asked;
    - a round begun before the deadline finds every node STARTED: all ready;
    - a round begun before the deadline finds a node in another state: five
      seconds of sleep, then the poll goes on;
    - a round begun before the deadline breaks off, or the collection is no
      mapping: the poll is over with that exception. *)
Inductive Poll {R : Remote} (lab : string) (nodes : PyVal)
    (start : N) (timeout : Z) : World -> PollOutcome -> World -> Prop :=
| poll_deadline w :
    in_time start (clock w) timeout = false ->
    Poll lab nodes start timeout w TimedOut w
| poll_ready w ids w1 :
    in_time start (clock w) timeout = true ->
    node_ids nodes = Some ids ->
    Round lab ids w (Checked true) w1 ->
    Poll lab nodes start timeout w AllReady w1
| poll_again w ids w1 outcome w2 :
    in_time start (clock w) timeout = true ->
    node_ids nodes = Some ids ->
    Round lab ids w (Checked false) w1 ->
    Poll lab nodes start timeout (final (sleep 5 w1) w1) outcome w2 ->
    Poll lab nodes start timeout w outcome w2
| poll_abort w ids e w1 :
    in_time start (clock w) timeout = true ->
    node_ids nodes = Some ids ->
    Round lab ids w (Broke e) w1 ->
    Poll lab nodes start timeout w (Aborted e) w1
| poll_no_mapping w :
    in_time start (clock w) timeout = true ->
    node_ids nodes = None ->
    Poll lab nodes start timeout w (Aborted (AttributeError "items")) w.

(** The states one round of the loop reads, node after node, and the round
    as a whole: the body of the [for] loop, as the proofs follow it. *)
Fixpoint round_states {R : Remote} (lab_id : string)
    (items : list (PyVal * PyVal)) : M (list PyVal) :=
  match items with
  | [] => ret []
  | (node_id, _) :: rest =>
      state <- node_state lab_id node_id ;;
      states <- round_states lab_id rest ;;
      ret (state :: states)
  end.

Definition one_round {R : Remote} (lab_id : string) (nodes : PyVal)
    : M (list PyVal) :=
  items <- py_items nodes ;;
  round_states lab_id items.

Definition all_started (states : list PyVal) : bool :=
  forallb (fun state => eq_str state "STARTED") states.

(** Loop tests that are enough for a poll of [timeout] seconds. *)
Definition poll_fuel (timeout : Z) : nat := Z.to_nat (timeout / 5) + 3.

(** The world after the line that announces the poll. *)
Definition waiting {R : Remote} (lab_id : string) (w : World) : World :=
  final (print ("Waiting for nodes in lab " ++ lab_id ++ " to initialize...") w) w.

(** [isinstance(nodes, str) and "Error" in nodes] *)
Definition error_string (nodes : PyVal) : bool :=
  match nodes with
  | PStr s => contains "Error" s
  | _ => false
  end.

(** What the [while] loop yields for each outcome of the poll. *)
Definition loop_result {R : Remote} (outcome : PollOutcome) (w : World) : Res bool :=
  match outcome with
  | AllReady => Return true w
  | TimedOut => Return false w
  | Aborted e => Raise e w
  end.

(** A run that kept the session and did not turn the clock back. *)
Definition advances {R : Remote} {A} (w : World) (r : Res A) : Prop :=
  match r with
  | Return _ w' | Raise _ w' =>
      (exists self', cml_auth w' = Some self') /\ (clock w <= clock w')%N
  | OutOfFuel => False
  end.

(** The status the tool reports for each outcome of the poll. *)
Definition status_of {R : Remote} (timeout : Z) (outcome : PollOutcome) : string :=
  match outcome with
  | AllReady => "All nodes in the lab are initialized and ready"
  | TimedOut =>
      "Timeout reached (" ++ str_of_int timeout
      ++ " seconds). Some nodes may not be fully initialized."
  | Aborted e => "Error waiting for nodes: " ++ str_of_exn e
  end.

(** C9 as the specification words it: on a started lab without nodes the
    poll reports that all nodes are ready, whatever the timeout. *)
Definition empty_lab_always_ready {R : Remote} (w : World) (lab_id : string)
    (timeout : Z) : Prop :=
  forall d w1 w2,
    get_lab_details lab_id w = Return d w1 ->
    lab_is_started d = true ->
    get_lab_nodes lab_id (waiting lab_id w1) = Return (PDict []) w2 ->
    forall fuel, 2 <= fuel ->
      wait_for_lab_nodes fuel lab_id timeout w = Return (PStr ALL_READY) w2.

(** ** What is shown of the other tools

    The statements about the tools and the operations of the gateway that
    the specification leaves aside use the notions below. *)

(** *** Conduct *)

(** A request a run may put on the wire when all its calls of the gateway
    satisfy [P]: the login, the verification, or such a call. *)
Definition permitted (P : call -> Prop) (rq : HttpRequest) : Prop :=
  (rq_method rq = "POST" /\ rq_endpoint rq = "/api/v0/authenticate") \/
  (rq_method rq = "GET" /\ rq_endpoint rq = "/api/v0/authok") \/
  P (rq_method rq, rq_endpoint rq, rq_json rq).

(** A run from [w] to [w'] that kept the session, did not turn the clock
    back and made no call of the gateway but calls that satisfy [P]. *)
Record Conduct {R : Remote} (P : call -> Prop) (w w' : World) : Prop := {
  cd_session : exists self', cml_auth w' = Some self';
  cd_clock : (clock w <= clock w')%N;
  cd_trace : exists evs,
      trace w' = (trace w ++ evs)%list /\
      Forall P (request_calls evs) /\
      Forall (permitted P) (wire evs)
}.

(** A computation that stopped, and one that returned, with that conduct. *)
Definition stops {R : Remote} {A} (P : call -> Prop) (w : World) (r : Res A)
    : Prop :=
  match r with
  | Return _ w' | Raise _ w' => Conduct P w w'
  | OutOfFuel => False
  end.

Definition returns {R : Remote} {A} (P : call -> Prop) (w : World) (r : Res A)
    : Prop :=
  match r with
  | Return _ w' => Conduct P w w'
  | _ => False
  end.

(** A computation that leaves the world as it is. *)
Definition pure {R : Remote} {A} (m : M A) : Prop :=
  forall w, (exists a, m w = Return a w) \/ (exists e, m w = Raise e w).

(** What holds of the value a computation returns, if it returns one. *)
Definition ensures {R : Remote} {A} (Q : A -> Prop) (r : Res A) : Prop :=
  match r with
  | Return v _ => Q v
  | _ => True
  end.

Definition any_call (c : call) : Prop := True.

Definition is_get (c : call) : Prop := fst (fst c) = "GET".

(** A request that reads, or logs in. *)
Definition reads_or_logs_in (rq : HttpRequest) : Prop :=
  rq_method rq = "GET" \/
  (rq_method rq = "POST" /\ rq_endpoint rq = "/api/v0/authenticate").

(** The calls of the gateway and the naps of a run, in the order in which
    they were made. *)
Inductive Step :=
| Called (c : call)
| Slept (seconds : N).

Fixpoint steps (evs : list Event) : list Step :=
  match evs with
  | [] => []
  | EvRequest m ep js :: tl => Called (m, ep, js) :: steps tl
  | EvSleep n :: tl => Slept n :: steps tl
  | _ :: tl => steps tl
  end.

(** What a run leaves behind when it may have slept. *)
Record Trail {R : Remote} (plan : list Step) (w w' : World) : Prop := {
  tr_session : exists self', cml_auth w' = Some self';
  tr_trace : exists evs, trace w' = (trace w ++ evs)%list /\ steps evs = plan
}.

(** *** The tools *)

(** The operations that start with the test of [_check_auth]: the tools that
    use the client, [wait_for_lab_nodes] apart, and the helper
    [find_available_interface]. *)
Inductive Tool {R : Remote} : M PyVal -> Prop :=
| tool_list_labs : Tool list_labs
| tool_create_lab title description : Tool (create_lab title description)
| tool_get_lab_details lab : Tool (get_lab_details lab)
| tool_delete_lab lab : Tool (delete_lab lab)
| tool_list_node_definitions : Tool list_node_definitions
| tool_get_lab_nodes lab : Tool (get_lab_nodes lab)
| tool_add_node lab label definition x y populate ram cpu_limit parameters :
    Tool (add_node lab label definition x y populate ram cpu_limit parameters)
| tool_create_router lab label x y : Tool (create_router lab label x y)
| tool_create_switch lab label n x y : Tool (create_switch lab label n x y)
| tool_get_node_interfaces lab node : Tool (get_node_interfaces lab node)
| tool_get_physical_interfaces lab node : Tool (get_physical_interfaces lab node)
| tool_create_interface lab node slot : Tool (create_interface lab node slot)
| tool_find_available_interface lab node : Tool (find_available_interface lab node)
| tool_create_link_v3 lab a b : Tool (create_link_v3 lab a b)
| tool_link_nodes lab a b : Tool (link_nodes lab a b)
| tool_get_lab_links lab : Tool (get_lab_links lab)
| tool_delete_link lab link : Tool (delete_link lab link)
| tool_configure_node lab node config : Tool (configure_node lab node config)
| tool_get_node_config lab node : Tool (get_node_config lab node)
| tool_start_lab lab : Tool (start_lab lab)
| tool_stop_lab lab : Tool (stop_lab lab)
| tool_get_lab_topology lab : Tool (get_lab_topology lab)
| tool_create_simple_network title description :
    Tool (create_simple_network title description)
| tool_create_stp_lab title description n k :
    Tool (create_stp_lab title description n k)
| tool_create_ospf_lab title description :
    Tool (create_ospf_lab title description).

(** The ones among them that only ask. *)
Inductive Query {R : Remote} : M PyVal -> Prop :=
| query_list_labs : Query list_labs
| query_get_lab_details lab : Query (get_lab_details lab)
| query_list_node_definitions : Query list_node_definitions
| query_get_lab_nodes lab : Query (get_lab_nodes lab)
| query_get_node_interfaces lab node : Query (get_node_interfaces lab node)
| query_get_physical_interfaces lab node : Query (get_physical_interfaces lab node)
| query_find_available_interface lab node :
    Query (find_available_interface lab node)
| query_get_lab_links lab : Query (get_lab_links lab)
| query_get_node_config lab node : Query (get_node_config lab node)
| query_get_lab_topology lab : Query (get_lab_topology lab).

(** The ones that pass one order on and report how it went: the method, the
    endpoint and the body of the request, the text for a success and the
    head of the text for a failure. *)
Inductive Command {R : Remote}
    : M PyVal -> string -> string -> option string -> string -> string -> Prop :=
| command_start_lab lab :
    Command (start_lab lab) "PUT" ("/api/v0/labs/" ++ lab ++ "/start") None
      ("Lab " ++ lab ++ " started successfully") "Error starting lab: "
| command_stop_lab lab :
    Command (stop_lab lab) "PUT" ("/api/v0/labs/" ++ lab ++ "/stop") None
      ("Lab " ++ lab ++ " stopped successfully") "Error stopping lab: "
| command_delete_link lab link :
    Command (delete_link lab link) "DELETE"
      ("/api/v0/labs/" ++ lab ++ "/links/" ++ link) None
      ("Link " ++ link ++ " deleted successfully") "Error deleting link: "
| command_configure_node lab node config :
    Command (configure_node lab node config) "PUT" (config_endpoint lab node)
      (Some config)
      ("Configuration applied to node " ++ node) "Error configuring node: ".

(** The ones that create something, with the key of the id they return. *)
Inductive Creation {R : Remote} : M PyVal -> string -> Prop :=
| creation_create_lab title description :
    Creation (create_lab title description) "lab_id"
| creation_add_node lab label definition x y populate ram cpu_limit parameters :
    Creation (add_node lab label definition x y populate ram cpu_limit parameters)
      "node_id"
| creation_create_router lab label x y :
    Creation (create_router lab label x y) "node_id"
| creation_create_switch lab label n x y :
    Creation (create_switch lab label n x y) "node_id"
| creation_create_link_v3 lab a b :
    Creation (create_link_v3 lab a b) "link_id".

(** The answer of a tool that found no client. *)
Definition refusal (v : PyVal) : Prop :=
  v = PStr NOT_INITIALIZED \/ v = PDict [(PStr "error", PStr NOT_INITIALIZED)].

(** A dictionary that carries an error, or else a true value under [key],
    and not both. *)
Definition carries (key : string) (v : PyVal) : Prop :=
  exists items,
    v = PDict items /\
    match items_get items (PStr "error") with
    | Some _ => items_get items (PStr key) = None
    | None => exists id, items_get items (PStr key) = Some id /\ truthy id = true
    end.

(** *** The gateway *)

(** The last exchange [request] issued in [evs] got an answer with a status
    in 2xx. *)
Definition accepted (evs : list Event) : Prop :=
  exists l stored rq rp,
    issued evs = (l ++ [(stored, rq, Replied rp)])%list /\
    is_success (rp_status rp) = true.

(** The exchanges of [evs] that [request] issued all carry this method,
    endpoint, payload and body. *)
Definition issues_only (m ep : string) (js : option PyVal) (ct : option string)
    (evs : list Event) : Prop :=
  Forall (fun x : exchange =>
            let rq := snd (fst x) in
            rq_method rq = m /\ rq_endpoint rq = ep /\
            rq_json rq = js /\ rq_content rq = ct)
         (issued evs).

(** A token that neither starts nor ends with a double quote. *)
Definition unquoted (t : option string) : Prop :=
  match t with
  | None => True
  | Some s =>
      (forall rest, s <> String dquote rest) /\
      (forall front, s <> front ++ String dquote EmptyString)
  end.

(** The address [initialize_client] gives the session for the argument
    [base_url], and the text it returns after a login that was accepted. *)
Definition with_scheme (base : string) : string :=
  if String.prefix "http://" base || String.prefix "https://" base
  then base else "https://" ++ base.



(** *** Labs, nodes and interfaces *)

(** The world in which [list_labs] makes its request: the one it was called
    in, with the line that announces the listing. *)
Definition listing {R : Remote} (w : World) : World :=
  final (print "Attempting to list labs..." w) w.

(** The call [create_router] and [create_switch] make. *)
Definition new_node_call (lab_id label node_definition : string) (x y : Z)
    (parameters : list (PyVal * PyVal)) : call :=
  ("POST", "/api/v0/labs/" ++ lab_id ++ "/nodes?populate_interfaces=true",
   Some (PDict [(PStr "label", PStr label);
                (PStr "node_definition", PStr node_definition);
                (PStr "x", PInt x);
                (PStr "y", PInt y);
                (PStr "parameters", PDict parameters);
                (PStr "tags", PList []);
                (PStr "hide_links", PBool false)])).

(** The calls of [find_available_interface]: the listing of the interfaces
    of a node, and the details of one interface. *)
Definition interfaces_call (lab_id node_id : string) : call :=
  ("GET", "/api/v0/labs/" ++ lab_id ++ "/nodes/" ++ node_id
          ++ "/interfaces?operational=true", None).

Definition detail_call {R : Remote} (lab_id : string) (interface_id : PyVal)
    : call :=
  ("GET", available_endpoint lab_id interface_id, None).

(** An interface that can take a link, as its details tell: the type is
    physical and is_connected equals False (as 0 does). *)
Definition equals_False (v : PyVal) : bool :=
  match v with
  | PBool b => negb b
  | PInt z => (z =? 0)%Z
  | _ => false
  end.

Definition free_physical (d : list (PyVal * PyVal)) : bool :=
  match items_get d (PStr "type"), items_get d (PStr "is_connected") with
  | Some type, Some is_connected =>
      eq_str type "physical" && equals_False is_connected
  | _, _ => false
  end.

(** How the search for a free interface ends. *)
Inductive ScanEnd :=
| Free (interface_id : PyVal)
| NoFree
| Stopped (e : Exn).

(** The search over the interfaces [ids], in terms of the gateway: the
    details of the interfaces are asked for one by one, in order; the search
    is over at the first interface that is physical and not connected, and
    at the first one that is not answered. *)
Inductive Scan {R : Remote} (lab : string)
    : list PyVal -> World -> ScanEnd -> World -> Prop :=
| scan_over w : Scan lab [] w NoFree w
| scan_free id ids w d w1 :
    answered (request "GET" ("/api/v0/labs/" ++ lab ++ "/interfaces/" ++ py_str id
                             ++ "?operational=true") no_kwargs w) d w1 ->
    free_physical d = true ->
    Scan lab (id :: ids) w (Free id) w1
| scan_taken id ids w d w1 result w' :
    answered (request "GET" ("/api/v0/labs/" ++ lab ++ "/interfaces/" ++ py_str id
                             ++ "?operational=true") no_kwargs w) d w1 ->
    free_physical d = false ->
    Scan lab ids w1 result w' ->
    Scan lab (id :: ids) w result w'
| scan_stopped id ids w e w1 :
    unanswered (request "GET" ("/api/v0/labs/" ++ lab ++ "/interfaces/"
                               ++ py_str id ++ "?operational=true") no_kwargs w)
      e w1 ->
    Scan lab (id :: ids) w (Stopped e) w1.

(** What [find_available_interface] answers when no interface of the list
    [ids] is available. *)
Definition none_available (ids : list PyVal) (node_id : string) : PyVal :=
  PDict [(PStr "error",
          PStr (match ids with
                | [] => "No interfaces found for node " ++ node_id
                | _ :: _ => "No available physical interface found for node "
                            ++ node_id
                end))].

(** An interface [get_physical_interfaces] keeps: an object whose type is
    physical or, when it has no type, one that has a slot. *)
Definition physical (v : PyVal) : Prop :=
  exists items,
    v = PDict items /\
    match items_get items (PStr "type") with
    | Some type => eq_str type "physical" = true
    | None => items_get items (PStr "slot") <> None
    end.

(** What [get_physical_interfaces] can return. *)
Definition physical_answer (v : PyVal) : Prop :=
  match v with
  | PStr _ => True
  | PList interfaces => interfaces <> [] /\ Forall physical interfaces
  | _ => has_error v = true
  end.

(** *** Spanning tree *)

(** The mode and the role [generate_switch_stp_config] acts on. *)
Definition known_mode (stp_mode : string) : string :=
  if String.eqb stp_mode "mst" then "mst"
  else if String.eqb stp_mode "rapid-pvst" then "rapid-pvst"
  else "pvst".

Definition known_role (role : string) : string :=
  if String.eqb role "root" then "root"
  else if String.eqb role "secondary" then "secondary"
  else "normal".

(** The lines of a text, as [text.split("\n")] gives them, and a string that
    is one line. *)
Definition newline : ascii := "010"%char.

Fixpoint lines_of (text : string) : list string :=
  match text with
  | EmptyString => [EmptyString]
  | String c text' =>
      if Ascii.eqb c newline then EmptyString :: lines_of text'
      else match lines_of text' with
           | line :: rest => String c line :: rest
           | [] => [String c EmptyString]
           end
  end.

Fixpoint one_line (s : string) : bool :=
  match s with
  | EmptyString => true
  | String c s' => negb (Ascii.eqb c newline) && one_line s'
  end.

(** The switches and the links of the lab [create_stp_lab] builds when asked
    for [num_switches] switches, and its result when nothing failed. *)
Definition stp_switches (num_switches : Z) : nat :=
  if (num_switches >? 4)%Z then 6 else if (num_switches >? 2)%Z then 4 else 2.

Definition stp_links (num_switches : Z) : nat :=
  if (num_switches >? 4)%Z then 11 else if (num_switches >? 2)%Z then 6 else 1.

Definition stp_lab_built (title : string) (num_switches : Z) (v : PyVal) : Prop :=
  exists lab_id switches links message,
    v = PDict [(PStr "lab_id", lab_id);
               (PStr "title", PStr title);
               (PStr "switches", PList switches);
               (PStr "links", PList links);
               (PStr "status", PStr "success");
               (PStr "message", PStr message)] /\
    List.length switches = stp_switches num_switches /\
    List.length links = stp_links num_switches.

(** ** A scripted server for concrete runs

    The server answers from a list, whatever the request; once the list is
    used up the connection is refused.  The httpx of these runs takes an
    address unless it has a control character in it. *)

Fixpoint printable (url : string) : bool :=
  match url with
  | EmptyString => true
  | String c url' =>
      negb ((N_of_ascii c <? 32)%N || (N_of_ascii c =? 127)%N) && printable url'
  end.

Definition Script : Type := list (Outcome * N).

Definition play (s : Script) (rq : HttpRequest) : Outcome * N * Script :=
  match s with
  | [] => (Failed "connection refused", 0%N, [])
  | (out, latency) :: s' => (out, latency, s')
  end.

Definition scripted : Remote :=
  {| Server := Script; serve := play;
     str_of_exn := fun e =>
       match e with
       | TransportError d => d
       | HTTPStatusError rs => "status " ++ str_of_int (status_code rs)
       | JSONDecodeError _ => "not JSON"
       | AttributeError what => "no attribute " ++ what
       | TypeError what => "bad type: " ++ what
       | KeyError _ => "key"
       | UnicodeEncodeError value => "cannot encode " ++ value
       | InvalidURL url => "invalid URL " ++ url
       end;
     py_repr := fun _ => "<container>";
     httpx_default_headers := [("Accept", "*/*")];
     httpx_accepts := printable |}.

Definition reply (status : Z) (body : string) (js : option PyVal) : Outcome * N :=
  (Replied {| rp_status := status; rp_text := body; rp_json := js |}, 20%N).

(** The session [CMLAuth("https://cml", "admin", "secret", True)]. *)
Definition session0 : CMLAuth :=
  {| base_url := "https://cml"; username := "admin"; password := "secret";
     token := None; verify_ssl := true;
     client := {| ac_base_url := "https://cml"; ac_verify := true;
                  ac_headers := [("Accept", "*/*")] |} |}.

(** A world right after [CMLAuth(...)] was bound to the global. *)
Definition fresh_world (s : Script) : @World scripted :=
  @Build_World scripted (Some session0) s 0%N [].

(** A world whose session already holds the token [t]. *)
Definition signed_in (t : string) (s : Script) : @World scripted :=
  @Build_World scripted (Some (refreshed session0 t)) s 0%N [].

(** A world in which [initialize_client] was never called. *)
Definition uninitialized (s : Script) : @World scripted :=
  @Build_World scripted None s 0%N [].

Definition quoted (s : string) : string :=
  String dquote (s ++ String dquote EmptyString).

(** A server that accepts every request and always hands out the same token. *)
Definition steady : Remote :=
  {| Server := unit;
     serve := fun s _ =>
       (Replied {| rp_status := 200; rp_text := quoted "abc123"; rp_json := None |},
        20%N, s);
     str_of_exn := fun _ => "error";
     py_repr := fun _ => "<container>";
     httpx_default_headers := [];
     httpx_accepts := fun _ => true |}.

Definition steady_session : CMLAuth :=
  {| base_url := "https://cml"; username := "admin"; password := "secret";
     token := None; verify_ssl := true;
     client := {| ac_base_url := "https://cml"; ac_verify := true;
                  ac_headers := [] |} |}.

Definition steady_world : @World steady :=
  @Build_World steady (Some steady_session) tt 0%N [].

(** Login accepted, verification answered with 500. *)
Definition login_ok_script : Script :=
  [reply 200 (quoted "abc123") None; reply 500 "down" None].

(** The spec's scenarios: a first login that hands out the token abc123, and
    a stale token answered 401, then a login and a retry that go through. *)
Definition abc123_script : Script :=
  [reply 200 (quoted "abc123") None; reply 200 "ok" None;
   reply 200 "x" (Some (PStr "x"))].

Definition expired_then_fine_script : Script :=
  [reply 401 "token expired" None; reply 200 (quoted "fresh") None;
   reply 200 "ok" None; reply 200 "x" (Some (PStr "x"))].

(** The token has expired and the account is refused at the new login. *)
Definition relogin_refused_script : Script :=
  [reply 401 "token expired" None; reply 403 "account locked" None].

(** The token has expired, the new login is accepted, the retry is still
    unauthorized. *)
Definition relogin_ok_script : Script :=
  [reply 401 "token expired" None; reply 200 (quoted "fresh") None;
   reply 200 "ok" None; reply 401 "still no" None].

(** The login is answered 200 with a token that has a character outside
    ASCII in it (code 246, o with diaeresis). *)
Definition umlaut_token : string :=
  String "t"%char (String "246"%char (String "k"%char EmptyString)).

Definition umlaut_login_script : Script :=
  [reply 200 (quoted umlaut_token) None; reply 200 "ok" None].

(** The token has expired and the new login hands out such a token. *)
Definition relogin_umlaut_script : Script :=
  [reply 401 "token expired" None; reply 200 (quoted umlaut_token) None;
   reply 200 "ok" None; reply 200 "x" (Some (PStr "x"))].

(** The login is answered 200 with an empty JSON string as body. *)
Definition empty_token_script : Script :=
  [reply 200 (quoted EmptyString) None; reply 200 "ok" None].

(** The server lists one node definition, as a mapping. *)
Definition iosv_definition : PyVal :=
  PDict [(PStr "description", PStr "IOSv router"); (PStr "ram", PInt 512)].

Definition node_definitions_script : Script :=
  [reply 200 "{...}" (Some (PDict [(PStr "iosv", iosv_definition)]))].

(** The server lists two nodes, as a list. *)
Definition node_r1 : PyVal := PDict [(PStr "id", PStr "n1"); (PStr "label", PStr "R1")].
Definition node_r2 : PyVal := PDict [(PStr "id", PStr "n2"); (PStr "label", PStr "R2")].

Definition nodes_list_script : Script :=
  [reply 200 "[...]" (Some (PList [node_r1; node_r2]))].

(** The server lists two links under one id, and a link whose id is 0. *)
Definition link_a : PyVal := PDict [(PStr "id", PStr "l1"); (PStr "label", PStr "a")].
Definition link_b : PyVal := PDict [(PStr "id", PStr "l1"); (PStr "label", PStr "b")].
Definition link_zero : PyVal := PDict [(PStr "id", PInt 0); (PStr "label", PStr "c")].

Definition repeated_id_script : Script :=
  [reply 200 "[...]" (Some (PList [link_a; link_b]))].

Definition false_id_script : Script :=
  [reply 200 "[...]" (Some (PList [link_zero]))].

(** The first payload is refused with 400, the second one creates the link. *)
Definition second_payload_script : Script :=
  [reply 400 "bad request" None;
   reply 200 "{...}" (Some (PDict [(PStr "id", PStr "l9")]))].

Definition items_get_link_id (v : PyVal) : option PyVal :=
  match v with
  | PDict d => items_get d (PStr "link_id")
  | _ => None
  end.

Definition started_lab : PyVal :=
  PDict [(PStr "id", PStr "lab1"); (PStr "state", PStr "STARTED")].

(** A started lab without nodes. *)
Definition empty_lab_script : Script :=
  [reply 200 "{...}" (Some started_lab); reply 200 "[]" (Some (PList []))].

Definition node_in (state : string) : PyVal :=
  PDict [(PStr "label", PStr "R1"); (PStr "state", PStr state)].

(** A started lab with one node that is still booting when first asked and
    started when asked again. *)
Definition booting_lab_script : Script :=
  [reply 200 "{...}" (Some started_lab);
   reply 200 "{...}" (Some (PDict [(PStr "n1", node_in "DEFINED_ON_CORE")]));
   reply 200 "{...}" (Some (node_in "BOOTED"));
   reply 200 "{...}" (Some (node_in "STARTED"))].

(** A lab that reports itself running. *)
Definition running_lab_script : Script :=
  [reply 200 "{...}" (Some started_lab)].

(** One request, accepted. *)
Definition accepted_script : Script := [reply 200 "x" (Some (PStr "x"))].

Definition no_content_script : Script := [reply 204 EmptyString None].

(** A running lab that cannot be stopped and is deleted all the same. *)
Definition stop_refused_script : Script :=
  [reply 200 "{...}" (Some started_lab); reply 500 "busy" None;
   reply 204 EmptyString None].

(** The labs come as a list of ids. *)
Definition lab_ids_script : Script :=
  [reply 200 "[...]" (Some (PList [PStr "lab1"]))].

(** A lab and a node are created. *)
Definition new_lab_script : Script :=
  [reply 200 "{...}" (Some (PDict [(PStr "id", PStr "lab7")]))].

(** The interfaces of a node come as one string of two identifiers. *)
Definition two_uuids : string :=
  "123e4567-e89b-12d3-a456-426614174000"
  ++ "9b2e4c1a-7d3f-4e5a-8c6b-0f1e2d3c4b5a".

Definition uuid_string_script : Script :=
  [reply 200 "..." (Some (PStr two_uuids))].

(** A node with three interfaces: the first is connected, the second is
    free. *)
Definition interface_in (is_connected : bool) : PyVal :=
  PDict [(PStr "type", PStr "physical"); (PStr "is_connected", PBool is_connected)].

Definition interfaces_script : Script :=
  [reply 200 "[...]" (Some (PList [PStr "i1"; PStr "i2"; PStr "i3"]));
   reply 200 "{...}" (Some (interface_in true));
   reply 200 "{...}" (Some (interface_in false))].

(** A node without interfaces. *)
Definition no_interfaces_script : Script := [reply 200 "[]" (Some (PList []))].

(** * Properties of the gateway *)

(** ** Headers *)

Lemma hget_hset h k v k' :
  hget (hset h k v) k' = if String.eqb k k' then Some v else hget h k'.
Proof.
  induction h as [|[k0 v0] h IH]; cbn.
  - destruct (String.eqb k k'); reflexivity.
  - destruct (String.eqb k0 k) eqn:E0; cbn.
    + apply String.eqb_eq in E0. subst k0.
      destruct (String.eqb k k'); reflexivity.
    + destruct (String.eqb k0 k') eqn:E1; [|exact IH].
      apply String.eqb_eq in E1. subst k0. rewrite String.eqb_sym, E0. reflexivity.
Qed.

Lemma hset_key_in h k v k' :
  In k' (map fst (hset h k v)) <-> k' = k \/ In k' (map fst h).
Proof.
  induction h as [|[k0 v0] h IH]; cbn.
  - intuition.
  - destruct (String.eqb k0 k) eqn:E0; cbn.
    + apply String.eqb_eq in E0. subst k0. intuition.
    + rewrite IH. intuition.
Qed.

Lemma hset_nodup h k v :
  NoDup (map fst h) -> NoDup (map fst (hset h k v)).
Proof.
  induction h as [|[k0 v0] h IH]; cbn; intros H.
  - constructor; [intros []|constructor].
  - inversion H as [|? ? Hnin Hnd]; subst.
    destruct (String.eqb k0 k) eqn:E0; cbn.
    + constructor; assumption.
    + constructor; [|auto].
      rewrite hset_key_in. intros [->|Hin]; [|contradiction].
      rewrite String.eqb_refl in E0. discriminate.
Qed.

Lemma hget_hupdate_miss more : forall h k,
  ~ In k (map fst more) -> hget (hupdate h more) k = hget h k.
Proof.
  unfold hupdate.
  induction more as [|[k1 v1] more IH]; cbn; intros h k H; [reflexivity|].
  rewrite IH by tauto. rewrite hget_hset.
  destruct (String.eqb k1 k) eqn:E; [|reflexivity].
  apply String.eqb_eq in E. subst. exfalso. auto.
Qed.

Lemma hget_hupdate_hit more : forall h k v,
  NoDup (map fst more) -> hget more k = Some v ->
  hget (hupdate h more) k = Some v.
Proof.
  induction more as [|[k1 v1] more IH]; cbn; intros h k v Hnd Hget; [discriminate|].
  inversion Hnd as [|? ? Hnin Hnd']; subst.
  change (hget (hupdate (hset h k1 v1) more) k = Some v).
  destruct (String.eqb k1 k) eqn:E.
  - apply String.eqb_eq in E. subst k1. injection Hget as ->.
    rewrite hget_hupdate_miss by assumption.
    rewrite hget_hset, String.eqb_refl. reflexivity.
  - apply IH; assumption.
Qed.

Lemma hset_hset h k v v' : hset (hset h k v) k v' = hset h k v'.
Proof.
  induction h as [|[k0 v0] h IH]; cbn.
  - rewrite String.eqb_refl. reflexivity.
  - destruct (String.eqb k0 k) eqn:E; cbn; rewrite E; [reflexivity|].
    rewrite IH. reflexivity.
Qed.



(** Projections of a world built in full, and traces as one append. *)
Ltac norm := cbn [cml_auth remote clock trace]; rewrite <- ?app_assoc; cbn [app].

Ltac unfold_gateway :=
  unfold request, authenticate, transport, raise_for_status, try_except,
    bind, ret, raise, print, emit, get_self, set_self, status_code, text in *.

Section GatewayFacts.

Context {R : Remote}.

#[local] Arguments authenticate : simpl never.
#[local] Arguments transport : simpl never.

Lemma since_app (w w' : World) evs :
  trace w' = (trace w ++ evs)%list -> since w w' = evs.
Proof.
  intros H. unfold since. rewrite H.
  rewrite skipn_app, skipn_all, Nat.sub_diag. reflexivity.
Qed.

Lemma transport_run via m ep hdrs js ct w self out lat srv :
  cml_auth w = Some self ->
  serve (remote w) (call_request self m ep hdrs js ct) = (out, lat, srv) ->
  transport via m ep hdrs js ct w =
    let rq := call_request self m ep hdrs js ct in
    let w' := Build_World (Some self) srv (clock w + lat)
                (trace w ++ [EvSend via (token self) rq out]) in
    match out with
    | Failed d => Raise (TransportError d) w'
    | Replied rp => Return {| rs_request := rq; rs_reply := rp |} w'
    end.
Proof.
  intros Hself Hserve. unfold transport, bind, get_self. rewrite Hself.
  fold (call_request self m ep hdrs js ct). rewrite Hserve.
  destruct out; cbv zeta; rewrite ?Hself; reflexivity.
Qed.

Lemma authenticate_refused w self out lat srv e :
  cml_auth w = Some self ->
  serve (remote w) (login_request self) = (out, lat, srv) ->
  exchange_error (login_request self) out = Some e ->
  authenticate w =
    Raise e (Build_World (Some self) srv (clock w + lat)
               (trace w ++ login_events self out)).
Proof.
  intros Hself Hserve He.
  destruct w as [a s c t]. cbn in Hself, Hserve |- *. subst a.
  unfold_gateway. cbn.
  change (hupdate (ac_headers (client self)) []) with (ac_headers (client self)).
  fold (login_request self). rewrite Hserve.
  destruct out as [d|rp]; cbn in He |- *.
  - injection He as <-. rewrite <- !app_assoc. reflexivity.
  - destruct (is_success (rp_status rp)); [discriminate|].
    injection He as <-. cbn. rewrite <- !app_assoc. reflexivity.
Qed.

Lemma is_ascii_bearer t : is_ascii ("Bearer " ++ t) = is_ascii t.
Proof. reflexivity. Qed.

Lemma authenticate_garbled w self rp lat srv :
  cml_auth w = Some self ->
  serve (remote w) (login_request self) = (Replied rp, lat, srv) ->
  is_success (rp_status rp) = true ->
  is_ascii (strip dquote (rp_text rp)) = false ->
  authenticate w =
    Raise (unencodable_token (strip dquote (rp_text rp)))
      (Build_World (Some (garbled self (rp_text rp))) srv (clock w + lat)
         (trace w ++ login_events self (Replied rp))).
Proof.
  intros Hself Hserve Hok Hasc.
  destruct w as [a s c t]. cbn in Hself, Hserve |- *. subst a.
  unfold_gateway. cbn.
  change (hupdate (ac_headers (client self)) []) with (ac_headers (client self)).
  fold (login_request self). rewrite Hserve. cbn. rewrite Hok. cbn.
  unfold client_headers_update, bind, get_self, raise. cbn.
  rewrite Hasc. cbn. rewrite <- !app_assoc. reflexivity.
Qed.

Lemma authenticate_granted w self rp lat srv check lat2 srv2 :
  cml_auth w = Some self ->
  serve (remote w) (login_request self) = (Replied rp, lat, srv) ->
  is_success (rp_status rp) = true ->
  is_ascii (strip dquote (rp_text rp)) = true ->
  serve srv (authok_request (refreshed self (rp_text rp))) = (check, lat2, srv2) ->
  authenticate w =
    Return (Some (strip dquote (rp_text rp)))
      (Build_World (Some (refreshed self (rp_text rp))) srv2
         (clock w + lat + lat2)
         (trace w ++ login_events self (Replied rp)
                  ++ verify_events (refreshed self (rp_text rp)) check)).
Proof.
  intros Hself Hserve Hok Hasc Hcheck.
  destruct w as [a s c t]. cbn in Hself, Hserve |- *. subst a.
  unfold_gateway. cbn.
  change (hupdate (ac_headers (client self)) []) with (ac_headers (client self)).
  fold (login_request self). rewrite Hserve. cbn. rewrite Hok. cbn.
  unfold client_headers_update, bind, get_self, set_self. cbn.
  rewrite Hasc. cbn.
  match goal with
  | |- context [serve srv ?rq] =>
      change rq with (authok_request (refreshed self (rp_text rp)))
  end.
  rewrite Hcheck. unfold verify_events, verification_line.
  destruct check as [d|rp2]; cbn.
  - rewrite <- !app_assoc. reflexivity.
  - destruct (is_success (rp_status rp2)); cbn; rewrite <- !app_assoc; reflexivity.
Qed.

Lemma exchange_error_cases rq out :
  (exists e, exchange_error rq out = Some e) \/
  (exists rp, out = Replied rp /\ is_success (rp_status rp) = true).
Proof.
  destruct out as [d|rp]; cbn; eauto.
  destruct (is_success (rp_status rp)) eqn:E; eauto.
Qed.

Lemma request_split m ep kw w :
  request m ep kw w =
    match request_prologue m ep kw w with
    | Return _ w' => request_attempt m ep kw w'
    | Raise e w' => Raise e w'
    | OutOfFuel => OutOfFuel
    end.
Proof.
  unfold request, request_prologue, request_attempt, bind, emit, print, emit, get_self, ret.
  cbn [cml_auth remote clock trace].
  destruct (cml_auth w) as [self|]; [|reflexivity].
  destruct (no_token (token self)); [|reflexivity].
  match goal with
  | |- context [authenticate ?w0] => destruct (authenticate w0); reflexivity
  end.
Qed.

Lemma prologue_run w self m ep kw :
  cml_auth w = Some self ->
  Prologue w self m ep kw (request_prologue m ep kw w).
Proof.
  intros Hself. destruct w as [a s c t]. cbn in Hself. subst a.
  unfold request_prologue, bind, emit, get_self, print, emit, ret. norm.
  destruct (no_token (token self)) eqn:Hno.
  - destruct (serve s (login_request self)) as [[login lat] srv] eqn:E.
    destruct (exchange_error_cases (login_request self) login)
      as [[e He] | (rp & -> & Hok)].
    + erewrite authenticate_refused by (cbn; eauto). 
      norm.
      eapply (PrologueRefused (Build_World (Some self) s c t) self m ep kw login lat srv e); eauto.
    + destruct (is_ascii (strip dquote (rp_text rp))) eqn:Hasc.
      * destruct (serve srv (authok_request (refreshed self (rp_text rp))))
          as [[check lat'] srv'] eqn:E'.
        erewrite authenticate_granted by (cbn; eauto).
        norm.
        eapply (PrologueGranted (Build_World (Some self) s c t) self m ep kw rp lat srv check lat' srv'); eauto.
      * erewrite authenticate_garbled by (cbn; eauto).
        norm.
        eapply (PrologueGarbled (Build_World (Some self) s c t) self m ep kw rp lat srv); eauto.
  - norm. apply (PrologueHeld (Build_World (Some self) s c t)). exact Hno.
Qed.

Lemma attempt_run w self m ep kw :
  cml_auth w = Some self ->
  Attempt w self m ep kw (request_attempt m ep kw w).
Proof.
  intros Hself. destruct w as [a s c t]. cbn in Hself. subst a.
  unfold request_attempt. unfold bind at 1, get_self at 1. cbn [cml_auth].
  fold (call_headers kw (token self)).
  unfold try_except, bind at 1.
  destruct (serve s (first_request self m ep kw)) as [[out lat] srv] eqn:E.
  erewrite transport_run by (cbn; eauto). cbv zeta. fold (first_request self m ep kw).
  destruct out as [d|rp].
  - (* no reply *)
    unfold bind, print, emit, raise. norm.
    apply (AttemptError (Build_World (Some self) s c t) self m ep kw (Failed d) lat srv); auto.
  - unfold status_code at 1. cbn [rs_reply].
    destruct (rp_status rp =? 401)%Z eqn:E401.
    + (* unauthorized *)
      apply Z.eqb_eq in E401.
      unfold bind at 1. unfold bind at 1, print at 1, emit at 1. cbn [cml_auth remote clock trace].
      unfold bind at 1.
      destruct (serve srv (login_request self)) as [[login lat'] srv'] eqn:E'.
      destruct (exchange_error_cases (login_request self) login)
        as [[e He] | (rp' & -> & Hok)].
      * erewrite authenticate_refused by (cbn; eauto).
        unfold bind, print, emit, raise. norm.
        eapply (AttemptReauthRefused (Build_World (Some self) s c t) self m ep kw rp lat srv login lat' srv' e); eauto.
      * destruct (is_ascii (strip dquote (rp_text rp'))) eqn:Hasc.
        2:{ erewrite authenticate_garbled by (cbn; eauto).
            unfold bind, print, emit, raise. norm.
            eapply (AttemptReauthGarbled (Build_World (Some self) s c t) self m ep kw rp lat srv rp' lat' srv'); eauto. }
        destruct (serve srv' (authok_request (refreshed self (rp_text rp'))))
          as [[check lat''] srv''] eqn:E''.
        erewrite authenticate_granted by (cbn; eauto).
        unfold bind at 1, get_self at 1. cbn [cml_auth].
        destruct (serve srv'' (retry_request self (refreshed self (rp_text rp')) m ep kw))
          as [[out2 lat2] srv2] eqn:E2.
        erewrite transport_run by (cbn; eauto). cbv zeta.
        fold (retry_request self (refreshed self (rp_text rp')) m ep kw).
        destruct (exchange_error_cases
                    (retry_request self (refreshed self (rp_text rp')) m ep kw) out2)
          as [[e He] | (rp2 & -> & Hok2)].
        -- destruct out2 as [d2|rp2]; cbn in He.
           ++ injection He as <-.
              unfold bind, print, emit, raise. norm.
              eapply (AttemptRetryError (Build_World (Some self) s c t) self m ep kw rp lat srv rp' lat' srv'
                        check lat'' srv'' (Failed d2) lat2 srv2); eauto.
           ++ unfold bind at 1, raise_for_status, status_code. cbn [rs_reply].
              destruct (is_success (rp_status rp2)) eqn:Hs; [discriminate|].
              injection He as <-.
              unfold bind, print, emit, raise. norm.
              eapply (AttemptRetryError (Build_World (Some self) s c t) self m ep kw rp lat srv rp' lat' srv'
                        check lat'' srv'' (Replied rp2) lat2 srv2); eauto.
              cbn. rewrite Hs. reflexivity.
        -- unfold bind at 1, raise_for_status, status_code. cbn [rs_reply].
           rewrite Hok2. unfold bind, ret. norm.
           eapply (AttemptRetryOk (Build_World (Some self) s c t) self m ep kw rp lat srv rp' lat' srv'
                     check lat'' srv'' rp2 lat2 srv2); eauto.
    + (* any other status *)
      unfold bind at 1, ret at 1. unfold bind at 1, raise_for_status, status_code. cbn [rs_reply].
      destruct (is_success (rp_status rp)) eqn:Hs.
      * unfold bind, ret. norm. apply (AttemptOk (Build_World (Some self) s c t)); auto.
      * unfold bind, print, emit, raise. norm.
        apply (AttemptError (Build_World (Some self) s c t) self m ep kw (Replied rp) lat srv); auto.
        cbn. rewrite Hs. reflexivity.
Qed.

(** C3 (amended). [authenticate] fails with an [HTTPStatusError] exactly when
    the login endpoint answers with a status outside 2xx.  When the login
    succeeds the body, stripped of its quotes, is stored as the token.  If
    the token is made of ASCII characters the verification call to
    /api/v0/authok is made, and whatever comes back from it (no reply, any
    status) [authenticate] returns the token: a failed verification leaves
    one line on stderr and nothing else.  A token with another character
    cannot be written into the Authorization header: [authenticate] raises
    the [UnicodeEncodeError] of that header, the token stays stored and no
    verification call is made. *)
Theorem authenticate_fails_iff_login_rejected w self out lat srv :
  cml_auth w = Some self ->
  serve (remote w) (login_request self) = (out, lat, srv) ->
  ((exists rs w', authenticate w = Raise (HTTPStatusError rs) w') <->
   (exists rp, out = Replied rp /\ is_success (rp_status rp) = false)) /\
  (forall rp, out = Replied rp -> is_success (rp_status rp) = true ->
     let tok := strip dquote (rp_text rp) in
     if is_ascii tok then
       let self' := refreshed self (rp_text rp) in
       exists check w',
         authenticate w = Return (Some tok) w' /\
         cml_auth w' = Some self' /\ token self' = Some tok /\
         since w w' = (login_events self out ++ verify_events self' check)%list
     else
       exists w',
         authenticate w = Raise (UnicodeEncodeError ("Bearer " ++ tok)) w' /\
         stored_token w' = Some tok /\
         since w w' = login_events self out).
Proof.
  intros Hself Hserve.
  destruct (exchange_error_cases (login_request self) out)
    as [[e He] | (rp & -> & Hok)].
  - rewrite (authenticate_refused w self out lat srv e Hself Hserve He). split.
    + split.
      * intros (rs & w' & H). injection H as -> _.
        destruct out as [d|rp]; cbn in He; [discriminate|].
        exists rp. destruct (is_success (rp_status rp)); [discriminate|]. auto.
      * intros (rp & -> & Hrp). cbn in He. rewrite Hrp in He. injection He as <-.
        eauto.
    + intros rp -> Hrp. cbn in He. rewrite Hrp in He. discriminate.
  - destruct (is_ascii (strip dquote (rp_text rp))) eqn:Hasc.
    + destruct (serve srv (authok_request (refreshed self (rp_text rp))))
        as [[check lat'] srv'] eqn:E'.
      rewrite (authenticate_granted w self rp lat srv check lat' srv'
                 Hself Hserve Hok Hasc E').
      split.
      * split.
        -- intros (rs & w' & H). discriminate.
        -- intros (rp0 & H & Hrp). injection H as <-. congruence.
      * intros rp0 H _. injection H as <-. cbv zeta. rewrite Hasc.
        exists check. eexists. split; [reflexivity|]. split; [reflexivity|].
        split; [reflexivity|]. apply since_app. reflexivity.
    + rewrite (authenticate_garbled w self rp lat srv Hself Hserve Hok Hasc).
      split.
      * split.
        -- intros (rs & w' & H). discriminate.
        -- intros (rp0 & H & Hrp). injection H as <-. congruence.
      * intros rp0 H _. injection H as <-. cbv zeta. rewrite Hasc.
        eexists. split; [reflexivity|]. split; [reflexivity|].
        apply since_app. reflexivity.
Qed.

Lemma call_headers_nodup kw t :
  kwargs_ok kw -> NoDup (map fst (call_headers kw t)).
Proof.
  unfold kwargs_ok, call_headers. intros H. apply hset_nodup.
  destruct (kw_headers kw); [exact H | constructor].
Qed.

Lemma first_request_bearer self m ep kw :
  kwargs_ok kw ->
  hget (rq_headers (first_request self m ep kw)) "Authorization"
    = Some (bearer (token self)).
Proof.
  intros H. unfold first_request, call_request. cbn [rq_headers].
  apply hget_hupdate_hit; [apply call_headers_nodup, H|].
  unfold call_headers. rewrite hget_hset, String.eqb_refl. reflexivity.
Qed.

Lemma retry_request_bearer self self' m ep kw :
  kwargs_ok kw ->
  hget (rq_headers (retry_request self self' m ep kw)) "Authorization"
    = Some (bearer (token self')).
Proof.
  intros H. unfold retry_request, call_request. cbn [rq_headers].
  apply hget_hupdate_hit; [apply hset_nodup, call_headers_nodup, H|].
  rewrite hget_hset, String.eqb_refl. reflexivity.
Qed.

(** Case analysis over the runs of [request] from [w], and the reading of
    the trace each case leaves. *)
Ltac prologue_cases w self m ep kw Hself :=
  let P := fresh "P" in
  pose proof (prologue_run w self m ep kw Hself) as P;
  inversion P;
  match goal with
  | H : _ = request_prologue m ep kw w |- _ => rewrite <- H in *; clear H
  end;
  clear P.

Ltac attempt_cases m ep kw :=
  match goal with
  | |- context [request_attempt m ep kw ?w0] =>
      match eval cbn in (cml_auth w0) with
      | Some ?self0 =>
          let A := fresh "A" in
          pose proof (attempt_run w0 self0 m ep kw eq_refl) as A;
          inversion A;
          match goal with
          | H : _ = request_attempt m ep kw w0 |- _ => rewrite <- H in *; clear H
          end;
          clear A
      end
  end.

Ltac read_trace w :=
  cbn [final] in *;
  repeat match goal with
  | H : context [since w ?w'] |- _ =>
      erewrite (since_app w w') in H by (norm; reflexivity)
  | |- context [since w ?w'] =>
      erewrite (since_app w w') by (norm; reflexivity)
  end;
  unfold login_events, verify_events, announce, complaint in *;
  cbn [app issued logins verifications auth_calls request_calls after_issue
       before_issue sleeps wire fst snd] in *.

(** C1 (amended). When the first answer to the request has status 401,
    [authenticate] runs exactly once more.  If that login is refused or gets
    no reply, the request is not sent again and the login's exception
    propagates.  If it is accepted, its body stripped of its quotes is the
    new token.  A token made of ASCII characters: the request is sent exactly
    once more, with the same method, endpoint and payload and with
    Authorization: Bearer <the new token>, and the outcome of that second
    exchange is final: a reply outside 2xx raises the [HTTPStatusError] that
    carries the request and the reply, a lost reply raises the transport
    error, and nothing further is sent.  A token with another character:
    [authenticate] raises the [UnicodeEncodeError] of the header it cannot
    write, and the request is not sent again. *)
Theorem request_reauthenticates_once w self m ep kw stored rq rp rest :
  cml_auth w = Some self -> kwargs_ok kw ->
  let r := request m ep kw w in
  let evs := since w (final r w) in
  issued evs = (stored, rq, Replied rp) :: rest ->
  rp_status rp = 401%Z ->
  auth_calls (after_issue evs) = 1 /\
  exists login, logins (after_issue evs) = [login] /\
    match exchange_error (snd (fst login)) (snd login) with
    | Some e => rest = [] /\ exists w', r = Raise e w'
    | None =>
        exists t,
          stored_token (final r w) = Some t /\
          (forall rp', snd login = Replied rp' -> t = strip dquote (rp_text rp')) /\
          if is_ascii t then
            exists rq2 out2,
              rest = [(Some t, rq2, out2)] /\
              hget (rq_headers rq2) "Authorization" = Some ("Bearer " ++ t) /\
              rq_method rq2 = m /\ rq_endpoint rq2 = ep /\
              rq_json rq2 = kw_json kw /\ rq_content rq2 = kw_content kw /\
              match exchange_error rq2 out2 with
              | Some e => exists w', r = Raise e w'
              | None => exists rs w', r = Return rs w' /\ rs_request rs = rq2
              end
          else
            rest = [] /\
            exists w', r = Raise (UnicodeEncodeError ("Bearer " ++ t)) w'
    end.
Proof.
  intros Hself Hkw r evs. subst evs r.
  rewrite (request_split m ep kw w).
  prologue_cases w self m ep kw Hself; try attempt_cases m ep kw; intros Hiss H401.
  all: read_trace w.
  all: try discriminate Hiss.
  all: injection Hiss as <- <- Hout <-.
  all: try (subst; match goal with
            | H : is_success (rp_status ?x) = true, H' : rp_status ?x = 401%Z |- _ =>
                rewrite H' in H; discriminate H
            | H : is_401 (Replied ?x) = false, H' : rp_status ?x = 401%Z |- _ =>
                cbn in H; rewrite H' in H; discriminate H
            end).
  all: split; [reflexivity|]; eexists; split; [reflexivity|]; cbn [fst snd].
  all: try match goal with
       | H : exchange_error (login_request _) _ = Some _ |- _ =>
           rewrite H; split; [reflexivity|]; eexists; reflexivity
       end.
  all: match goal with
       | H : is_success (rp_status ?x) = true
         |- context [exchange_error (login_request _) (Replied ?x)] =>
           cbn [exchange_error]; rewrite H
       end.
  all: unfold stored_token; cbn [cml_auth];
       repeat match goal with x := _ |- _ => subst x end;
       cbn [garbled refreshed with_token with_client_headers token].
  all: eexists; split; [reflexivity|];
       split; [intros ? Hrp'; injection Hrp' as <-; reflexivity|].
  all: match goal with
       | H : is_ascii _ = _ |- _ => rewrite H
       end.
  all: try (split; [reflexivity|]; eexists; reflexivity).
  all: do 2 eexists; split; [reflexivity|].
  all: split; [apply retry_request_bearer; assumption|].
  all: do 4 (split; [reflexivity|]).
  all: try match goal with
       | H : exchange_error (retry_request _ _ _ _ _) _ = Some _ |- _ =>
           rewrite H; eexists; reflexivity
       end.
  all: match goal with
       | H : is_success (rp_status ?x) = true
         |- context [exchange_error _ (Replied ?x)] =>
           cbn [exchange_error]; rewrite H
       end.
  all: do 2 eexists; split; reflexivity.
Qed.

(** C2. A call of [request] made while the session holds no token (none
    yet, or an empty one, which [not self.token] treats alike) enters
    [authenticate] exactly once before anything is issued through
    client.request, and every exchange issued that way carries
    Authorization: Bearer t, where t is the token stored at that moment. *)
Theorem request_without_token_authenticates_first w self m ep kw :
  cml_auth w = Some self -> no_token (token self) = true -> kwargs_ok kw ->
  let r := request m ep kw w in
  let evs := since w (final r w) in
  auth_calls (before_issue evs) = 1 /\
  Forall (fun x : exchange =>
            exists t, fst (fst x) = Some t /\
                      hget (rq_headers (snd (fst x))) "Authorization"
                        = Some ("Bearer " ++ t))
         (issued evs).
Proof.
  intros Hself Htok Hkw r evs. subst evs r.
  rewrite (request_split m ep kw w).
  prologue_cases w self m ep kw Hself; try attempt_cases m ep kw.
  all: try match goal with
       | H : no_token (token ?s) = false, H' : no_token (token ?s) = true |- _ =>
           rewrite H' in H; discriminate H
       end.
  all: read_trace w.
  all: split; [reflexivity|].
  all: repeat constructor; cbn [fst snd].
  all: eexists; split; [reflexivity|].
  all: first [ apply first_request_bearer; assumption
             | apply retry_request_bearer; assumption ].
Qed.

Lemma same_identity_refl a : same_identity a a.
Proof. unfold same_identity. tauto. Qed.

Lemma session_step_refl a : session_step a a.
Proof. split; [apply same_identity_refl | left; auto]. Qed.

Lemma session_step_refreshed a body :
  is_ascii (strip dquote body) = true -> session_step a (refreshed a body).
Proof.
  intros H. split; [unfold same_identity; cbn; tauto|].
  right. exists (strip dquote body). cbn. rewrite H. auto.
Qed.

Lemma session_step_garbled a body :
  is_ascii (strip dquote body) = false -> session_step a (garbled a body).
Proof.
  intros H. split; [unfold same_identity; cbn; tauto|].
  right. exists (strip dquote body). cbn. rewrite H. auto.
Qed.

Lemma authenticate_cases w self :
  cml_auth w = Some self ->
  (exists e w', authenticate w = Raise e w' /\ cml_auth w' = Some self) \/
  (exists rp lat srv w',
     serve (remote w) (login_request self) = (Replied rp, lat, srv) /\
     is_success (rp_status rp) = true /\
     is_ascii (strip dquote (rp_text rp)) = false /\
     authenticate w = Raise (unencodable_token (strip dquote (rp_text rp))) w' /\
     cml_auth w' = Some (garbled self (rp_text rp))) \/
  (exists rp lat srv w',
     serve (remote w) (login_request self) = (Replied rp, lat, srv) /\
     is_success (rp_status rp) = true /\
     is_ascii (strip dquote (rp_text rp)) = true /\
     authenticate w = Return (Some (strip dquote (rp_text rp))) w' /\
     cml_auth w' = Some (refreshed self (rp_text rp))).
Proof.
  intros Hself.
  destruct (serve (remote w) (login_request self)) as [[out lat] srv] eqn:E.
  destruct (exchange_error_cases (login_request self) out)
    as [[e He] | (rp & -> & Hok)].
  - left. rewrite (authenticate_refused w self out lat srv e Hself E He). eauto.
  - right. destruct (is_ascii (strip dquote (rp_text rp))) eqn:Hasc.
    + right.
      destruct (serve srv (authok_request (refreshed self (rp_text rp))))
        as [[check lat'] srv'] eqn:E'.
      rewrite (authenticate_granted w self rp lat srv check lat' srv'
                 Hself E Hok Hasc E').
      exists rp, lat, srv. eauto 10.
    + left. rewrite (authenticate_garbled w self rp lat srv Hself E Hok Hasc).
      exists rp, lat, srv. eauto 10.
Qed.

Lemma initialize_client_rebinds base user pass verify w :
  match CMLAuth_init (with_scheme base) user pass verify with
  | inr new =>
      exists self',
        cml_auth (final (initialize_client base user pass verify w) w) = Some self' /\
        same_identity new self'
  | inl _ =>
      cml_auth (final (initialize_client base user pass verify w) w) = cml_auth w
  end.
Proof.
  unfold initialize_client. fold (with_scheme base).
  destruct (CMLAuth_init (with_scheme base) user pass verify) as [e|new] eqn:Enew.
  - reflexivity.
  - unfold bind, print, print_exc, emit, set_global, try_except, ret, raise.
    match goal with |- context [authenticate ?w0] => set (w1 := w0) end.
    destruct (authenticate_cases w1 new eq_refl)
      as [(e & w' & -> & H) | [(rp & lat & srv & w' & _ & _ & _ & -> & H)
                              | (rp & lat & srv & w' & _ & _ & _ & -> & H)]].
    + destruct (is_HTTPStatusError e); cbn [final cml_auth];
        rewrite H; eauto using same_identity_refl.
    + unfold unencodable_token; cbn [is_HTTPStatusError final cml_auth].
      rewrite H. eexists. split; [reflexivity|]. unfold same_identity. cbn. tauto.
    + cbn [final cml_auth].
      rewrite H. eexists. split; [reflexivity|]. unfold same_identity. cbn. tauto.
Qed.

(** C8 (amended). [authenticate] and [request] leave the server address, the
    credentials, the verify flag and the transport's base URL and verify
    setting as they were, and the module global keeps holding the session.
    The stored token is not all that changes.  The default headers of the
    transport change too: every login ([authenticate] makes at most one,
    [request] at most two) stores a token t and, when t is made of ASCII
    characters, sets the transport's Authorization header to Bearer t, every
    other header staying as it was; for another token the headers stay as
    they were.  And the module global itself changes: [initialize_client]
    binds it to a new session, with the address and the credentials it was
    given, unless httpx refuses the address, in which case the global stays
    as it was. *)
Theorem gateway_frame w self :
  cml_auth w = Some self ->
  (exists self',
     cml_auth (final (authenticate w) w) = Some self' /\ session_step self self') /\
  (forall m ep kw, exists mid self',
     cml_auth (final (request m ep kw w) w) = Some self' /\
     session_step self mid /\ session_step mid self') /\
  (forall base user pass verify,
     match CMLAuth_init (with_scheme base) user pass verify with
     | inr new =>
         exists self',
           cml_auth (final (initialize_client base user pass verify w) w)
             = Some self' /\
           same_identity new self'
     | inl _ =>
         cml_auth (final (initialize_client base user pass verify w) w) = Some self
     end).
Proof.
  intros Hself. split; [|split].
  - destruct (authenticate_cases w self Hself)
      as [(e & w' & -> & H) | [(rp & lat & srv & w' & _ & _ & Hasc & -> & H)
                              | (rp & lat & srv & w' & _ & _ & Hasc & -> & H)]];
      cbn [final].
    + eauto using session_step_refl.
    + eauto using session_step_garbled.
    + eauto using session_step_refreshed.
  - intros m ep kw. rewrite (request_split m ep kw w).
    prologue_cases w self m ep kw Hself; try attempt_cases m ep kw.
    all: cbn [final cml_auth].
    all: repeat match goal with x := _ |- _ => subst x end.
    all: do 2 eexists; split; [reflexivity|].
    all: match goal with
         | |- session_step ?a ?x /\ session_step ?x (?f (?g ?a ?b) ?b') =>
             unify x (g a b)
         | |- session_step ?a ?x /\ session_step ?x (?g ?a ?b) => unify x a
         | |- session_step ?a ?x /\ session_step ?x ?a => unify x a
         end.
    all: split;
         first [ apply session_step_refl
               | apply session_step_refreshed; assumption
               | apply session_step_garbled; assumption ].
  - intros base user pass verify.
    pose proof (initialize_client_rebinds base user pass verify w) as H.
    destruct (CMLAuth_init (with_scheme base) user pass verify); [|exact H].
    rewrite H. exact Hself.
Qed.

Lemma token_ok_refreshed self rp s lat s' :
  login_bodies_nonempty ->
  serve s (login_request self) = (Replied rp, lat, s') ->
  is_success (rp_status rp) = true ->
  token_ok (token (refreshed self (rp_text rp))).
Proof.
  intros Hsrv Hserve Hok. cbn. eapply Hsrv; eauto.
Qed.

Lemma new_session base user pass verify self :
  CMLAuth_init base user pass verify = inr self ->
  base_url self = base /\ username self = user /\ password self = pass /\
  token self = None /\ verify_ssl self = verify /\
  ac_base_url (client self) = base /\ ac_verify (client self) = verify /\
  ac_headers (client self) = httpx_default_headers /\
  httpx_accepts base = true.
Proof.
  unfold CMLAuth_init. destruct (httpx_accepts base); [|discriminate].
  intros H. injection H as <-. cbn. tauto.
Qed.

(** C7 (amended). Provided the login endpoint never answers a success with a
    body that is empty or made of double quotes only, the token invariant
    (absent, or a non-empty string) holds of a new session and is preserved
    by [authenticate] and by [request]. *)
Theorem token_invariant_preserved :
  login_bodies_nonempty ->
  (forall base user pass verify self,
     CMLAuth_init base user pass verify = inr self -> token_ok (token self)) /\
  (forall w self,
     cml_auth w = Some self -> token_ok (token self) ->
     token_ok (stored_token (final (authenticate w) w)) /\
     forall m ep kw, token_ok (stored_token (final (request m ep kw w) w))).
Proof.
  intros Hsrv. split.
  { intros base user pass verify self H.
    destruct (new_session _ _ _ _ _ H) as (_ & _ & _ & -> & _). exact I. }
  intros w self Hself Hinv. split.
  - destruct (authenticate_cases w self Hself)
      as [(e & w' & -> & H) | [(rp & lat & srv & w' & Hs & Hok & _ & -> & H)
                              | (rp & lat & srv & w' & Hs & Hok & _ & -> & H)]];
      cbn [final]; unfold stored_token; rewrite H; [exact Hinv| |];
      eapply token_ok_refreshed; eauto.
  - intros m ep kw. rewrite (request_split m ep kw w).
    prologue_cases w self m ep kw Hself; try attempt_cases m ep kw.
    all: cbn [final]; unfold stored_token; cbn [cml_auth].
    all: repeat match goal with x := _ |- _ => subst x end.
    all: try exact Hinv.
    all: repeat match goal with
         | |- context [token (garbled ?a ?b)] =>
             change (token (garbled a b)) with (token (refreshed a b))
         end.
    all: eauto using token_ok_refreshed.
Qed.

Lemma request_stops w self m ep kw :
  cml_auth w = Some self ->
  stops_with [(m, ep, kw_json kw)] w (request m ep kw w).
Proof.
  intros Hself. rewrite (request_split m ep kw w).
  prologue_cases w self m ep kw Hself; try attempt_cases m ep kw.
  all: cbn [stops_with].
  all: split; [eexists; reflexivity | cbn [clock]; lia |].
  all: norm; eexists; split; [reflexivity|].
  all: unfold login_events, verify_events, announce, complaint;
       cbn [app request_calls sleeps wire]; split; [reflexivity|];
       split; [reflexivity|].
  all: repeat (apply Forall_cons; [|]); try apply Forall_nil.
  all: unfold allowed; cbn [login_request authok_request rq_method rq_endpoint
                            rq_json first_request retry_request call_request In];
       auto.
Qed.

End GatewayFacts.

(** * Properties of the tools *)

(** ** Traces and footprints *)

Lemma request_calls_app a b : request_calls (a ++ b) = (request_calls a ++ request_calls b)%list.
Proof.
  induction a as [|ev a IH]; [reflexivity|].
  destruct ev; cbn; rewrite ?IH; reflexivity.
Qed.

Lemma sleeps_app a b : sleeps (a ++ b) = (sleeps a ++ sleeps b)%list.
Proof.
  induction a as [|ev a IH]; [reflexivity|].
  destruct ev; cbn; rewrite ?IH; reflexivity.
Qed.

Lemma wire_app a b : wire (a ++ b) = (wire a ++ wire b)%list.
Proof.
  induction a as [|ev a IH]; [reflexivity|].
  destruct ev; cbn; rewrite ?IH; reflexivity.
Qed.

Lemma allowed_mono calls calls' rq :
  (forall c, In c calls -> In c calls') -> allowed calls rq -> allowed calls' rq.
Proof. unfold allowed. intuition. Qed.

(** ** Dict keys *)

Lemma key_eqb_spec a b :
  key_eqb a b = true <->
  (a = PNone /\ b = PNone) \/ (exists s, a = PStr s /\ b = PStr s) \/
  (exists z, key_num a = Some z /\ key_num b = Some z).
Proof.
  destruct a as [|[]|za|sa|la|da], b as [|[]|zb|sb|lb|db];
    cbv beta iota delta [key_eqb key_num];
    rewrite ?Z.eqb_eq, ?String.eqb_eq;
    (split;
     [ intros H; try discriminate H; subst; eauto 6
     | intros [[H1 H2] | [(s & H1 & H2) | (z & H1 & H2)]];
       try discriminate H1; try discriminate H2; try reflexivity;
       congruence ]).
Qed.

Lemma key_eqb_euclid a b c :
  key_eqb a b = true -> key_eqb a c = true -> key_eqb b c = true.
Proof.
  rewrite !key_eqb_spec.
  intros [[Ha Hb] | [(s & Ha & Hb) | (z & Ha & Hb)]]
         [[Ha' Hc] | [(s' & Ha' & Hc) | (z' & Ha' & Hc)]];
    subst; try discriminate; eauto 6.
  all: try (right; left; eexists; split; [reflexivity|congruence]).
  all: right; right; exists z; split; congruence.
Qed.

Lemma key_eqb_refl k : hashable k = true -> key_eqb k k = true.
Proof.
  destruct k as [|[]| | | |]; cbn; try discriminate; intros _;
    rewrite ?Z.eqb_refl, ?String.eqb_refl; reflexivity.
Qed.

Lemma items_get_set_same d k v :
  hashable k = true -> items_get (items_set d k v) k = Some v.
Proof.
  intros Hk. induction d as [|[k0 v0] d IH]; cbn.
  - rewrite (key_eqb_refl k Hk). reflexivity.
  - destruct (key_eqb k0 k) eqn:E; cbn; rewrite E; [reflexivity | exact IH].
Qed.

Lemma items_get_set_other d k1 v k :
  key_eqb k1 k = false -> items_get (items_set d k1 v) k = items_get d k.
Proof.
  intros Hk. induction d as [|[k0 v0] d IH]; cbn.
  - rewrite Hk. reflexivity.
  - destruct (key_eqb k0 k1) eqn:E1; cbn.
    + destruct (key_eqb k0 k) eqn:E; [|reflexivity].
      rewrite (key_eqb_euclid k0 k1 k E1 E) in Hk. discriminate.
    + destruct (key_eqb k0 k); [reflexivity | exact IH].
Qed.

Lemma items_set_fresh d k v :
  (forall k0 v0, In (k0, v0) d -> key_eqb k0 k = false) ->
  items_set d k v = (d ++ [(k, v)])%list.
Proof.
  induction d as [|[k0 v0] d IH]; cbn; intros H; [reflexivity|].
  rewrite (H k0 v0) by auto. rewrite IH by eauto. reflexivity.
Qed.

Section ToolFacts.

Context {R : Remote}.

#[local] Arguments authenticate : simpl never.
#[local] Arguments transport : simpl never.
#[local] Arguments request : simpl never.

Lemma footprint_refl w self : cml_auth w = Some self -> Footprint [] w w.
Proof.
  intros H. split; [eauto | lia |].
  exists []. rewrite app_nil_r. repeat split; constructor.
Qed.

Lemma footprint_trans c1 c2 w w1 w2 :
  Footprint c1 w w1 -> Footprint c2 w1 w2 -> Footprint (c1 ++ c2)%list w w2.
Proof.
  intros [_ Hc1 (e1 & Ht1 & Hr1 & Hs1 & Hw1)] [Hs Hc2 (e2 & Ht2 & Hr2 & Hs2 & Hw2)].
  split; [exact Hs | lia |].
  exists (e1 ++ e2)%list. rewrite Ht2, Ht1, app_assoc. split; [reflexivity|].
  rewrite request_calls_app, sleeps_app, wire_app, Hr1, Hr2, Hs1, Hs2.
  split; [reflexivity|]. split; [reflexivity|].
  apply Forall_app. split.
  - eapply Forall_impl; [|exact Hw1]. intros rq. apply allowed_mono.
    intros c Hc. apply in_or_app. auto.
  - eapply Forall_impl; [|exact Hw2]. intros rq. apply allowed_mono.
    intros c Hc. apply in_or_app. auto.
Qed.

Lemma footprint_emit c w w1 ev :
  silent ev -> Footprint c w w1 ->
  Footprint c w (final (emit ev w1) w1).
Proof.
  intros Hev [Hs Hc (e1 & Ht1 & Hr1 & Hs1 & Hw1)]. cbn [final emit].
  split; [exact Hs | exact Hc |].
  exists (e1 ++ [ev])%list. cbn [trace]. rewrite Ht1, app_assoc.
  split; [reflexivity|].
  rewrite request_calls_app, sleeps_app, wire_app, Hr1, Hs1.
  destruct ev; try contradiction; cbn; rewrite !app_nil_r; auto.
Qed.

Lemma handle_api_error_run op e c w w1 :
  Footprint c w w1 ->
  exists w2, _handle_api_error op e w1
             = Return (PDict [(PStr "error",
                               PStr ("Error during " ++ op ++ ": " ++ str_of_exn e))]) w2
             /\ Footprint c w w2.
Proof.
  intros F. unfold _handle_api_error, bind, print, print_exc, ret.
  eexists. split; [reflexivity|].
  apply (footprint_emit c w _ (EvTraceback e) I).
  apply (footprint_emit c w _ (EvStderr _) I). exact F.
Qed.

Lemma check_auth_some w self :
  cml_auth w = Some self -> _check_auth w = Return PNone w.
Proof. intros H. unfold _check_auth. rewrite H. reflexivity. Qed.

Lemma check_auth_none w :
  cml_auth w = None ->
  _check_auth w = Return (PDict [(PStr "error", PStr NOT_INITIALIZED)]) w.
Proof. intros H. unfold _check_auth. rewrite H. reflexivity. Qed.

Lemma get_lab_details_run w self lab :
  cml_auth w = Some self ->
  exists d w1,
    get_lab_details lab w = Return d w1 /\
    Footprint [("GET", "/api/v0/labs/" ++ lab, None)] w w1.
Proof.
  intros Hself. unfold get_lab_details, bind.
  rewrite (check_auth_some w self Hself). cbn [truthy].
  unfold try_except.
  pose proof (request_stops w self "GET" ("/api/v0/labs/" ++ lab) no_kwargs Hself)
    as F.
  destruct (request "GET" ("/api/v0/labs/" ++ lab) no_kwargs w) as [resp w1|e w1|];
    cbn [stops_with kw_json no_kwargs] in F; [| |contradiction].
  - unfold json. destruct (rp_json (rs_reply resp)) as [v|].
    + unfold ret. eauto.
    + unfold raise.
      destruct (handle_api_error_run "get_lab_details" (JSONDecodeError (text resp))
                  _ w w1 F) as (w2 & -> & F2). eauto.
  - destruct (handle_api_error_run "get_lab_details" e _ w w1 F) as (w2 & -> & F2).
    eauto.
Qed.

Lemma append_tail_neq s c t : s <> s ++ String c t.
Proof.
  induction s as [|a s IH]; cbn; [discriminate|].
  intros H. injection H as H. exact (IH H).
Qed.

Lemma started_needs_client w lab d w1 :
  get_lab_details lab w = Return d w1 -> lab_is_started d = true ->
  exists self, cml_auth w = Some self.
Proof.
  intros Hd Hs. destruct (cml_auth w) as [self|] eqn:E; [eauto|].
  unfold get_lab_details, bind in Hd. rewrite (check_auth_none w E) in Hd.
  cbn in Hd. injection Hd as <- _. discriminate Hs.
Qed.

(** C10. When the lab reports the state STARTED, [create_interface] returns
    the error result and stops in the world [get_lab_details] stopped in:
    nothing is sent after the state was read, and nothing that was sent to
    read it went to the lab's interfaces endpoint. *)
Theorem create_interface_refuses_running_lab w lab node slot d w1 :
  get_lab_details lab w = Return d w1 ->
  lab_is_started d = true ->
  create_interface lab node slot w
    = Return (PDict [(PStr "error", PStr LAB_RUNNING)]) w1 /\
  Forall (fun rq => rq_endpoint rq <> "/api/v0/labs/" ++ lab ++ "/interfaces")
         (wire (since w w1)).
Proof.
  intros Hd Hs. destruct (started_needs_client w lab d w1 Hd Hs) as [self Hself].
  split.
  - unfold create_interface, bind. rewrite (check_auth_some w self Hself).
    cbn [truthy]. unfold try_except. rewrite Hd, Hs. reflexivity.
  - destruct (get_lab_details_run w self lab Hself) as (d' & w1' & Hd' & F).
    rewrite Hd in Hd'. injection Hd' as <- <-.
    destruct F as [_ _ (evs & Ht & _ & _ & Hw)].
    rewrite (since_app w w1 evs Ht).
    eapply Forall_impl; [|exact Hw].
    intros rq [[_ H] | [[_ H] | [H | []]]].
    + rewrite H. discriminate.
    + rewrite H. discriminate.
    + injection H as _ H _. rewrite <- H. cbn. intros H'.
      repeat (injection H' as H'). exact (append_tail_neq _ _ _ H').
Qed.

Lemma py_get_pure v k w :
  (exists x, py_get v k w = Return x w) \/ (exists e, py_get v k w = Raise e w).
Proof.
  unfold py_get, py_get_default. destruct v; unfold ret, raise; eauto.
Qed.

Lemma json_pure resp w :
  (exists x, json resp w = Return x w) \/ (exists e, json resp w = Raise e w).
Proof.
  unfold json. destruct (rp_json (rs_reply resp)); unfold ret, raise; eauto.
Qed.

Lemma create_link_standard_run w self lab a b :
  cml_auth w = Some self ->
  stops_with [standard_call lab a b] w (create_link_standard lab a b w).
Proof.
  intros Hself. unfold create_link_standard.
  unfold bind at 1, print at 1, emit at 1.
  set (w0 := Build_World _ _ _ _).
  assert (F0 : Footprint [] w w0).
  { apply (footprint_emit [] w w (EvStderr _) I), (footprint_refl w self Hself). }
  unfold bind at 1.
  pose proof (request_stops w0 self "POST" (links_endpoint lab)
                {| kw_json := Some (link_data a b); kw_content := None;
                   kw_headers := Some link_headers |} Hself) as F.
  cbn [kw_json] in F.
  destruct (request _ _ _ w0) as [resp w1|e w1|]; [| |contradiction];
    cbn [stops_with] in F |- *;
    pose proof (footprint_trans _ _ _ _ _ F0 F) as F1; cbn [app] in F1;
    [|exact F1].
  unfold bind at 1.
  destruct (json_pure resp w1) as [[x ->] | [e ->]]; [|exact F1].
  unfold bind at 1, print at 1, emit at 1.
  set (w2 := Build_World _ _ _ _).
  assert (F2 : Footprint [standard_call lab a b] w w2).
  { apply (footprint_emit _ w w1 (EvStderr _) I), F1. }
  unfold bind at 1.
  destruct (py_get_pure x "id" w2) as [[i ->] | [e ->]]; [|exact F2].
  destruct (negb (truthy i)); unfold ret; exact F2.
Qed.

Lemma create_link_alternative_run w self lab a b :
  cml_auth w = Some self ->
  stops_with [alternative_call lab a b] w (create_link_alternative lab a b w).
Proof.
  intros Hself. unfold create_link_alternative.
  unfold bind at 1, print at 1, emit at 1.
  set (w0 := Build_World _ _ _ _).
  assert (F0 : Footprint [] w w0).
  { apply (footprint_emit [] w w (EvStderr _) I), (footprint_refl w self Hself). }
  unfold bind at 1.
  pose proof (request_stops w0 self "POST" (links_endpoint lab)
                {| kw_json := Some (link_data_alt a b); kw_content := None;
                   kw_headers := Some link_headers |} Hself) as F.
  cbn [kw_json] in F.
  destruct (request _ _ _ w0) as [resp w1|e w1|]; [| |contradiction];
    cbn [stops_with] in F |- *;
    pose proof (footprint_trans _ _ _ _ _ F0 F) as F1; cbn [app] in F1;
    [|exact F1].
  unfold bind at 1.
  destruct (json_pure resp w1) as [[x ->] | [e ->]]; [|exact F1].
  unfold bind at 1, print at 1, emit at 1.
  set (w2 := Build_World _ _ _ _).
  assert (F2 : Footprint [alternative_call lab a b] w w2).
  { apply (footprint_emit _ w w1 (EvStderr _) I), F1. }
  unfold bind at 1.
  destruct (py_get_pure x "id" w2) as [[i ->] | [e ->]]; [|exact F2].
  destruct (truthy i); unfold ret; exact F2.
Qed.

Lemma footprint_calls c w w' :
  Footprint c w w' ->
  request_calls (since w w') = c /\ sleeps (since w w') = [] /\
  Forall (allowed c) (wire (since w w')).
Proof.
  intros [_ _ (evs & Ht & Hr & Hs & Hw)]. rewrite (since_app w w' evs Ht). auto.
Qed.

Lemma quiet_refl w : quiet w w.
Proof.
  repeat split. exists []. rewrite app_nil_r. split; [reflexivity | constructor].
Qed.

Lemma quiet_trans w w1 w2 : quiet w w1 -> quiet w1 w2 -> quiet w w2.
Proof.
  intros (Ha & Hr & Hc & e1 & Ht1 & Hs1) (Ha' & Hr' & Hc' & e2 & Ht2 & Hs2).
  split; [congruence|]. split; [congruence|]. split; [congruence|].
  exists (e1 ++ e2)%list. rewrite Ht2, Ht1, app_assoc.
  split; [reflexivity | apply Forall_app; auto].
Qed.

Lemma quiet_emit ev w : silent ev -> quiet w (final (emit ev w) w).
Proof.
  intros H. cbn. repeat split. exists [ev]. split; [reflexivity|].
  constructor; [exact H | constructor].
Qed.

Lemma quiet_print line w : quiet w (final (print line w) w).
Proof. apply (quiet_emit (EvStderr line)). exact I. Qed.

Lemma handle_api_error_quiet op e w :
  exists w',
    _handle_api_error op e w
    = Return (PDict [(PStr "error",
                      PStr ("Error during " ++ op ++ ": " ++ str_of_exn e))]) w' /\
    quiet w w'.
Proof.
  unfold _handle_api_error, bind, print, print_exc, ret.
  eexists. split; [reflexivity|].
  cbn. repeat split. eexists. rewrite <- app_assoc. split; [reflexivity|].
  repeat constructor.
Qed.

Lemma link_outcome_of_id d v :
  (match items_get d (PStr "id") with
   | Some id =>
       if truthy id
       then exists rest, v = PDict ((PStr "link_id", id) :: rest) /\
                         items_get rest (PStr "error") = None
       else exists x rest, v = PDict ((PStr "error", x) :: rest) /\
                           items_get rest (PStr "link_id") = None
   | None => exists x rest, v = PDict ((PStr "error", x) :: rest) /\
                            items_get rest (PStr "link_id") = None
   end) ->
  link_outcome d v.
Proof.
  unfold link_outcome. destruct (items_get d (PStr "id")) as [id|].
  - destruct (truthy id).
    + intros (rest & -> & H). eexists. split; [reflexivity|]. cbn. auto.
    + intros (x & rest & -> & H). eexists. split; [reflexivity|]. cbn.
      split; [discriminate | exact H].
  - intros (x & rest & -> & H). eexists. split; [reflexivity|]. cbn.
    split; [discriminate | exact H].
Qed.

Lemma create_link_standard_attempt w lab a b :
  let w0 := final (print ("Creating link " ++ between a b) w) w in
  let first := post_link lab (standard_payload a b) w0 in
  match create_link_standard lab a b w with
  | Return v w' => exists d w1, answered first d w1 /\ quiet w1 w' /\ link_outcome d v
  | Raise e w' => exists w1, unanswered first e w1 /\ quiet w1 w'
  | OutOfFuel => first = OutOfFuel
  end.
Proof.
  cbv zeta. unfold create_link_standard.
  unfold bind at 1, print at 1, emit at 1.
  change (request "POST" (links_endpoint lab)
            {| kw_json := Some (link_data a b); kw_content := None;
               kw_headers := Some link_headers |})
    with (post_link lab (standard_payload a b)).
  cbn [final print emit].
  set (w0 := Build_World _ _ _ _).
  unfold bind at 1.
  destruct (post_link lab (standard_payload a b) w0) as [resp w1|e w1|] eqn:E;
    [| |reflexivity].
  2:{ exists w1. split; [left; reflexivity | apply quiet_refl]. }
  unfold bind at 1, json.
  destruct (rp_json (rs_reply resp)) as [x|] eqn:J.
  2:{ unfold raise. exists w1. split; [|apply quiet_refl].
      right. exists resp. rewrite J. auto. }
  unfold ret at 1. unfold bind at 1.
  pose proof (quiet_print ("Link creation response: " ++ py_str x) w1) as Q.
  cbn [final print emit] in Q |- *.
  set (w2 := Build_World _ _ _ _) in *.
  unfold bind at 1, py_get, py_get_default.
  destruct x as [| | | | |d];
    try (unfold raise; exists w1; split; [|exact Q];
         right; exists resp; rewrite J; auto).
  unfold ret at 1.
  assert (A : answered (Return resp w1) d w1) by (exists resp; auto).
  destruct (items_get d (PStr "id")) as [id|] eqn:Hid.
  - destruct (truthy id) eqn:T; cbn [negb]; unfold ret; exists d, w1;
      (split; [exact A|]); (split; [exact Q|]);
      apply link_outcome_of_id; rewrite Hid, T; eauto.
  - cbn [truthy negb]. unfold ret. exists d, w1.
    split; [exact A|]. split; [exact Q|].
    apply link_outcome_of_id. rewrite Hid. eauto.
Qed.


Lemma create_link_alternative_attempt w lab a b :
  let w0 := final (print "First format failed, trying alternative format..." w) w in
  let second := post_link lab (alternative_payload a b) w0 in
  match create_link_alternative lab a b w with
  | Return v w' => exists d w1, answered second d w1 /\ quiet w1 w' /\ link_outcome d v
  | Raise e w' => exists w1, unanswered second e w1 /\ quiet w1 w'
  | OutOfFuel => second = OutOfFuel
  end.
Proof.
  cbv zeta. unfold create_link_alternative.
  unfold bind at 1, print at 1, emit at 1.
  change (request "POST" (links_endpoint lab)
            {| kw_json := Some (link_data_alt a b); kw_content := None;
               kw_headers := Some link_headers |})
    with (post_link lab (alternative_payload a b)).
  cbn [final print emit].
  set (w0 := Build_World _ _ _ _).
  unfold bind at 1.
  destruct (post_link lab (alternative_payload a b) w0) as [resp w1|e w1|] eqn:E;
    [| |reflexivity].
  2:{ exists w1. split; [left; reflexivity | apply quiet_refl]. }
  unfold bind at 1, json.
  destruct (rp_json (rs_reply resp)) as [x|] eqn:J.
  2:{ unfold raise. exists w1. split; [|apply quiet_refl].
      right. exists resp. rewrite J. auto. }
  unfold ret at 1. unfold bind at 1.
  pose proof (quiet_print ("Link creation response (alt format): " ++ py_str x) w1)
    as Q.
  cbn [final print emit] in Q |- *.
  set (w2 := Build_World _ _ _ _) in *.
  unfold bind at 1, py_get, py_get_default.
  destruct x as [| | | | |d];
    try (unfold raise; exists w1; split; [|exact Q];
         right; exists resp; rewrite J; auto).
  unfold ret at 1.
  assert (A : answered (Return resp w1) d w1) by (exists resp; auto).
  destruct (items_get d (PStr "id")) as [id|] eqn:Hid.
  - destruct (truthy id) eqn:T; unfold ret; exists d, w1;
      (split; [exact A|]); (split; [exact Q|]);
      apply link_outcome_of_id; rewrite Hid, T; eauto.
  - cbn [truthy]. unfold ret. exists d, w1.
    split; [exact A|]. split; [exact Q|].
    apply link_outcome_of_id. rewrite Hid. eauto.
Qed.

Lemma create_link_v3_footprint w lab a b :
  let r := create_link_v3 lab a b w in
  let evs := since w (final r w) in
  Forall (allowed [standard_call lab a b; alternative_call lab a b]) (wire evs) /\
  match cml_auth w with
  | None =>
      r = Return (PDict [(PStr "error", PStr NOT_INITIALIZED)]) w /\
      request_calls evs = []
  | Some _ =>
      match create_link_standard lab a b w with
      | Return v w1 =>
          r = Return v w1 /\ request_calls evs = [standard_call lab a b]
      | Raise e w1 =>
          request_calls evs = [standard_call lab a b; alternative_call lab a b] /\
          match create_link_alternative lab a b w1 with
          | Return v w2 => r = Return v w2
          | Raise _ _ =>
              exists w3,
                r = Return (PDict [(PStr "error",
                                    PStr ("Error during create_link: "
                                          ++ str_of_exn e))]) w3
          | OutOfFuel => False
          end
      | OutOfFuel => False
      end
  end.
Proof.
  cbv zeta. unfold create_link_v3, bind.
  destruct (cml_auth w) as [self|] eqn:Hself.
  - rewrite (check_auth_some w self Hself). cbn [truthy]. unfold try_except.
    pose proof (create_link_standard_run w self lab a b Hself) as F.
    destruct (create_link_standard lab a b w) as [v w1|e w1|]; [| |contradiction];
      cbn [final stops_with] in F |- *.
    + destruct (footprint_calls _ _ _ F) as (H1 & _ & H2).
      split; [|auto].
      eapply Forall_impl; [|exact H2]. intros rq. apply allowed_mono.
      intros c [<- | []]. left. reflexivity.
    + destruct F as [[self1 Hself1] Hc Ht].
      assert (F : Footprint [standard_call lab a b] w w1) by (split; eauto).
      pose proof (create_link_alternative_run w1 self1 lab a b Hself1) as F'.
      destruct (create_link_alternative lab a b w1) as [v w2|e' w2|];
        [| |contradiction]; cbn [final stops_with] in F' |- *.
      * pose proof (footprint_trans _ _ _ _ _ F F') as F2. cbn [app] in F2.
        destruct (footprint_calls _ _ _ F2) as (H1 & _ & H2). auto.
      * pose proof (footprint_trans _ _ _ _ _ F F') as F2. cbn [app] in F2.
        cbv beta. unfold print, emit.
        set (w3 := Build_World _ _ _ _).
        assert (F3 : Footprint [standard_call lab a b; alternative_call lab a b] w w3).
        { apply (footprint_emit _ w w2 (EvStderr _) I), F2. }
        destruct (handle_api_error_run "create_link" e _ w w3 F3) as (w4 & -> & F4).
        cbn [final].
        destruct (footprint_calls _ _ _ F4) as (H1 & _ & H2). eauto.
  - rewrite (check_auth_none w Hself). cbn [truthy final]. unfold ret.
    unfold since. cbn [final]. rewrite skipn_all. cbn [wire request_calls].
    split; [constructor|]. split; reflexivity.
Qed.

(** C6. [create_link_v3] posts the payload {src_int, dst_int} to the links of
    the lab first.  When that attempt is answered (the gateway returns a
    response whose JSON is an object) nothing more is sent: the result has
    the id of the link, or an error when the answer has no id.  Exactly when
    the first attempt is not answered, {i1, i2} is posted with the same two
    interface ids; when that attempt is not answered either, the result is
    the error dictionary built from the first exception.  There is no third
    call, and every request on the wire is one of these two POSTs, the login
    or its verification.  Without a client nothing is sent at all. *)
Theorem create_link_v3_payloads w lab a b :
  match cml_auth w with
  | None =>
      create_link_v3 lab a b w
      = Return (PDict [(PStr "error", PStr NOT_INITIALIZED)]) w
  | Some _ =>
      exists v w',
        create_link_v3 lab a b w = Return v w' /\
        link_attempts lab a b w v w' /\
        Forall (allowed [standard_call lab a b; alternative_call lab a b])
               (wire (since w w'))
  end.
Proof.
  pose proof (create_link_v3_footprint w lab a b) as F. cbv zeta in F.
  destruct (cml_auth w) as [self|] eqn:Hself; [|exact (proj1 (proj2 F))].
  destruct F as [Hwire F].
  assert (Hrun : create_link_v3 lab a b w =
                 match create_link_standard lab a b w with
                 | Return v w1 => Return v w1
                 | Raise e w1 =>
                     match create_link_alternative lab a b w1 with
                     | Return v w2 => Return v w2
                     | Raise alt_err w2 =>
                         (print ("Alternative format also failed: "
                                 ++ str_of_exn alt_err) ;;
                          _handle_api_error "create_link" e) w2
                     | OutOfFuel => OutOfFuel
                     end
                 | OutOfFuel => OutOfFuel
                 end).
  { unfold create_link_v3, bind at 1. rewrite (check_auth_some w self Hself).
    cbn [truthy]. unfold try_except. reflexivity. }
  pose proof (create_link_standard_attempt w lab a b) as A1. cbv zeta in A1.
  pose proof (quiet_print ("Creating link " ++ between a b) w) as Q0.
  set (w0 := final (print ("Creating link " ++ between a b) w) w) in *.
  destruct (create_link_standard lab a b w) as [v w1|e w1|]; [| |contradiction].
  - destruct F as [Hr Hc]. rewrite Hr in Hwire, Hc. cbn [final] in Hwire, Hc.
    exists v, w1. split; [exact Hrun|]. split; [|exact Hwire].
    destruct A1 as (d & w1' & Ha & Hq & Ho).
    exists w0. split; [exact Q0|]. left. exists d, w1'. auto.
  - destruct F as [Hc F]. destruct A1 as (w1' & Hu & Hq).
    pose proof (create_link_alternative_attempt w1 lab a b) as A2. cbv zeta in A2.
    pose proof (quiet_print "First format failed, trying alternative format..." w1)
      as Q1.
    set (w2 := final (print "First format failed, trying alternative format..." w1)
                 w1) in *.
    assert (Q2 : quiet w1' w2) by (eapply quiet_trans; eauto).
    destruct (create_link_alternative lab a b w1) as [v w3|e' w3|];
      [| |contradiction].
    + rewrite F in Hwire, Hc. cbn [final] in Hwire, Hc.
      exists v, w3. split; [exact Hrun|]. split; [|exact Hwire].
      destruct A2 as (d & w3' & Ha & Hq3 & Ho).
      exists w0. split; [exact Q0|]. right. exists e, w1', w2.
      split; [exact Hu|]. split; [exact Q2|]. split; [exact Hc|].
      left. exists d, w3'. auto.
    + destruct A2 as (w3' & Hu2 & Hq3).
      unfold bind at 1 in Hrun.
      pose proof (quiet_print ("Alternative format also failed: " ++ str_of_exn e') w3)
        as Q3.
      change (print ("Alternative format also failed: " ++ str_of_exn e') w3)
        with (Return tt (final (print ("Alternative format also failed: "
                                       ++ str_of_exn e') w3) w3)) in Hrun.
      set (w4 := final (print _ w3) w3) in *. cbv beta iota in Hrun.
      destruct (handle_api_error_quiet "create_link" e w4) as (w5 & H5 & Q5).
      rewrite H5 in Hrun. rewrite Hrun in Hwire, Hc. cbn [final] in Hwire, Hc.
      do 2 eexists. split; [exact Hrun|]. split; [|exact Hwire].
      exists w0. split; [exact Q0|]. right. exists e, w1', w2.
      split; [exact Hu|]. split; [exact Q2|]. split; [exact Hc|].
      right. exists e', w3'. split; [exact Hu2|]. split; [|reflexivity].
      eapply quiet_trans; [exact Hq3|]. eapply quiet_trans; eauto.
Qed.

(** ** Collections *)

Lemma py_get_id x w :
  py_get x "id" w =
    match id_of x with
    | Some k => Return k w
    | None => Raise (AttributeError "get") w
    end.
Proof.
  unfold py_get, py_get_default, id_of. destruct x; reflexivity.
Qed.

Lemma index_by_id_total xs :
  Forall indexable xs ->
  forall acc w, exists d, index_by_id xs acc w = Return d w.
Proof.
  induction 1 as [|x xs (k & Hid & Hk) _ IH]; intros acc w; cbn [index_by_id].
  - unfold ret. eauto.
  - unfold bind at 1. rewrite py_get_id, Hid. unfold bind at 1.
    destruct (truthy k) eqn:Ht.
    + unfold py_setitem. rewrite (Hk eq_refl). unfold ret. apply IH.
    + unfold ret. apply IH.
Qed.

(** One step of the loop, when it goes through. *)
Lemma index_by_id_step x xs acc w d w' :
  index_by_id (x :: xs) acc w = Return d w' ->
  exists k, id_of x = Some k /\
    index_by_id xs (if truthy k then items_set acc k x else acc) w = Return d w' /\
    (truthy k = true -> hashable k = true).
Proof.
  cbn [index_by_id]. unfold bind at 1. rewrite py_get_id.
  destruct (id_of x) as [k|]; [|discriminate].
  unfold bind at 1. intros H. exists k. split; [reflexivity|].
  destruct (truthy k) eqn:Ht.
  - unfold py_setitem in H. destruct (hashable k); [|discriminate].
    unfold ret in H. auto.
  - unfold ret in H. split; [exact H | discriminate].
Qed.

Lemma index_by_id_stable xs k : forall acc w d w',
  index_by_id xs acc w = Return d w' ->
  (forall y k', In y xs -> id_of y = Some k' -> truthy k' = true ->
                key_eqb k' k = false) ->
  items_get d k = items_get acc k.
Proof.
  induction xs as [|y xs IH]; intros acc w d w' Hrun Hlater.
  - cbn in Hrun. injection Hrun as <- _. reflexivity.
  - destruct (index_by_id_step y xs acc w d w' Hrun) as (ky & Hy & Hrest & _).
    rewrite (IH _ _ _ _ Hrest) by (intros; eapply Hlater; eauto using in_cons).
    destruct (truthy ky) eqn:Ht; [|reflexivity].
    apply items_get_set_other. eapply Hlater; eauto using in_eq.
Qed.

Lemma index_by_id_filed xs : forall acc w d w',
  index_by_id xs acc w = Return d w' -> filed_last xs d.
Proof.
  intros acc w d w' Hrun l1 x l2 k -> Hid Ht Hlater.
  revert acc Hrun. induction l1 as [|z l1 IH]; intros acc Hrun.
  - cbn [app] in Hrun.
    destruct (index_by_id_step x l2 acc w d w' Hrun) as (k' & Hk' & Hrest & Hh).
    rewrite Hid in Hk'. injection Hk' as <-. rewrite Ht in Hrest.
    rewrite (index_by_id_stable l2 k _ _ _ _ Hrest Hlater).
    apply items_get_set_same. auto.
  - cbn [app] in Hrun.
    destruct (index_by_id_step z _ acc w d w' Hrun) as (kz & _ & Hrest & _).
    eapply IH. exact Hrest.
Qed.

Lemma format_node_defs_run items : forall acc w,
  distinct_keys items ->
  Forall (fun entry => isinstance_dict (snd entry) = true) items ->
  (forall k v k0 v0, In (k, v) items -> In (k0, v0) acc -> key_eqb k0 k = false) ->
  format_node_defs items acc w = Return (acc ++ map summarize items)%list w.
Proof.
  induction items as [|[k v] items IH]; intros acc w Hd Hv Hacc; cbn [format_node_defs map].
  - rewrite app_nil_r. reflexivity.
  - destruct Hd as (Hk & Hrest & Hd). inversion Hv as [|? ? Hvd Hv']; subst.
    cbn [snd] in Hvd. destruct v as [| | | | |node_info]; try discriminate.
    unfold py_get_default, bind, py_setitem. rewrite Hk. unfold ret.
    rewrite items_set_fresh by (intros; eapply Hacc; eauto using in_eq).
    rewrite IH; [ | exact Hd | exact Hv' | ].
    + rewrite <- app_assoc. reflexivity.
    + intros k1 v1 k0 v0 Hin Hin0. apply in_app_or in Hin0.
      destruct Hin0 as [Hin0 | [Heq | []]].
      * eapply Hacc; eauto using in_cons.
      * injection Heq as <- _. eapply Hrest; eauto.
Qed.

Ltac query_start Hself Hreq Hjs :=
  unfold bind; rewrite (check_auth_some _ _ Hself); cbn [truthy];
  unfold try_except; rewrite Hreq; unfold json; rewrite Hjs; unfold ret.

(** C5 (amended). When the answer to a collection query (lab nodes, lab
    links, node definitions) decodes to a list of objects whose true ids can
    serve as keys, the query returns a mapping in which every element whose
    id counts as true, and is not repeated by a later element, is found under
    that id.  When the answer already is a mapping, [get_lab_nodes] and
    [get_lab_links] return it as it came, whereas [list_node_definitions]
    keeps its keys and reduces every value to its description, type and
    interfaces. *)
Theorem collections_indexed_by_id w self lab q url pass resp w1 v :
  cml_auth w = Some self ->
  collection_query lab q url pass ->
  request "GET" url no_kwargs w = Return resp w1 ->
  rp_json (rs_reply resp) = Some v ->
  match v with
  | PList xs =>
      Forall indexable xs ->
      exists d w2, q w = Return (PDict d) w2 /\ filed_last xs d
  | PDict items =>
      if pass then q w = Return v w1
      else
        distinct_keys items ->
        Forall (fun entry => isinstance_dict (snd entry) = true) items ->
        q w = Return (PDict (map summarize items)) w1
  | _ => if pass then q w = Return v w1 else True
  end.
Proof.
  intros Hself Hq Hreq Hjs.
  destruct Hq.
  - unfold get_lab_nodes. query_start Hself Hreq Hjs.
    destruct v as [| | | |xs|items]; try reflexivity.
    intros Hxs. unfold print, emit.
    destruct (index_by_id_total xs Hxs []
                (Build_World (cml_auth w1) (remote w1) (clock w1)
                   (trace w1 ++ [EvStderr "Converting nodes list to dictionary"])))
      as [d Hd].
    rewrite Hd. eauto using index_by_id_filed.
  - unfold get_lab_links. query_start Hself Hreq Hjs.
    destruct v as [| | | |xs|items]; try reflexivity.
    intros Hxs. unfold print, emit.
    destruct (index_by_id_total xs Hxs []
                (Build_World (cml_auth w1) (remote w1) (clock w1)
                   (trace w1 ++ [EvStderr "Converting links list to dictionary"])))
      as [d Hd].
    rewrite Hd. eauto using index_by_id_filed.
  - unfold list_node_definitions. query_start Hself Hreq Hjs.
    destruct v as [| | | |xs|items]; try exact I.
    + intros Hxs. unfold print, emit.
      destruct (index_by_id_total xs Hxs []
                  (Build_World (cml_auth w1) (remote w1) (clock w1)
                     (trace w1
                      ++ [EvStderr "Converting node definitions list to dictionary"])))
        as [d Hd].
      rewrite Hd. eauto using index_by_id_filed.
    + intros Hd Hv. unfold py_items, ret.
      rewrite (format_node_defs_run items [] w1 Hd Hv) by (intros ? ? ? ? _ []).
      reflexivity.
Qed.

(** ** The readiness poll *)

Lemma stops_advances {A} calls w (r : Res A) : stops_with calls w r -> advances w r.
Proof.
  destruct r; cbn; [| |auto]; intros [Hs Hc _]; auto.
Qed.

Lemma node_state_advances w self lab node_id :
  cml_auth w = Some self -> advances w (node_state lab node_id w).
Proof.
  intros Hself. unfold node_state, bind.
  pose proof (stops_advances _ _ _
                (request_stops w self "GET" (node_endpoint lab node_id) no_kwargs Hself))
    as F.
  destruct (request _ _ _ w) as [resp w1|e w1|]; cbn [advances] in F |- *;
    [|exact F|exact F].
  unfold json. destruct (rp_json (rs_reply resp)) as [v|]; [|exact F].
  unfold py_get_default.
  destruct v; unfold ret, raise, print, emit; cbn [advances cml_auth clock];
    exact F.
Qed.

Lemma round_states_advances lab items : forall w self,
  cml_auth w = Some self -> advances w (round_states lab items w).
Proof.
  induction items as [|[node_id node] items IH]; intros w self Hself;
    cbn [round_states].
  - unfold ret. cbn. split; [eauto | lia].
  - unfold bind at 1.
    pose proof (node_state_advances w self lab node_id Hself) as F.
    destruct (node_state lab node_id w) as [st w1|e w1|]; cbn [advances] in F |- *;
      [|exact F|exact F].
    destruct F as [[self1 Hself1] Hc]. unfold bind at 1.
    pose proof (IH w1 self1 Hself1) as F1.
    destruct (round_states lab items w1) as [sts w2|e w2|]; cbn [advances] in F1 |- *;
      [| |exact F1]; (split; [tauto|lia]).
Qed.

Lemma one_round_advances w self lab nodes :
  cml_auth w = Some self -> advances w (one_round lab nodes w).
Proof.
  intros Hself. unfold one_round, bind, py_items.
  destruct nodes; try (unfold raise; cbn; split; [eauto|lia]).
  unfold ret. apply (round_states_advances lab d w self Hself).
Qed.

Lemma poll_round_states lab items : forall all_ready w,
  poll_round lab items all_ready w =
    match round_states lab items w with
    | Return states w' => Return (all_ready && all_started states) w'
    | Raise e w' => Raise e w'
    | OutOfFuel => OutOfFuel
    end.
Proof.
  induction items as [|[node_id node] items IH]; intros all_ready w;
    cbn [poll_round round_states].
  - unfold ret. cbn. rewrite andb_true_r. reflexivity.
  - unfold bind.
    destruct (node_state lab node_id w) as [st w1|e w1|]; try reflexivity.
    rewrite IH.
    destruct (round_states lab items w1) as [sts w2|e w2|]; try reflexivity.
    unfold ret. cbn [all_started forallb].
    destruct (eq_str st "STARTED"), all_ready; reflexivity.
Qed.

(** One pass through the body of the [while] loop. *)
Lemma poll_loop_step fuel lab nodes start timeout w :
  within start (clock w) timeout = true ->
  poll_loop (S fuel) lab nodes start timeout false w =
    match one_round lab nodes w with
    | Return states w1 =>
        if all_started states
        then poll_loop fuel lab nodes start timeout true w1
        else poll_loop fuel lab nodes start timeout false (final (sleep 5 w1) w1)
    | Raise e w1 => Raise e w1
    | OutOfFuel => OutOfFuel
    end.
Proof.
  intros Hin. cbn [poll_loop]. unfold bind at 1, loop_time. rewrite Hin.
  cbn [negb andb]. unfold one_round, bind at 1 4.
  destruct (py_items nodes w) as [items w0|e w0|]; try reflexivity.
  unfold bind at 1. rewrite poll_round_states. unfold bind at 1.
  destruct (round_states lab items w0) as [sts w1|e w1|]; try reflexivity.
  cbn [andb]. destruct (all_started sts); reflexivity.
Qed.

Lemma poll_loop_deadline fuel lab nodes start timeout w :
  within start (clock w) timeout = false ->
  poll_loop (S fuel) lab nodes start timeout false w = Return false w.
Proof.
  intros Hout. cbn [poll_loop]. unfold bind, loop_time. rewrite Hout. reflexivity.
Qed.

(** Arithmetic on clock readings, each reading taken as a number. *)
Ltac clocks :=
  cbn [final sleep clock] in *;
  repeat match goal with
  | H : context [@clock ?r ?w] |- _ =>
      let c := fresh "c" in set (c := @clock r w) in *; clearbody c
  | |- context [@clock ?r ?w] =>
      let c := fresh "c" in set (c := @clock r w) in *; clearbody c
  end;
  lia.

Lemma round_states_round lab items : forall w,
  match round_states lab items w with
  | Return states w1 => Round lab (map fst items) w (Checked (all_started states)) w1
  | Raise e w1 => Round lab (map fst items) w (Broke e) w1
  | OutOfFuel => True
  end.
Proof.
  induction items as [|[node_id node] items IH]; intros w;
    cbn [round_states map fst].
  - apply round_over.
  - unfold bind at 1, node_state. unfold bind at 1.
    change (node_endpoint lab node_id)
      with ("/api/v0/labs/" ++ lab ++ "/nodes/" ++ py_str node_id).
    destruct (request "GET" ("/api/v0/labs/" ++ lab ++ "/nodes/" ++ py_str node_id)
                no_kwargs w) as [resp w1|e w1|] eqn:E; [| |exact I].
    2:{ apply round_broke. left. exact E. }
    unfold bind at 1, json.
    destruct (rp_json (rs_reply resp)) as [x|] eqn:J.
    2:{ unfold raise. apply round_broke. right. exists resp. rewrite E, J. auto. }
    unfold ret at 1. unfold bind at 1, py_get_default.
    destruct x as [| | | | |d];
      try (unfold raise; apply round_broke; right; exists resp; rewrite E, J; auto).
    unfold ret at 1. unfold bind at 1, ret at 1.
    unfold bind at 1.
    match goal with
    | |- context [print ?line w1] =>
        pose proof (quiet_print line w1) as Q;
        change (print line w1) with (Return tt (final (print line w1) w1));
        set (w2 := final (print line w1) w1) in *
    end.
    cbv beta iota. unfold ret at 1.
    assert (A : answered (request "GET" ("/api/v0/labs/" ++ lab ++ "/nodes/"
                                         ++ py_str node_id) no_kwargs w) d w1).
    { exists resp. auto. }
    fold (state_reported d).
    unfold bind at 1. specialize (IH w2).
    destruct (round_states lab items w2) as [states w3|e w3|]; [| |exact I].
    + unfold ret. cbn [all_started forallb].
      apply (round_asked lab node_id (map fst items) w d w1 w2
               (Checked (forallb (fun state => eq_str state "STARTED") states)) w3);
        assumption.
    + apply (round_asked lab node_id (map fst items) w d w1 w2 (Broke e) w3);
        assumption.
Qed.

Lemma one_round_checked lab nodes w states w1 :
  one_round lab nodes w = Return states w1 ->
  exists ids, node_ids nodes = Some ids /\
              Round lab ids w (Checked (all_started states)) w1.
Proof.
  unfold one_round, bind, py_items.
  destruct nodes; try (unfold raise; discriminate).
  unfold ret. intros H. eexists. split; [reflexivity|].
  pose proof (round_states_round lab d w) as Hr. rewrite H in Hr. exact Hr.
Qed.

Lemma one_round_broke lab nodes w e w1 :
  one_round lab nodes w = Raise e w1 ->
  (node_ids nodes = None /\ e = AttributeError "items" /\ w1 = w) \/
  (exists ids, node_ids nodes = Some ids /\ Round lab ids w (Broke e) w1).
Proof.
  unfold one_round, bind, py_items.
  destruct nodes;
    try (unfold raise; intros H; injection H as <- <-; left; auto).
  unfold ret. intros H. right. eexists. split; [reflexivity|].
  pose proof (round_states_round lab d w) as Hr. rewrite H in Hr. exact Hr.
Qed.

Lemma poll_loop_total lab nodes start timeout : forall n w self,
  cml_auth w = Some self ->
  (start <= clock w)%N ->
  (timeout * 1000 - Z.of_N (clock w - start) <= 5000 * Z.of_nat n)%Z ->
  exists outcome w',
    Poll lab nodes start timeout w outcome w' /\
    forall fuel, n + 2 <= fuel ->
      poll_loop fuel lab nodes start timeout false w = loop_result outcome w'.
Proof.
  induction n as [|n IH]; intros w self Hself Hstart Hrem.
  - exists TimedOut, w.
    assert (Hout : within start (clock w) timeout = false).
    { unfold within. apply Z.ltb_ge. clocks. }
    split; [apply poll_deadline, Hout|].
    intros [|fuel] Hf; [lia|]. apply poll_loop_deadline, Hout.
  - destruct (within start (clock w) timeout) eqn:Hin.
    2:{ exists TimedOut, w. split; [apply poll_deadline, Hin|].
        intros [|fuel] Hf; [lia|]. apply poll_loop_deadline, Hin. }
    pose proof (one_round_advances w self lab nodes Hself) as F.
    destruct (one_round lab nodes w) as [sts w1|e w1|] eqn:Hround;
      cbn [advances] in F; [| |contradiction].
    + destruct F as [[self1 Hself1] Hc].
      destruct (one_round_checked _ _ _ _ _ Hround) as (ids & Hids & Hr).
      destruct (all_started sts) eqn:Hall.
      * exists AllReady, w1. split; [eapply poll_ready; eauto|].
        intros [|[|fuel]] Hf; try lia.
        rewrite poll_loop_step, Hround, Hall by exact Hin. reflexivity.
      * destruct (IH (final (sleep 5 w1) w1) self1) as (o & w' & Hrun & Hloop).
        -- exact Hself1.
        -- clocks.
        -- unfold within in Hin. apply Z.ltb_lt in Hin. clocks.
        -- exists o, w'. split; [eapply poll_again; eauto|].
           intros [|fuel] Hf; [lia|].
           rewrite poll_loop_step, Hround, Hall by exact Hin.
           apply Hloop. lia.
    + destruct (one_round_broke _ _ _ _ _ Hround)
        as [(Hids & -> & ->) | (ids & Hids & Hr)].
      * exists (Aborted (AttributeError "items")), w.
        split; [apply poll_no_mapping; assumption|].
        intros [|fuel] Hf; [lia|].
        rewrite poll_loop_step, Hround by exact Hin. reflexivity.
      * exists (Aborted e), w1. split; [eapply poll_abort; eauto|].
        intros [|fuel] Hf; [lia|].
        rewrite poll_loop_step, Hround by exact Hin. reflexivity.
Qed.

Lemma index_by_id_pure xs : forall acc w,
  match index_by_id xs acc w with
  | Return _ w' | Raise _ w' => w' = w
  | OutOfFuel => False
  end.
Proof.
  induction xs as [|x xs IH]; intros acc w; cbn [index_by_id].
  - reflexivity.
  - unfold bind at 1. rewrite py_get_id.
    destruct (id_of x) as [k|]; [|reflexivity].
    unfold bind at 1. destruct (truthy k).
    + unfold py_setitem.
      destruct (hashable k); unfold ret, raise; [apply IH | reflexivity].
    + unfold ret. apply IH.
Qed.

Lemma get_lab_nodes_run w self lab :
  cml_auth w = Some self ->
  exists nodes w1,
    get_lab_nodes lab w = Return nodes w1 /\
    Footprint [("GET", "/api/v0/labs/" ++ lab ++ "/nodes", None)] w w1.
Proof.
  intros Hself. unfold get_lab_nodes, bind.
  rewrite (check_auth_some w self Hself). cbn [truthy]. unfold try_except.
  pose proof (request_stops w self "GET" ("/api/v0/labs/" ++ lab ++ "/nodes")
                no_kwargs Hself) as F.
  destruct (request _ _ _ w) as [resp w1|e w1|];
    cbn [stops_with kw_json no_kwargs] in F; [| |contradiction].
  - unfold json. destruct (rp_json (rs_reply resp)) as [v|].
    + unfold ret. destruct v; eauto.
      unfold print, emit. set (w2 := Build_World _ _ _ _).
      assert (F2 : Footprint [("GET", "/api/v0/labs/" ++ lab ++ "/nodes", None)] w w2).
      { apply (footprint_emit _ w w1 (EvStderr _) I), F. }
      pose proof (index_by_id_pure l [] w2) as Hp.
      destruct (index_by_id l [] w2) as [d w3|e w3|]; [| |contradiction];
        subst w3; eauto.
    + unfold raise, ret. eauto.
  - unfold ret. eauto.
Qed.

Lemma within_at_start c timeout :
  within c c timeout = (0 <? timeout)%Z.
Proof.
  unfold within. rewrite N.sub_diag. cbn [Z.of_N].
  destruct (Z.ltb_spec 0 timeout); [apply Z.ltb_lt | apply Z.ltb_ge]; lia.
Qed.

Lemma poll_fuel_enough timeout :
  (timeout * 1000 <= 5000 * Z.of_nat (Z.to_nat (timeout / 5) + 1))%Z.
Proof.
  pose proof (Z.div_mod timeout 5 ltac:(lia)).
  pose proof (Z.mod_pos_bound timeout 5 ltac:(lia)).
  lia.
Qed.

(** The tool up to its loop, when the lab is started and the nodes came. *)
Lemma wait_reaches_poll fuel w lab timeout d w1 nodes w2 :
  get_lab_details lab w = Return d w1 ->
  lab_is_started d = true ->
  get_lab_nodes lab (waiting lab w1) = Return nodes w2 ->
  error_string nodes = false ->
  wait_for_lab_nodes fuel lab timeout w =
    match poll_loop fuel lab nodes (clock w2) timeout false w2 with
    | Return all_ready w3 =>
        Return (PStr (if all_ready then ALL_READY else TIMED_OUT timeout)) w3
    | Raise e w3 =>
        Return (PStr ("Error waiting for nodes: " ++ str_of_exn e))
          (final (print_exc e
                    (final (print ("Error waiting for nodes: " ++ str_of_exn e) w3) w3))
                 w3)
    | OutOfFuel => OutOfFuel
    end.
Proof.
  intros Hd Hs Hn He.
  destruct (started_needs_client w lab d w1 Hd Hs) as [self Hself].
  unfold wait_for_lab_nodes. unfold bind at 1. rewrite (check_auth_some w self Hself).
  cbn [truthy]. unfold try_except. unfold bind at 1. rewrite Hd, Hs. cbn [negb].
  unfold bind at 1. unfold waiting in Hn.
  destruct (print _ w1) as [u w1'| |] eqn:Hp; try discriminate Hp.
  cbn [final] in Hn. unfold bind at 1. rewrite Hn.
  unfold error_string in He. rewrite He.
  unfold bind at 1, loop_time at 1. unfold bind at 1.
  destruct (poll_loop fuel lab nodes (clock w2) timeout false w2) as [b w3|e w3|];
    try reflexivity.
  destruct b; reflexivity.
Qed.

(** C9 (amended). On a started lab whose node collection is empty the poll
    asks for no node and never sleeps: the tool stops in the world in which
    the node collection arrived, after exactly two calls of the gateway.  It
    reports that all nodes are ready when the timeout is positive, and that
    the timeout was reached when the timeout is zero or negative, because
    the loop tests the deadline before it looks at any node. *)
Theorem empty_lab_poll w lab timeout d w1 w2 :
  get_lab_details lab w = Return d w1 ->
  lab_is_started d = true ->
  get_lab_nodes lab (waiting lab w1) = Return (PDict []) w2 ->
  (forall fuel, 2 <= fuel ->
     wait_for_lab_nodes fuel lab timeout w
       = Return (PStr (if (0 <? timeout)%Z then ALL_READY else TIMED_OUT timeout)) w2) /\
  request_calls (since w w2)
    = [("GET", "/api/v0/labs/" ++ lab, None);
       ("GET", "/api/v0/labs/" ++ lab ++ "/nodes", None)] /\
  sleeps (since w w2) = [].
Proof.
  intros Hd Hs Hn. split.
  - intros [|[|fuel]] Hf; try lia.
    rewrite (wait_reaches_poll _ w lab timeout d w1 (PDict []) w2 Hd Hs Hn eq_refl).
    destruct (0 <? timeout)%Z eqn:Ht.
    + rewrite poll_loop_step by (rewrite within_at_start; exact Ht). reflexivity.
    + rewrite poll_loop_deadline by (rewrite within_at_start; exact Ht). reflexivity.
  - destruct (started_needs_client w lab d w1 Hd Hs) as [self Hself].
    destruct (get_lab_details_run w self lab Hself) as (d' & w1' & Hd' & F1).
    rewrite Hd in Hd'. injection Hd' as <- <-.
    pose proof (footprint_emit _ w w1
                  (EvStderr ("Waiting for nodes in lab " ++ lab ++ " to initialize..."))
                  I F1) as F1'.
    destruct (fp_session _ _ _ F1') as [self1 Hself1].
    destruct (get_lab_nodes_run _ self1 lab Hself1) as (n' & w2' & Hn' & F2).
    unfold waiting, print in Hn. rewrite Hn in Hn'. injection Hn' as <- <-.
    pose proof (footprint_trans _ _ _ _ _ F1' F2) as F. cbn [app] in F.
    destruct (footprint_calls _ _ _ F) as (H1 & H2 & _). auto.
Qed.

(** C4. [wait_for_lab_nodes] always returns a status string and never
    raises, from any world and for any timeout (the loop needs no more than
    [poll_fuel timeout] tests).  Once the lab is found started and its nodes
    were fetched, the tool polls: round after round it asks the gateway for
    every node of the collection, in order, and reads the state off each
    answer.  The poll has one of three outcomes and the status says which:
    all ready, when a round begun before the deadline found every node
    asked for in the state STARTED; timed out, when the deadline passed and
    every round before it found a node in another state, each such round
    followed by five seconds of sleep; an error text, when a round broke
    off.  After the poll nothing more is sent. *)
Theorem wait_for_lab_nodes_reports w lab timeout :
  (exists status w',
     forall fuel, poll_fuel timeout <= fuel ->
       wait_for_lab_nodes fuel lab timeout w = Return (PStr status) w') /\
  (forall d w1 nodes w2,
     get_lab_details lab w = Return d w1 ->
     lab_is_started d = true ->
     get_lab_nodes lab (waiting lab w1) = Return nodes w2 ->
     error_string nodes = false ->
     exists outcome w3 w4,
       Poll lab nodes (clock w2) timeout w2 outcome w3 /\
       quiet w3 w4 /\
       forall fuel, poll_fuel timeout <= fuel ->
         wait_for_lab_nodes fuel lab timeout w
           = Return (PStr (status_of timeout outcome)) w4).
Proof.
  assert (Hpoll : forall d w1 nodes w2,
     get_lab_details lab w = Return d w1 ->
     lab_is_started d = true ->
     get_lab_nodes lab (waiting lab w1) = Return nodes w2 ->
     error_string nodes = false ->
     exists outcome w3 w4,
       Poll lab nodes (clock w2) timeout w2 outcome w3 /\
       quiet w3 w4 /\
       forall fuel, poll_fuel timeout <= fuel ->
         wait_for_lab_nodes fuel lab timeout w
           = Return (PStr (status_of timeout outcome)) w4).
  { intros d w1 nodes w2 Hd Hs Hn He.
    destruct (started_needs_client w lab d w1 Hd Hs) as [self Hself].
    destruct (get_lab_details_run w self lab Hself) as (d' & w1' & Hd' & F1).
    rewrite Hd in Hd'. injection Hd' as <- <-.
    pose proof (footprint_emit _ w w1
                  (EvStderr ("Waiting for nodes in lab " ++ lab ++ " to initialize..."))
                  I F1) as F1'.
    destruct (fp_session _ _ _ F1') as [self1 Hself1].
    destruct (get_lab_nodes_run _ self1 lab Hself1) as (n' & w2' & Hn' & F2).
    unfold waiting, print in Hn. rewrite Hn in Hn'. injection Hn' as <- <-.
    destruct (fp_session _ _ _ F2) as [self2 Hself2].
    destruct (poll_loop_total lab nodes (clock w2) timeout
                (Z.to_nat (timeout / 5) + 1) w2 self2 Hself2 (N.le_refl _))
      as (o & w3 & Hrun & Hloop).
    { rewrite N.sub_diag. cbn [Z.of_N]. rewrite Z.sub_0_r. apply poll_fuel_enough. }
    exists o, w3.
    exists (match o with
            | Aborted e =>
                final (print_exc e
                         (final (print ("Error waiting for nodes: " ++ str_of_exn e)
                                   w3) w3)) w3
            | _ => w3
            end).
    split; [exact Hrun|]. split.
    { destruct o; try apply quiet_refl.
      cbn. repeat split. eexists. rewrite <- app_assoc.
      split; [reflexivity|]. repeat constructor. }
    intros fuel Hf.
    rewrite (wait_reaches_poll fuel w lab timeout d w1 nodes w2 Hd Hs) by assumption.
    rewrite Hloop by (unfold poll_fuel in Hf; lia).
    destruct o; cbn [loop_result status_of]; reflexivity. }
  split; [|exact Hpoll].
  destruct (cml_auth w) as [self|] eqn:Hself.
  2:{ exists NOT_INITIALIZED, w. intros fuel _.
      unfold wait_for_lab_nodes, bind. rewrite (check_auth_none w Hself). reflexivity. }
  destruct (get_lab_details_run w self lab Hself) as (d & w1 & Hd & F1).
  destruct (lab_is_started d) eqn:Hs.
  2:{ exists LAB_NOT_STARTED, w1. intros fuel _.
      unfold wait_for_lab_nodes, bind. rewrite (check_auth_some w self Hself).
      cbn [truthy]. unfold try_except. rewrite Hd, Hs. reflexivity. }
  pose proof (footprint_emit _ w w1
                (EvStderr ("Waiting for nodes in lab " ++ lab ++ " to initialize..."))
                I F1) as F1'.
  destruct (fp_session _ _ _ F1') as [self1 Hself1].
  destruct (get_lab_nodes_run _ self1 lab Hself1) as (nodes & w2 & Hn & F2).
  destruct (error_string nodes) eqn:He.
  - destruct nodes as [| | |s| |]; try discriminate He.
    exists s, w2. intros fuel _.
    unfold wait_for_lab_nodes, bind. rewrite (check_auth_some w self Hself).
    cbn [truthy]. unfold try_except. rewrite Hd, Hs. cbn [negb].
    unfold print, emit in Hn |- *. cbn [final] in Hn. rewrite Hn.
    cbn [error_string] in He. rewrite He. reflexivity.
  - destruct (Hpoll d w1 nodes w2 Hd Hs Hn He) as (o & w3 & w4 & _ & _ & H).
    eauto.
Qed.

End ToolFacts.

(** * Properties of the other tools *)

(** ** Conduct *)

Section ConductFacts.

Context {R : Remote}.

#[local] Arguments authenticate : simpl never.
#[local] Arguments transport : simpl never.
#[local] Arguments request : simpl never.

Lemma since_same (w : World) : since w w = [].
Proof. apply since_app. rewrite app_nil_r. reflexivity. Qed.

Lemma conduct_refl P w self : cml_auth w = Some self -> Conduct P w w.
Proof.
  intros H. split; [eauto | lia |].
  exists []. rewrite app_nil_r. repeat split; constructor.
Qed.

Lemma conduct_trans P w w1 w2 :
  Conduct P w w1 -> Conduct P w1 w2 -> Conduct P w w2.
Proof.
  intros [_ Hc1 (e1 & Ht1 & Hr1 & Hw1)] [Hs Hc2 (e2 & Ht2 & Hr2 & Hw2)].
  split; [exact Hs | lia |].
  exists (e1 ++ e2)%list. rewrite Ht2, Ht1, app_assoc. split; [reflexivity|].
  rewrite request_calls_app, wire_app. split; apply Forall_app; auto.
Qed.

Lemma footprint_conduct P calls w w' :
  Forall P calls -> Footprint calls w w' -> Conduct P w w'.
Proof.
  intros HP [Hs Hc (evs & Ht & Hr & _ & Hw)]. split; [exact Hs | exact Hc |].
  exists evs. split; [exact Ht|]. split; [rewrite Hr; exact HP|].
  eapply Forall_impl; [|exact Hw]. unfold allowed, permitted.
  intros rq [H | [H | H]]; auto. right. right.
  rewrite Forall_forall in HP. auto.
Qed.

Lemma conduct_wire w w' :
  Conduct is_get w w' -> Forall reads_or_logs_in (wire (since w w')).
Proof.
  intros [_ _ (evs & Htr & _ & Hw)]. rewrite (since_app w w' evs Htr).
  eapply Forall_impl; [|exact Hw].
  unfold permitted, reads_or_logs_in, is_get. cbn [fst].
  intros rq [H | [[H _] | H]]; auto.
Qed.

Lemma stops_request P w self m ep kw :
  cml_auth w = Some self -> P (m, ep, kw_json kw) ->
  stops P w (request m ep kw w).
Proof.
  intros Hself HP. pose proof (request_stops w self m ep kw Hself) as F.
  destruct (request m ep kw w); cbn [stops_with stops] in *;
    [| |contradiction]; (eapply footprint_conduct; [|exact F]); auto.
Qed.

Lemma stops_pure {A} P w self (m : M A) :
  pure m -> cml_auth w = Some self -> stops P w (m w).
Proof.
  intros Hm Hself. destruct (Hm w) as [[a ->] | [e ->]]; cbn;
    eapply conduct_refl; eauto.
Qed.

Lemma stops_emit P w self ev :
  match ev with EvStderr _ | EvTraceback _ | EvSleep _ => True | _ => False end ->
  cml_auth w = Some self -> stops P w (emit ev w).
Proof.
  intros Hev Hself. cbn. split; cbn [cml_auth clock trace]; [eauto | lia |].
  exists [ev]. split; [reflexivity|].
  destruct ev; try contradiction; cbn; auto.
Qed.

Lemma stops_sleep P w self n :
  cml_auth w = Some self -> stops P w (sleep n w).
Proof.
  intros Hself. cbn. split; cbn [cml_auth clock trace]; [eauto | lia |].
  exists [EvSleep n]. split; [reflexivity|]. cbn. auto.
Qed.

Lemma stops_bind {A B} P w (m : M A) (k : A -> M B) :
  stops P w (m w) ->
  (forall a w1 self1,
     m w = Return a w1 -> cml_auth w1 = Some self1 -> stops P w1 (k a w1)) ->
  stops P w (bind m k w).
Proof.
  intros Hm Hk. unfold bind. destruct (m w) as [a w1|e w1|]; cbn [stops] in *;
    [|exact Hm|contradiction].
  destruct (cd_session _ _ _ Hm) as [self1 H1].
  specialize (Hk a w1 self1 eq_refl H1).
  destruct (k a w1); cbn [stops] in *; try contradiction;
    eapply conduct_trans; eauto.
Qed.

Lemma returns_bind {A B} P w (m : M A) (k : A -> M B) :
  returns P w (m w) ->
  (forall a w1 self1,
     m w = Return a w1 -> cml_auth w1 = Some self1 -> returns P w1 (k a w1)) ->
  returns P w (bind m k w).
Proof.
  intros Hm Hk. unfold bind. destruct (m w) as [a w1|e w1|]; cbn [returns] in *;
    try contradiction.
  destruct (cd_session _ _ _ Hm) as [self1 H1].
  specialize (Hk a w1 self1 eq_refl H1).
  destruct (k a w1); cbn [returns] in *; try contradiction;
    eapply conduct_trans; eauto.
Qed.

Lemma returns_stops {A} P w (r : Res A) : returns P w r -> stops P w r.
Proof. destruct r; cbn; tauto. Qed.

Lemma returns_try {A} P w (body : M A) handler :
  stops P w (body w) ->
  (forall e w1 self1,
     body w = Raise e w1 -> cml_auth w1 = Some self1 ->
     returns P w1 (handler e w1)) ->
  returns P w (try_except body handler w).
Proof.
  intros Hb Hh. unfold try_except. destruct (body w) as [a w1|e w1|];
    cbn [stops returns] in *; [exact Hb| |contradiction].
  destruct (cd_session _ _ _ Hb) as [self1 H1].
  specialize (Hh e w1 self1 eq_refl H1).
  destruct (handler e w1); cbn [returns] in *; try contradiction.
  eapply conduct_trans; eauto.
Qed.

Lemma stops_try {A} P w (body : M A) handler :
  stops P w (body w) ->
  (forall e w1 self1,
     body w = Raise e w1 -> cml_auth w1 = Some self1 ->
     stops P w1 (handler e w1)) ->
  stops P w (try_except body handler w).
Proof.
  intros Hb Hh. unfold try_except. destruct (body w) as [a w1|e w1|];
    cbn [stops] in *; [exact Hb| |contradiction].
  destruct (cd_session _ _ _ Hb) as [self1 H1].
  specialize (Hh e w1 self1 eq_refl H1).
  destruct (handler e w1); cbn [stops] in *; try contradiction;
  eapply conduct_trans; eauto.
Qed.

(** Trails *)

Lemma steps_app a b : steps (a ++ b) = (steps a ++ steps b)%list.
Proof.
  induction a as [|ev a IH]; [reflexivity|].
  destruct ev; cbn; rewrite ?IH; reflexivity.
Qed.

Lemma steps_without_naps evs :
  sleeps evs = [] -> steps evs = map Called (request_calls evs).
Proof.
  induction evs as [|ev evs IH]; [reflexivity|].
  destruct ev; cbn; intros H; try discriminate H; rewrite ?IH; auto.
Qed.

Lemma trail_of_footprint calls w w' :
  Footprint calls w w' -> Trail (map Called calls) w w'.
Proof.
  intros [Hs _ (evs & Ht & Hc & Hn & _)]. split; [exact Hs|].
  exists evs. split; [exact Ht|]. rewrite (steps_without_naps evs Hn), Hc.
  reflexivity.
Qed.

Lemma trail_trans p1 p2 w w1 w2 :
  Trail p1 w w1 -> Trail p2 w1 w2 -> Trail (p1 ++ p2)%list w w2.
Proof.
  intros [_ (e1 & Ht1 & Hp1)] [Hs (e2 & Ht2 & Hp2)].
  split; [exact Hs|]. exists (e1 ++ e2)%list.
  rewrite Ht2, Ht1, app_assoc, steps_app, Hp1, Hp2. auto.
Qed.

Lemma trail_sleep w self n :
  cml_auth w = Some self -> Trail [Slept n] w (final (sleep n w) w).
Proof.
  intros Hself. cbn. split; cbn [cml_auth trace]; [eauto|].
  exists [EvSleep n]. auto.
Qed.

Lemma trail_since p w w' : Trail p w w' -> steps (since w w') = p.
Proof.
  intros [_ (evs & Ht & Hp)]. rewrite (since_app w w' evs Ht). exact Hp.
Qed.

(** Values returned *)

Lemma ensures_bind {A B} (Q : B -> Prop) (m : M A) (k : A -> M B) w :
  (forall a w1, m w = Return a w1 -> ensures Q (k a w1)) ->
  ensures Q (bind m k w).
Proof.
  intros H. unfold bind.
  destruct (m w) as [a w1|e w1|]; [apply (H a w1 eq_refl) | exact I | exact I].
Qed.

Lemma ensures_bind_post {A B} (Q1 : A -> Prop) (Q : B -> Prop) (m : M A)
    (k : A -> M B) w :
  ensures Q1 (m w) -> (forall a w1, Q1 a -> ensures Q (k a w1)) ->
  ensures Q (bind m k w).
Proof.
  intros Hm Hk. unfold bind.
  destruct (m w) as [a w1|e w1|]; [apply Hk, Hm | exact I | exact I].
Qed.

Lemma ensures_try {A} (Q : A -> Prop) (body : M A) handler w :
  ensures Q (body w) -> (forall e w1, ensures Q (handler e w1)) ->
  ensures Q (try_except body handler w).
Proof.
  intros Hb Hh. unfold try_except.
  destruct (body w) as [a w1|e w1|]; [exact Hb | apply Hh | exact I].
Qed.

Lemma truthy_of_negb v : negb (truthy v) = false -> truthy v = true.
Proof. destruct (truthy v); [reflexivity | discriminate]. Qed.

(** Computations that leave the world as it is *)

Lemma pure_ret {A} (a : A) : pure (ret a).
Proof. intros w. left. eexists. reflexivity. Qed.

Lemma pure_raise {A} e : pure (@raise _ A e).
Proof. intros w. right. eexists. reflexivity. Qed.

Lemma pure_bind {A B} (m : M A) (k : A -> M B) :
  pure m -> (forall a, pure (k a)) -> pure (bind m k).
Proof.
  intros Hm Hk w. unfold bind. destruct (Hm w) as [[a ->] | [e ->]]; [apply Hk|].
  right. eauto.
Qed.

Lemma pure_if {A} (b : bool) (m1 m2 : M A) :
  pure m1 -> pure m2 -> pure (if b then m1 else m2).
Proof. destruct b; auto. Qed.

Lemma pure_py_get_default v k d : pure (py_get_default v k d).
Proof. destruct v; cbn; auto using pure_ret, pure_raise. Qed.

Lemma pure_py_get v k : pure (py_get v k).
Proof. apply pure_py_get_default. Qed.

Lemma pure_py_subscript v k : pure (py_subscript v k).
Proof.
  destruct v; cbn; auto using pure_ret, pure_raise.
  destruct (items_get d (PStr k)); auto using pure_ret, pure_raise.
Qed.

Lemma pure_py_items v : pure (py_items v).
Proof. destruct v; cbn; auto using pure_ret, pure_raise. Qed.

Lemma pure_py_setitem d k v : pure (py_setitem d k v).
Proof. unfold py_setitem. destruct (hashable k); auto using pure_ret, pure_raise. Qed.

Lemma pure_json r : pure (json r).
Proof. unfold json. destruct (rp_json (rs_reply r)); auto using pure_ret, pure_raise. Qed.

Lemma pure_py_len v : pure (py_len v).
Proof. destruct v; cbn; auto using pure_ret, pure_raise. Qed.

Lemma pure_py_in k v : pure (py_in k v).
Proof. destruct v; cbn; auto using pure_ret, pure_raise. Qed.

Lemma pure_py_iter v : pure (py_iter v).
Proof. destruct v; cbn; auto using pure_ret, pure_raise. Qed.

Lemma pure_dict_contains d k : pure (dict_contains d k).
Proof. unfold dict_contains. destruct (hashable k); auto using pure_ret, pure_raise. Qed.

Lemma pure_dict_subscript d k : pure (dict_subscript d k).
Proof.
  unfold dict_subscript. destruct (hashable k); auto using pure_ret, pure_raise.
  destruct (items_get d k); auto using pure_ret, pure_raise.
Qed.

End ConductFacts.

Create HintDb pure.

#[export] Hint Resolve pure_ret pure_raise pure_py_get_default pure_py_get
  pure_py_subscript pure_py_items pure_py_setitem pure_json pure_py_len
  pure_py_in pure_py_iter pure_dict_contains pure_dict_subscript : pure.

Ltac purity :=
  repeat first
    [ apply pure_bind; [|intros ?]
    | apply pure_if
    | solve [auto with pure]
    | match goal with
      | |- pure (match ?v with _ => _ end) => destruct v
      end ].

(** Follow a computation through its binds, its handlers and its tests, to
    the requests, the lines and the pure steps it is made of. *)
Ltac walk :=
  cbv beta zeta;
  lazymatch goal with
  | |- stops _ _ (bind _ _ _) =>
      apply stops_bind; [walk | intros ? ? ? _ ?; walk]
  | |- stops _ _ (try_except _ _ _) =>
      apply stops_try; [walk | intros ? ? ? _ ?; walk]
  | |- stops _ _ (request _ _ _ _) =>
      eapply stops_request; [eassumption | solve [auto]]
  | |- stops _ _ (print _ _) => eapply stops_emit; [exact I | eassumption]
  | |- stops _ _ (print_exc _ _) => eapply stops_emit; [exact I | eassumption]
  | |- stops _ _ (sleep _ _) => eapply stops_sleep; eassumption
  | |- stops _ _ ((if ?b then _ else _) _) => destruct b; walk
  | |- stops _ _ (match ?v with _ => _ end _) => destruct v; walk
  | |- stops _ _ _ =>
      first [ eapply stops_pure; [solve [purity] | eassumption]
            | apply returns_stops; solve [eauto]
            | solve [eauto] ]
  | |- returns _ _ (bind _ _ _) =>
      apply returns_bind; [walk | intros ? ? ? _ ?; walk]
  | |- returns _ _ (try_except _ _ _) =>
      apply returns_try; [walk | intros ? ? ? _ ?; walk]
  | |- returns _ _ (ret _ _) => eapply conduct_refl; eassumption
  | |- returns _ _ (print _ _) =>
      eapply (stops_emit _ _ _ (EvStderr _) I); eassumption
  | |- returns _ _ (print_exc _ _) =>
      eapply (stops_emit _ _ _ (EvTraceback _) I); eassumption
  | |- returns _ _ (sleep _ _) => eapply (stops_sleep _ _ _ _); eassumption
  | |- returns _ _ ((if ?b then _ else _) _) => destruct b; walk
  | |- returns _ _ (match ?v with _ => _ end _) => destruct v; walk
  | |- returns _ _ _ => solve [eauto]
  end.

(** Enter a tool whose client is initialised. *)
Ltac enter Hself :=
  unfold bind at 1; rewrite (check_auth_some _ _ Hself); cbn [truthy].

(** Follow a tool to each value it can return. *)
Ltac post :=
  cbv beta zeta;
  lazymatch goal with
  | |- ensures _ (bind _ _ _) => apply ensures_bind; intros ? ? _; post
  | |- ensures _ (try_except _ _ _) => apply ensures_try; [post | intros ? ?; post]
  | |- ensures _ (_handle_api_error _ _ _) => unfold _handle_api_error; post
  | |- ensures _ ((if ?b then _ else _) _) =>
      let E := fresh "E" in destruct b eqn:E; post
  | |- ensures _ (match ?v with _ => _ end _) => destruct v; post
  | |- ensures _ (ret _ _) =>
      cbn [ensures ret]; unfold carries; eexists; (split; [reflexivity|]);
      cbn [items_get key_eqb String.eqb Ascii.eqb Bool.eqb];
      first [ reflexivity
            | eexists; split; [reflexivity|]; solve [auto using truthy_of_negb] ]
  | |- ensures _ (raise _ _) => exact I
  | |- ensures _ _ => solve [eauto]
  end.

(** The test of [_check_auth], with and without a client. *)
Ltac check_client w :=
  unfold bind at 1, _check_auth; destruct (cml_auth w); cbn [truthy];
  [|cbn [ensures ret]; unfold carries; eexists; (split; [reflexivity|]); reflexivity].

(** ** Every tool returns *)

Section Loops.

Context {R : Remote}.

Lemma pure_index_by_id xs : forall acc, pure (index_by_id xs acc).
Proof. induction xs as [|x xs IH]; intros acc; cbn [index_by_id]; purity. Qed.

Lemma pure_format_node_defs items : forall acc, pure (format_node_defs items acc).
Proof.
  induction items as [|[k v] items IH]; intros acc; cbn [format_node_defs]; purity.
Qed.

Lemma pure_format_labs items : forall acc, pure (format_labs items acc).
Proof.
  induction items as [|[k v] items IH]; intros acc; cbn [format_labs]; purity.
Qed.

Lemma pure_topology_nodes items : forall acc, pure (topology_nodes items acc).
Proof.
  induction items as [|[k v] items IH]; intros acc; cbn [topology_nodes]; purity.
Qed.

Lemma pure_topology_links nodes items : forall acc,
  pure (topology_links nodes items acc).
Proof.
  induction items as [|[k v] items IH]; intros acc; cbn [topology_links]; purity.
Qed.

End Loops.

(** The tools that only ask, for any [P] that admits every GET. *)
Section Queries.

Context {R : Remote}.

Variable P : call -> Prop.

Hypothesis P_get : forall ep js, P ("GET", ep, js).

#[local] Arguments authenticate : simpl never.
#[local] Arguments transport : simpl never.
#[local] Arguments request : simpl never.

Lemma handle_api_error_returns op e w self :
  cml_auth w = Some self -> returns P w (_handle_api_error op e w).
Proof. intros Hself. unfold _handle_api_error. walk. Qed.

#[local] Hint Resolve handle_api_error_returns pure_index_by_id
  pure_format_node_defs pure_format_labs pure_topology_nodes
  pure_topology_links : core.

Lemma get_lab_details_returns lab w self :
  cml_auth w = Some self -> returns P w (get_lab_details lab w).
Proof. intros Hself. unfold get_lab_details. enter Hself. walk. Qed.

Lemma list_labs_returns w self :
  cml_auth w = Some self -> returns P w (list_labs w).
Proof. intros Hself. unfold list_labs. enter Hself. walk. Qed.

Lemma list_node_definitions_returns w self :
  cml_auth w = Some self -> returns P w (list_node_definitions w).
Proof. intros Hself. unfold list_node_definitions. enter Hself. walk. Qed.

Lemma get_lab_nodes_returns lab w self :
  cml_auth w = Some self -> returns P w (get_lab_nodes lab w).
Proof. intros Hself. unfold get_lab_nodes. enter Hself. walk. Qed.

Lemma get_lab_links_returns lab w self :
  cml_auth w = Some self -> returns P w (get_lab_links lab w).
Proof. intros Hself. unfold get_lab_links. enter Hself. walk. Qed.

Lemma get_node_interfaces_returns lab node w self :
  cml_auth w = Some self -> returns P w (get_node_interfaces lab node w).
Proof. intros Hself. unfold get_node_interfaces. enter Hself. walk. Qed.

Lemma physical_details_stops lab ids : forall acc w self,
  cml_auth w = Some self -> stops P w (physical_details lab ids acc w).
Proof.
  induction ids as [|i ids IH]; intros acc w self Hself; cbn [physical_details];
    walk.
Qed.

Lemma first_available_stops lab ids : forall w self,
  cml_auth w = Some self -> stops P w (first_available lab ids w).
Proof.
  induction ids as [|i ids IH]; intros w self Hself; cbn [first_available]; walk.
Qed.

#[local] Hint Resolve get_lab_details_returns get_node_interfaces_returns
  get_lab_nodes_returns get_lab_links_returns physical_details_stops
  first_available_stops : core.

Lemma get_physical_interfaces_returns lab node w self :
  cml_auth w = Some self -> returns P w (get_physical_interfaces lab node w).
Proof. intros Hself. unfold get_physical_interfaces. enter Hself. walk. Qed.

Lemma find_available_interface_returns lab node w self :
  cml_auth w = Some self -> returns P w (find_available_interface lab node w).
Proof. intros Hself. unfold find_available_interface. enter Hself. walk. Qed.

Lemma get_node_config_returns lab node w self :
  cml_auth w = Some self -> returns P w (get_node_config lab node w).
Proof. intros Hself. unfold get_node_config. enter Hself. walk. Qed.

Lemma get_lab_topology_returns lab w self :
  cml_auth w = Some self -> returns P w (get_lab_topology lab w).
Proof. intros Hself. unfold get_lab_topology. enter Hself. walk. Qed.

End Queries.

(** The other tools. *)
Section Landings.

Context {R : Remote}.

#[local] Arguments authenticate : simpl never.
#[local] Arguments transport : simpl never.
#[local] Arguments request : simpl never.

Lemma any_get : forall ep js, any_call ("GET", ep, js).
Proof. intros; exact I. Qed.

Lemma any_ok : forall c, any_call c.
Proof. intros; exact I. Qed.

#[local] Hint Resolve any_ok pure_format_labs : core.

Lemma handle_api_error_lands op e w self :
  cml_auth w = Some self -> returns any_call w (_handle_api_error op e w).
Proof. eapply handle_api_error_returns. Qed.

Lemma get_lab_details_lands lab w self :
  cml_auth w = Some self -> returns any_call w (get_lab_details lab w).
Proof. eapply get_lab_details_returns, any_get. Qed.

Lemma find_available_interface_lands lab node w self :
  cml_auth w = Some self ->
  returns any_call w (find_available_interface lab node w).
Proof. eapply find_available_interface_returns, any_get. Qed.

#[local] Hint Resolve handle_api_error_lands get_lab_details_lands
  find_available_interface_lands : core.

Lemma create_lab_lands t d w self :
  cml_auth w = Some self -> returns any_call w (create_lab t d w).
Proof. intros Hself. unfold create_lab. enter Hself. walk. Qed.

Lemma start_lab_lands lab w self :
  cml_auth w = Some self -> returns any_call w (start_lab lab w).
Proof. intros Hself. unfold start_lab. enter Hself. walk. Qed.

Lemma stop_lab_lands lab w self :
  cml_auth w = Some self -> returns any_call w (stop_lab lab w).
Proof. intros Hself. unfold stop_lab. enter Hself. walk. Qed.

#[local] Hint Resolve stop_lab_lands create_lab_lands : core.

Lemma delete_lab_lands lab w self :
  cml_auth w = Some self -> returns any_call w (delete_lab lab w).
Proof. intros Hself. unfold delete_lab. enter Hself. walk. Qed.

Lemma add_node_lands lab label def x y pop ram cpu params w self :
  cml_auth w = Some self ->
  returns any_call w (add_node lab label def x y pop ram cpu params w).
Proof. intros Hself. unfold add_node. enter Hself. walk. Qed.

#[local] Hint Resolve add_node_lands : core.

Lemma create_router_lands lab label x y w self :
  cml_auth w = Some self -> returns any_call w (create_router lab label x y w).
Proof. intros Hself. unfold create_router. enter Hself. walk. Qed.

Lemma create_switch_lands lab label n x y w self :
  cml_auth w = Some self -> returns any_call w (create_switch lab label n x y w).
Proof. intros Hself. unfold create_switch. enter Hself. walk. Qed.

Lemma create_interface_lands lab node slot w self :
  cml_auth w = Some self -> returns any_call w (create_interface lab node slot w).
Proof. intros Hself. unfold create_interface. enter Hself. walk. Qed.

Lemma create_link_v3_lands lab a b w self :
  cml_auth w = Some self -> returns any_call w (create_link_v3 lab a b w).
Proof.
  intros Hself. unfold create_link_v3. enter Hself.
  unfold create_link_standard, create_link_alternative. walk.
Qed.

Lemma create_link_v3_of_lands lab a b w self :
  cml_auth w = Some self -> returns any_call w (create_link_v3_of lab a b w).
Proof.
  intros Hself. unfold create_link_v3_of. enter Hself.
  unfold create_link_standard_of, create_link_alternative_of. walk.
Qed.

#[local] Hint Resolve create_link_v3_of_lands create_router_lands
  create_switch_lands : core.

Lemma link_nodes_lands lab a b w self :
  cml_auth w = Some self -> returns any_call w (link_nodes lab a b w).
Proof. intros Hself. unfold link_nodes. enter Hself. walk. Qed.

Lemma delete_link_lands lab link w self :
  cml_auth w = Some self -> returns any_call w (delete_link lab link w).
Proof. intros Hself. unfold delete_link. enter Hself. walk. Qed.

Lemma configure_node_lands lab node config w self :
  cml_auth w = Some self -> returns any_call w (configure_node lab node config w).
Proof. intros Hself. unfold configure_node. enter Hself. walk. Qed.

#[local] Hint Resolve link_nodes_lands configure_node_lands : core.

Lemma create_simple_network_lands t d w self :
  cml_auth w = Some self -> returns any_call w (create_simple_network t d w).
Proof. intros Hself. unfold create_simple_network. enter Hself. walk. Qed.

Lemma create_ospf_lab_lands t d w self :
  cml_auth w = Some self -> returns any_call w (create_ospf_lab t d w).
Proof. intros Hself. unfold create_ospf_lab. enter Hself. walk. Qed.

Lemma create_stp_lab_lands t d n k w self :
  cml_auth w = Some self -> returns any_call w (create_stp_lab t d n k w).
Proof.
  intros Hself. unfold create_stp_lab. enter Hself.
  unfold add_switch, connect. walk.
Qed.

Lemma tool_lands t w self :
  Tool t -> cml_auth w = Some self -> returns any_call w (t w).
Proof.
  intros [] Hself;
    lazymatch goal with
    | |- returns _ _ (list_labs _) => eapply list_labs_returns
    | |- returns _ _ (create_lab _ _ _) => eapply create_lab_lands
    | |- returns _ _ (get_lab_details _ _) => eapply get_lab_details_returns
    | |- returns _ _ (delete_lab _ _) => eapply delete_lab_lands
    | |- returns _ _ (list_node_definitions _) => eapply list_node_definitions_returns
    | |- returns _ _ (get_lab_nodes _ _) => eapply get_lab_nodes_returns
    | |- returns _ _ (add_node _ _ _ _ _ _ _ _ _ _) => eapply add_node_lands
    | |- returns _ _ (create_router _ _ _ _ _) => eapply create_router_lands
    | |- returns _ _ (create_switch _ _ _ _ _ _) => eapply create_switch_lands
    | |- returns _ _ (get_node_interfaces _ _ _) => eapply get_node_interfaces_returns
    | |- returns _ _ (get_physical_interfaces _ _ _) =>
        eapply get_physical_interfaces_returns
    | |- returns _ _ (create_interface _ _ _ _) => eapply create_interface_lands
    | |- returns _ _ (find_available_interface _ _ _) =>
        eapply find_available_interface_returns
    | |- returns _ _ (create_link_v3 _ _ _ _) => eapply create_link_v3_lands
    | |- returns _ _ (link_nodes _ _ _ _) => eapply link_nodes_lands
    | |- returns _ _ (get_lab_links _ _) => eapply get_lab_links_returns
    | |- returns _ _ (delete_link _ _ _) => eapply delete_link_lands
    | |- returns _ _ (configure_node _ _ _ _) => eapply configure_node_lands
    | |- returns _ _ (get_node_config _ _ _) => eapply get_node_config_returns
    | |- returns _ _ (start_lab _ _) => eapply start_lab_lands
    | |- returns _ _ (stop_lab _ _) => eapply stop_lab_lands
    | |- returns _ _ (get_lab_topology _ _) => eapply get_lab_topology_returns
    | |- returns _ _ (create_simple_network _ _ _) =>
        eapply create_simple_network_lands
    | |- returns _ _ (create_stp_lab _ _ _ _ _) => eapply create_stp_lab_lands
    | |- returns _ _ (create_ospf_lab _ _ _) => eapply create_ospf_lab_lands
    end;
    solve [exact any_get | exact Hself].
Qed.

Lemma tool_refuses t w :
  Tool t -> cml_auth w = None -> exists v, t w = Return v w /\ refusal v.
Proof.
  intros [] Hnone;
    cbv delta [list_labs create_lab get_lab_details delete_lab
               list_node_definitions get_lab_nodes add_node create_router
               create_switch get_node_interfaces get_physical_interfaces
               create_interface find_available_interface create_link_v3
               link_nodes get_lab_links delete_link configure_node
               get_node_config start_lab stop_lab get_lab_topology
               create_simple_network create_stp_lab create_ospf_lab];
    unfold bind at 1; rewrite (check_auth_none w Hnone); cbn [truthy];
    eexists; (split; [reflexivity|]); unfold refusal; auto.
Qed.

Lemma tool_answers t w : Tool t -> exists v w', t w = Return v w'.
Proof.
  intros Ht. destruct (cml_auth w) as [self|] eqn:E.
  - pose proof (tool_lands t w self Ht E) as H.
    destruct (t w); cbn in H; try contradiction. eauto.
  - destruct (tool_refuses t w Ht E) as (v & H & _). eauto.
Qed.

(** X2. A tool called before [initialize_client] answers with the request to
    initialise the client, as a text or under the key error, and does
    nothing else: the world is the one it was called in. *)
Theorem tools_refuse_without_client t w :
  Tool t -> cml_auth w = None ->
  exists v, t w = Return v w /\ refusal v.
Proof. apply tool_refuses. Qed.

(** X3. No tool raises: in every world, whatever the server answers, each
    of them returns a value, and a tool that found a client leaves one
    behind. *)
Theorem tools_always_answer t w :
  Tool t ->
  exists v w',
    t w = Return v w' /\
    (forall self, cml_auth w = Some self -> exists self', cml_auth w' = Some self').
Proof.
  intros Ht. destruct (cml_auth w) as [self|] eqn:E.
  - pose proof (tool_lands t w self Ht E) as H.
    destruct (t w) as [v w'| |]; cbn in H; try contradiction.
    exists v, w'. split; [reflexivity|]. intros _ _. exact (cd_session _ _ _ H).
  - destruct (tool_refuses t w Ht E) as (v & H & _).
    exists v, w. split; [exact H|]. intros self Hs. discriminate Hs.
Qed.

Lemma query_returns t w self :
  Query t -> cml_auth w = Some self -> returns is_get w (t w).
Proof.
  assert (G : forall ep js, is_get ("GET", ep, js)) by reflexivity.
  intros [] Hself;
    lazymatch goal with
    | |- returns _ _ (list_labs _) => eapply list_labs_returns
    | |- returns _ _ (get_lab_details _ _) => eapply get_lab_details_returns
    | |- returns _ _ (list_node_definitions _) => eapply list_node_definitions_returns
    | |- returns _ _ (get_lab_nodes _ _) => eapply get_lab_nodes_returns
    | |- returns _ _ (get_node_interfaces _ _ _) => eapply get_node_interfaces_returns
    | |- returns _ _ (get_physical_interfaces _ _ _) =>
        eapply get_physical_interfaces_returns
    | |- returns _ _ (find_available_interface _ _ _) =>
        eapply find_available_interface_returns
    | |- returns _ _ (get_lab_links _ _) => eapply get_lab_links_returns
    | |- returns _ _ (get_node_config _ _ _) => eapply get_node_config_returns
    | |- returns _ _ (get_lab_topology _ _) => eapply get_lab_topology_returns
    end;
    solve [exact G | exact Hself].
Qed.

Lemma query_tool t : Query t -> Tool t.
Proof.
  intros [|lab| |lab|lab node|lab node|lab node|lab|lab node|lab].
  - exact tool_list_labs.
  - exact (tool_get_lab_details lab).
  - exact tool_list_node_definitions.
  - exact (tool_get_lab_nodes lab).
  - exact (tool_get_node_interfaces lab node).
  - exact (tool_get_physical_interfaces lab node).
  - exact (tool_find_available_interface lab node).
  - exact (tool_get_lab_links lab).
  - exact (tool_get_node_config lab node).
  - exact (tool_get_lab_topology lab).
Qed.

(** X4. The tools that only ask never change anything on the server: all
    they send are GET requests, and the login when the token is missing or
    has expired. *)
Theorem queries_only_read t w v w' :
  Query t -> t w = Return v w' ->
  Forall reads_or_logs_in (wire (since w w')).
Proof.
  intros Ht Hrun. destruct (cml_auth w) as [self|] eqn:E.
  - pose proof (query_returns t w self Ht E) as H. rewrite Hrun in H.
    apply conduct_wire, H.
  - destruct (tool_refuses t w (query_tool t Ht) E) as (v' & H & _).
    rewrite Hrun in H. injection H as _ <-. rewrite since_same. constructor.
Qed.

End Landings.

(** ** The gateway, once more *)

Lemma last_of_one {A} (l : list A) x a : (l ++ [x])%list = [a] -> x = a.
Proof. intros H. apply (app_inj_tail l [] x a) in H. tauto. Qed.

Lemma last_of_two {A} (l : list A) x a b : (l ++ [x])%list = [a; b] -> x = b.
Proof. intros H. apply (app_inj_tail l [a] x b) in H. tauto. Qed.

Lemma no_last {A} (l : list A) x : (l ++ [x])%list <> [].
Proof. destruct l; discriminate. Qed.

Lemma string_app_assoc s1 s2 s3 : (s1 ++ s2) ++ s3 = s1 ++ s2 ++ s3.
Proof. induction s1 as [|c s1 IH]; cbn; [reflexivity | rewrite IH; reflexivity]. Qed.

Lemma string_app_nil s : s ++ EmptyString = s.
Proof. induction s as [|a s IH]; cbn; [reflexivity | rewrite IH; reflexivity]. Qed.

Lemma string_length_app s1 s2 :
  String.length (s1 ++ s2) = String.length s1 + String.length s2.
Proof. induction s1 as [|c s1 IH]; cbn; [reflexivity | rewrite IH; reflexivity]. Qed.


(** [strip] leaves no [c] at either end. *)

Lemma rev_onto_app s : forall acc, rev_onto s acc = string_rev s ++ acc.
Proof.
  unfold string_rev. induction s as [|a s IH]; intros acc; cbn [rev_onto].
  - reflexivity.
  - rewrite (IH (String a acc)), (IH (String a EmptyString)).
    rewrite string_app_assoc. reflexivity.
Qed.

Lemma string_rev_cons a s :
  string_rev (String a s) = string_rev s ++ String a EmptyString.
Proof. unfold string_rev at 1. cbn [rev_onto]. apply rev_onto_app. Qed.

Lemma string_rev_app s t : string_rev (s ++ t) = string_rev t ++ string_rev s.
Proof.
  induction s as [|a s IH]; cbn [append].
  - symmetry. apply string_app_nil.
  - rewrite !string_rev_cons, IH, string_app_assoc. reflexivity.
Qed.

Lemma string_rev_involutive s : string_rev (string_rev s) = s.
Proof.
  induction s as [|a s IH]; [reflexivity|].
  rewrite string_rev_cons, string_rev_app, IH. reflexivity.
Qed.

Lemma lstrip_head c s rest : lstrip c s <> String c rest.
Proof.
  induction s as [|a s IH]; cbn [lstrip]; [discriminate|].
  destruct (Ascii.eqb a c) eqn:E; [exact IH|].
  intros H. injection H as -> _. rewrite Ascii.eqb_refl in E. discriminate.
Qed.

Lemma lstrip_suffix c s : exists p, s = p ++ lstrip c s.
Proof.
  induction s as [|a s [p IH]]; cbn [lstrip]; [exists EmptyString; reflexivity|].
  destruct (Ascii.eqb a c).
  - exists (String a p). cbn. rewrite <- IH. reflexivity.
  - exists EmptyString. reflexivity.
Qed.

Lemma strip_unquoted c s :
  (forall rest, strip c s <> String c rest) /\
  (forall front, strip c s <> front ++ String c EmptyString).
Proof.
  unfold strip. set (u := lstrip c s). set (v := lstrip c (string_rev u)).
  split.
  - intros rest H.
    destruct (lstrip_suffix c (string_rev u)) as [p Hp]. fold v in Hp.
    apply (f_equal string_rev) in Hp.
    rewrite string_rev_involutive, string_rev_app, H in Hp.
    exact (lstrip_head c s _ Hp).
  - intros front H. apply (f_equal string_rev) in H.
    rewrite string_rev_involutive, string_rev_app in H.
    exact (lstrip_head c (string_rev u) _ H).
Qed.

Section GatewayMore.

Context {R : Remote}.

#[local] Arguments authenticate : simpl never.
#[local] Arguments transport : simpl never.

(** The runs of [request], case by case. *)
Ltac prologue_split w self m ep kw Hself :=
  let P := fresh "P" in
  pose proof (prologue_run w self m ep kw Hself) as P;
  inversion P;
  match goal with
  | H : _ = request_prologue m ep kw w |- _ => rewrite <- H in *; clear H
  end;
  clear P.

Ltac attempt_split m ep kw :=
  match goal with
  | |- context [request_attempt m ep kw ?w0] =>
      match eval cbn in (cml_auth w0) with
      | Some ?self0 =>
          let A := fresh "A" in
          pose proof (attempt_run w0 self0 m ep kw eq_refl) as A;
          inversion A;
          match goal with
          | H : _ = request_attempt m ep kw w0 |- _ => rewrite <- H in *; clear H
          end;
          clear A
      end
  end.

Ltac trace_of w :=
  cbn [final] in *;
  repeat match goal with
  | H : context [since w ?w'] |- _ =>
      erewrite (since_app w w') in H by (norm; reflexivity)
  | |- context [since w ?w'] =>
      erewrite (since_app w w') by (norm; reflexivity)
  end;
  unfold login_events, verify_events, announce, complaint in *;
  cbn [app issued logins verifications auth_calls request_calls after_issue
       before_issue sleeps wire fst snd] in *.

Lemma unauthorized_no_success rp :
  rp_status rp = 401%Z -> is_success (rp_status rp) = false.
Proof. intros ->. reflexivity. Qed.

Lemma error_no_success rq rp e :
  exchange_error rq (Replied rp) = Some e -> is_success (rp_status rp) = false.
Proof. cbn. destruct (is_success (rp_status rp)); [discriminate | reflexivity]. Qed.

Lemma request_verdict w self m ep kw :
  cml_auth w = Some self ->
  match request m ep kw w with
  | Return resp w' =>
      is_success (status_code resp) = true /\
      rq_method (rs_request resp) = m /\ rq_endpoint (rs_request resp) = ep /\
      rq_json (rs_request resp) = kw_json kw /\
      rq_content (rs_request resp) = kw_content kw /\
      exists l stored,
        issued (since w w')
          = (l ++ [(stored, rs_request resp, Replied (rs_reply resp))])%list
  | Raise e w' => ~ accepted (since w w')
  | OutOfFuel => False
  end.
Proof.
  intros Hself. rewrite (request_split m ep kw w).
  prologue_split w self m ep kw Hself; try attempt_split m ep kw.
  all: unfold accepted; trace_of w.
  all: try (split; [assumption|]; do 4 (split; [reflexivity|])).
  all: try solve [ eexists [], _; reflexivity | eexists [_], _; reflexivity ].
  all: intros (l0 & stored0 & rq0 & reply0 & Hl & Hok0).
  all: symmetry in Hl.
  all: try (apply no_last in Hl; exact Hl).
  all: try (apply last_of_one in Hl); try (apply last_of_two in Hl).
  all: injection Hl as -> -> Hl; subst.
  all: repeat match goal with
       | H : rp_status ?x = 401%Z |- _ => apply unauthorized_no_success in H
       | H : exchange_error _ (Replied _) = Some _ |- _ => apply error_no_success in H
       end.
  all: congruence.
Qed.

Lemma request_issues w self m ep kw :
  cml_auth w = Some self ->
  issues_only m ep (kw_json kw) (kw_content kw)
    (since w (final (request m ep kw w) w)).
Proof.
  intros Hself. rewrite (request_split m ep kw w). unfold issues_only.
  prologue_split w self m ep kw Hself; try attempt_split m ep kw.
  all: trace_of w.
  all: repeat (apply Forall_cons; [cbn; auto|]); apply Forall_nil.
Qed.

Lemma request_without_client w m ep kw :
  cml_auth w = None -> exists e w', request m ep kw w = Raise e w'.
Proof.
  intros H. unfold request, bind, emit, get_self. cbn [cml_auth]. rewrite H. eauto.
Qed.

(** X5. What [request] returns is an answer with a status in 2xx to the
    request it was asked to make (method, endpoint, payload and body), and
    that exchange is the last one it put on the wire. *)
Theorem request_returns_accepted_reply w m ep kw resp w' :
  request m ep kw w = Return resp w' ->
  is_success (status_code resp) = true /\
  rq_method (rs_request resp) = m /\ rq_endpoint (rs_request resp) = ep /\
  rq_json (rs_request resp) = kw_json kw /\
  rq_content (rs_request resp) = kw_content kw /\
  exists l stored,
    issued (since w w')
      = (l ++ [(stored, rs_request resp, Replied (rs_reply resp))])%list.
Proof.
  intros Hrun. destruct (cml_auth w) as [self|] eqn:E.
  - pose proof (request_verdict w self m ep kw E) as H. rewrite Hrun in H. exact H.
  - destruct (request_without_client w m ep kw E) as (e & w1 & H).
    rewrite Hrun in H. discriminate.
Qed.

Lemma accepted_of_verdict w resp w' :
  (exists l stored,
     issued (since w w')
       = (l ++ [(stored, rs_request resp, Replied (rs_reply resp))])%list) ->
  is_success (status_code resp) = true ->
  accepted (since w w').
Proof.
  intros (l & stored & H) Hok. exists l, stored, (rs_request resp), (rs_reply resp).
  auto.
Qed.

Lemma unquoted_refreshed self body : unquoted (token (refreshed self body)).
Proof. cbn. apply strip_unquoted. Qed.

Lemma unquoted_garbled self body : unquoted (token (garbled self body)).
Proof. cbn. apply strip_unquoted. Qed.

(** X6. The token the session holds never starts or ends with a double
    quote: a new session holds none, and [authenticate] and [request] store
    nothing but the body of a login with its outer quotes stripped, whatever
    the server sends. *)
Theorem stored_token_is_never_quoted :
  (forall base user pass verify self,
     CMLAuth_init base user pass verify = inr self -> unquoted (token self)) /\
  (forall w self,
     cml_auth w = Some self -> unquoted (token self) ->
     unquoted (stored_token (final (authenticate w) w)) /\
     forall m ep kw, unquoted (stored_token (final (request m ep kw w) w))).
Proof.
  split.
  { intros base user pass verify self H.
    destruct (new_session _ _ _ _ _ H) as (_ & _ & _ & -> & _). exact I. }
  intros w self Hself Hinv. split.
  - destruct (authenticate_cases w self Hself)
      as [(e & w' & -> & H) | [(rp & lat & srv & w' & Hs & Hok & _ & -> & H)
                              | (rp & lat & srv & w' & Hs & Hok & _ & -> & H)]];
      cbn [final]; unfold stored_token; rewrite H;
      [exact Hinv | apply unquoted_garbled | apply unquoted_refreshed].
  - intros m ep kw. rewrite (request_split m ep kw w).
    prologue_split w self m ep kw Hself; try attempt_split m ep kw.
    all: cbn [final]; unfold stored_token; cbn [cml_auth].
    all: repeat match goal with x := _ |- _ => subst x end.
    all: try exact Hinv.
    all: match goal with
         | |- unquoted (token (refreshed ?a ?b)) => apply (unquoted_refreshed a b)
         | |- unquoted (token (garbled ?a ?b)) => apply (unquoted_garbled a b)
         end.
Qed.



End GatewayMore.

(** ** Strings and numbers *)

Lemma substring_0_app s1 s2 : substring 0 (String.length s1) (s1 ++ s2) = s1.
Proof.
  induction s1 as [|c s1 IH]; cbn; [destruct s2; reflexivity|].
  rewrite IH. reflexivity.
Qed.

Lemma substring_skip_app s1 s2 n m :
  substring (String.length s1 + n) m (s1 ++ s2) = substring n m s2.
Proof. induction s1 as [|c s1 IH]; cbn; [reflexivity | exact IH]. Qed.

Lemma string_split k : forall s, k <= String.length s ->
  exists s1 s2, s = s1 ++ s2 /\ String.length s1 = k.
Proof.
  induction k as [|k IH]; intros s H.
  - exists EmptyString, s. auto.
  - destruct s as [|c s]; cbn in H; [lia|].
    destruct (IH s) as (s1 & s2 & -> & Hl); [lia|].
    exists (String c s1), s2. cbn. auto.
Qed.

Lemma concat_empty_cons x xs :
  String.concat EmptyString (x :: xs) = x ++ String.concat EmptyString xs.
Proof.
  destruct xs as [|y xs]; cbn [String.concat]; [|reflexivity].
  symmetry. apply string_app_nil.
Qed.

Lemma chunks_of_multiple n : forall s,
  String.length s = 36 * n ->
  let ids := map (fun i => substring i 36 s) (map (fun k => 36 * k) (seq 0 n)) in
  String.concat EmptyString ids = s /\
  Forall (fun id => String.length id = 36) ids /\
  List.length ids = n.
Proof.
  induction n as [|n IH]; intros s Hs.
  - destruct s; [|discriminate]. cbn. auto.
  - destruct (string_split 36 s) as (s1 & s2 & -> & H1); [lia|].
    rewrite string_length_app in Hs.
    destruct (IH s2) as (Hc & Hf & Hl); [lia|].
    cbn [seq map]. rewrite <- seq_shift, !map_map.
    rewrite (map_ext (fun k => substring (36 * S k) 36 (s1 ++ s2))
                     (fun k => substring (36 * k) 36 s2)).
    2:{ intros k. replace (36 * S k) with (String.length s1 + 36 * k) by lia.
        apply substring_skip_app. }
    rewrite map_map in Hc, Hf, Hl.
    assert (Hsub : substring 0 36 (s1 ++ s2) = s1)
      by (rewrite <- H1; apply substring_0_app).
    change (36 * 0) with 0. rewrite Hsub.
    cbv zeta. rewrite concat_empty_cons, Hc. cbn [List.length]. rewrite Hl.
    split; [reflexivity|]. split; [|reflexivity].
    constructor; [exact H1 | exact Hf].
Qed.

Lemma uuid_chunks_correct s :
  String.length s mod 36 = 0 ->
  String.concat EmptyString (uuid_chunks s) = s /\
  Forall (fun id => String.length id = 36) (uuid_chunks s) /\
  List.length (uuid_chunks s) = String.length s / 36.
Proof.
  intros Hm. unfold uuid_chunks, range36.
  pose proof (Nat.div_mod_eq (String.length s) 36) as Hd.
  rewrite Hm, Nat.add_0_r in Hd.
  set (n := String.length s / 36) in *.
  replace ((String.length s + 35) / 36) with n.
  - apply chunks_of_multiple. exact Hd.
  - apply (Nat.div_unique _ 36 n 35); lia.
Qed.

Lemma nodes_endpoint_populated lab :
  nodes_endpoint lab true
  = "/api/v0/labs/" ++ lab ++ "/nodes?populate_interfaces=true".
Proof. unfold nodes_endpoint. rewrite !string_app_assoc. reflexivity. Qed.

Lemma to_int_not_nil z :
  Z.to_int z <> Decimal.Pos Decimal.Nil /\ Z.to_int z <> Decimal.Neg Decimal.Nil.
Proof.
  split; intros H; pose proof (f_equal Z.of_int H) as H';
    rewrite DecimalZ.of_to in H'; cbn in H'; subst z; discriminate H.
Qed.

Lemma str_of_int_inj a b : str_of_int a = str_of_int b -> a = b.
Proof.
  unfold str_of_int. intros H. apply DecimalZ.to_int_inj.
  apply (f_equal NilZero.int_of_string) in H.
  destruct (to_int_not_nil a) as [Ha1 Ha2], (to_int_not_nil b) as [Hb1 Hb2].
  rewrite !NilZero.isi in H by assumption. injection H as H. exact H.
Qed.

(** ** The tools, one by one *)

Section MoreToolFacts.

Context {R : Remote}.

#[local] Arguments authenticate : simpl never.
#[local] Arguments transport : simpl never.
#[local] Arguments request : simpl never.

(** X7. [start_lab], [stop_lab], [delete_link] and [configure_node] make one
    call of the gateway; what it puts on the wire is that one request (for
    [configure_node] with the configuration text as its body), and the tool
    reports success exactly when the last answer to it had a status in 2xx.
    Otherwise it returns the text of the error. *)
Theorem command_reports_the_server_verdict t m ep ct done failed w self :
  Command t m ep ct done failed -> cml_auth w = Some self ->
  exists v w',
    t w = Return (PStr v) w' /\
    request_calls (since w w') = [(m, ep, None)] /\
    issues_only m ep None ct (since w w') /\
    ((accepted (since w w') /\ v = done) \/
     (~ accepted (since w w') /\ v <> done /\
      exists e, v = failed ++ str_of_exn e)).
Proof.
  intros Ht Hself.
  set (kw := {| kw_json := None; kw_content := ct; kw_headers := None |}).
  assert (Hrun : t w = match request m ep kw w with
                       | Return _ w' => Return (PStr done) w'
                       | Raise e w' => Return (PStr (failed ++ str_of_exn e)) w'
                       | OutOfFuel => OutOfFuel
                       end).
  { subst kw. destruct Ht;
      cbv delta [start_lab stop_lab delete_link configure_node]; cbv beta;
      unfold bind at 1; rewrite (check_auth_some w self Hself); cbn [truthy];
      unfold try_except, bind, no_kwargs;
      match goal with |- context [request ?a ?b ?c w] =>
        destruct (request a b c w) end; reflexivity. }
  assert (Hne : forall x, failed ++ x <> done).
  { destruct Ht; intros x; cbn; discriminate. }
  pose proof (request_verdict w self m ep kw Hself) as V.
  pose proof (request_issues w self m ep kw Hself) as I.
  pose proof (request_stops w self m ep kw Hself) as F.
  rewrite Hrun.
  destruct (request m ep kw w) as [resp w1|e w1|]; cbn [final stops_with] in *;
    [| |contradiction].
  - destruct V as (Hok & _ & _ & _ & _ & Hlast).
    destruct F as [_ _ (evs & Htr & Hc & _)].
    do 2 eexists. split; [reflexivity|].
    split; [rewrite (since_app w w1 evs Htr); exact Hc|].
    split; [exact I|]. left. split; [|reflexivity].
    eapply accepted_of_verdict; eauto.
  - destruct F as [_ _ (evs & Htr & Hc & _)].
    do 2 eexists. split; [reflexivity|].
    split; [rewrite (since_app w w1 evs Htr); exact Hc|].
    split; [exact I|]. right. split; [exact V|]. split; [apply Hne | eauto].
Qed.

Lemma stop_lab_run w self lab :
  cml_auth w = Some self ->
  exists v w1, stop_lab lab w = Return v w1 /\
    Footprint [("PUT", "/api/v0/labs/" ++ lab ++ "/stop", None)] w w1.
Proof.
  intros Hself. unfold stop_lab. unfold bind at 1.
  rewrite (check_auth_some w self Hself). cbn [truthy]. unfold try_except, bind.
  pose proof (request_stops w self "PUT" ("/api/v0/labs/" ++ lab ++ "/stop")
                no_kwargs Hself) as F.
  destruct (request _ _ _ w); cbn [stops_with] in F; [| |contradiction];
    unfold ret; eauto.
Qed.

(** X8. [delete_lab] asks for the lab first.  When the lab reports the state
    STARTED it calls [stop_lab], then waits two seconds, then sends the
    DELETE, whatever became of the stop; otherwise the DELETE follows at
    once, with no stop and no wait.  The calls of the gateway and the wait
    are given in the order in which they happen. *)
Theorem delete_lab_stops_a_running_lab_first w self lab d w1 :
  cml_auth w = Some self ->
  get_lab_details lab w = Return d w1 ->
  exists v w',
    delete_lab lab w = Return (PStr v) w' /\
    let details := Called ("GET", "/api/v0/labs/" ++ lab, None) in
    let stop := Called ("PUT", "/api/v0/labs/" ++ lab ++ "/stop", None) in
    let delete := Called ("DELETE", "/api/v0/labs/" ++ lab, None) in
    steps (since w w')
    = if lab_is_started d
      then [details; stop; Slept 2; delete]
      else [details; delete].
Proof.
  intros Hself Hd.
  destruct (get_lab_details_run w self lab Hself) as (d' & w1' & Hd' & F1).
  rewrite Hd in Hd'. injection Hd' as <- <-.
  apply trail_of_footprint in F1.
  unfold delete_lab. unfold bind at 1. rewrite (check_auth_some w self Hself).
  cbn [truthy]. unfold try_except. unfold bind at 1. rewrite Hd.
  destruct (tr_session _ _ _ F1) as [self1 Hself1].
  destruct (lab_is_started d).
  - unfold bind.
    destruct (stop_lab_run w1 self1 lab Hself1) as (v2 & w2 & -> & F2).
    apply trail_of_footprint in F2.
    destruct (tr_session _ _ _ F2) as [self2 Hself2].
    pose proof (trail_sleep w2 self2 2 Hself2) as F3.
    change (sleep 2 w2) with (Return tt (final (sleep 2 w2) w2)).
    set (w3 := final (sleep 2 w2) w2) in *.
    destruct (tr_session _ _ _ F3) as [self3 Hself3].
    pose proof (request_stops w3 self3 "DELETE" ("/api/v0/labs/" ++ lab) no_kwargs
                  Hself3) as F4.
    pose proof (trail_trans _ _ _ _ _ (trail_trans _ _ _ _ _ F1 F2) F3) as F.
    destruct (request _ _ _ w3) as [resp w4|e w4|]; cbn [stops_with] in F4;
      [| |contradiction]; apply trail_of_footprint in F4;
      apply (trail_trans _ _ _ _ _ F), trail_since in F4;
      unfold ret; do 2 eexists; (split; [reflexivity|]); exact F4.
  - unfold bind. unfold ret at 1.
    pose proof (request_stops w1 self1 "DELETE" ("/api/v0/labs/" ++ lab) no_kwargs
                  Hself1) as F4.
    destruct (request _ _ _ w1) as [resp w4|e w4|]; cbn [stops_with] in F4;
      [| |contradiction]; apply trail_of_footprint in F4;
      apply (trail_trans _ _ _ _ _ F1), trail_since in F4;
      unfold ret; do 2 eexists; (split; [reflexivity|]); exact F4.
Qed.

(** X9. Asked to list the labs, a server that answers with a JSON list gets
    the labs listed only if the list is empty: [list_labs] reads the answer
    as a mapping, so an empty list is reported as no labs, and any other
    list as the error of a list that has no items(). *)
Theorem list_labs_needs_a_mapping w self resp w1 xs :
  cml_auth w = Some self ->
  request "GET" "/api/v0/labs" no_kwargs (listing w) = Return resp w1 ->
  rp_json (rs_reply resp) = Some (PList xs) ->
  exists w',
    list_labs w
    = Return (PStr match xs with
                   | [] => NO_LABS
                   | _ :: _ =>
                       "Error listing labs: " ++ str_of_exn (AttributeError "items")
                   end) w'.
Proof.
  intros Hself Hreq Hjs. unfold list_labs. unfold bind at 1.
  rewrite (check_auth_some w self Hself). cbn [truthy].
  unfold try_except, bind at 1.
  change (print "Attempting to list labs..." w) with (Return tt (listing w)).
  unfold bind at 1. rewrite Hreq. unfold bind at 1, json. rewrite Hjs.
  unfold ret at 1. unfold bind, py_len, ret, print, emit, py_items, raise.
  destruct xs; cbn [truthy negb]; eauto.
Qed.

Lemma create_lab_carries t d w : ensures (carries "lab_id") (create_lab t d w).
Proof. unfold create_lab. check_client w. post. Qed.

Lemma add_node_carries lab label def x y pop ram cpu params w :
  ensures (carries "node_id") (add_node lab label def x y pop ram cpu params w).
Proof. unfold add_node. check_client w. post. Qed.

Lemma create_router_carries lab label x y w :
  ensures (carries "node_id") (create_router lab label x y w).
Proof. unfold create_router. check_client w. apply add_node_carries. Qed.

Lemma create_switch_carries lab label n x y w :
  ensures (carries "node_id") (create_switch lab label n x y w).
Proof.
  unfold create_switch. check_client w. pose proof add_node_carries. post.
Qed.

Lemma create_link_v3_carries lab a b w :
  ensures (carries "link_id") (create_link_v3 lab a b w).
Proof.
  unfold create_link_v3. check_client w.
  unfold create_link_standard, create_link_alternative. post.
Qed.

Lemma creation_tool t key : Creation t key -> Tool t.
Proof.
  intros [title description|lab label definition x y populate ram cpu parameters
         |lab label x y|lab label n x y|lab a b].
  - exact (tool_create_lab title description).
  - exact (tool_add_node lab label definition x y populate ram cpu parameters).
  - exact (tool_create_router lab label x y).
  - exact (tool_create_switch lab label n x y).
  - exact (tool_create_link_v3 lab a b).
Qed.

(** X10. What a tool that creates a lab, a node or a link returns is a
    dictionary that tells the two outcomes apart: it has the key error and
    no id, or it has no key error and the id (lab_id, node_id, link_id) with
    a value that counts as true. *)
Theorem creations_return_an_id_or_an_error t key w :
  Creation t key -> exists v w', t w = Return v w' /\ carries key v.
Proof.
  intros Ht.
  assert (Hc : ensures (carries key) (t w)).
  { destruct Ht; auto using create_lab_carries, add_node_carries,
      create_router_carries, create_switch_carries, create_link_v3_carries. }
  destruct (tool_answers t w (creation_tool t key Ht)) as (v & w' & Hr).
  rewrite Hr in Hc. eauto.
Qed.

Lemma add_node_run w self lab label def x y pop ram cpu params :
  cml_auth w = Some self ->
  exists v w',
    add_node lab label def x y pop ram cpu params w = Return v w' /\
    Footprint [("POST", nodes_endpoint lab pop,
                Some (PDict (node_data label def x y ram cpu params)))] w w'.
Proof.
  intros Hself. unfold add_node. unfold bind at 1.
  rewrite (check_auth_some w self Hself). cbn [truthy]. cbv zeta.
  unfold try_except.
  match goal with |- context [request ?m ?ep ?kw] =>
    pose proof (request_stops w self m ep kw Hself) as F end.
  cbn [kw_json] in F. unfold bind at 1.
  destruct (request _ _ _ w) as [resp w1|e w1|]; cbn [stops_with] in F;
    [| |contradiction].
  - unfold bind at 1.
    destruct (json_pure resp w1) as [[r ->] | [e ->]].
    + unfold bind at 1.
      destruct (py_get_pure r "id" w1) as [[i ->] | [e ->]].
      * destruct (truthy i); cbn [negb]; unfold ret; eauto.
      * destruct (handle_api_error_run "add_node" e _ w w1 F) as (w2 & -> & F2).
        eauto.
    + destruct (handle_api_error_run "add_node" e _ w w1 F) as (w2 & -> & F2).
      eauto.
  - destruct (handle_api_error_run "add_node" e _ w w1 F) as (w2 & -> & F2).
    eauto.
Qed.

(** X11. [create_router] and [create_switch] make one call of the gateway
    each: a POST to the nodes of the lab, with populate_interfaces=true, for
    a node with the definition iosv, respectively iosvl2.  The payload has no
    ram and no cpu_limit; the parameters are empty for a router, and for a
    switch slot1 holds the number of interfaces written as text. *)
Theorem routers_and_switches_are_nodes w self lab label x y :
  cml_auth w = Some self ->
  (exists v w',
     create_router lab label x y w = Return v w' /\
     request_calls (since w w') = [new_node_call lab label "iosv" x y []]) /\
  (forall num_interfaces, exists v w',
     create_switch lab label num_interfaces x y w = Return v w' /\
     request_calls (since w w')
     = [new_node_call lab label "iosvl2" x y
          [(PStr "slot1", PStr (str_of_int num_interfaces))]]).
Proof.
  intros Hself. split; [|intros n].
  - unfold create_router. unfold bind at 1.
    rewrite (check_auth_some w self Hself). cbn [truthy].
    destruct (add_node_run w self lab label "iosv" x y true None None None Hself)
      as (v & w' & -> & F).
    exists v, w'. split; [reflexivity|].
    apply footprint_calls in F.
    rewrite nodes_endpoint_populated in F. exact (proj1 F).
  - unfold create_switch. unfold bind at 1.
    rewrite (check_auth_some w self Hself). cbn [truthy]. unfold try_except.
    destruct (add_node_run w self lab label "iosvl2" x y true None None
                (Some [(PStr "slot1", PStr (str_of_int n))]) Hself)
      as (v & w' & -> & F).
    exists v, w'. split; [reflexivity|].
    apply footprint_calls in F.
    rewrite nodes_endpoint_populated in F. exact (proj1 F).
Qed.

(** X12. When the server answers the listing of a node's interfaces with one
    string whose length is a multiple of 36, [get_node_interfaces] returns
    it cut into identifiers of 36 characters: together they make up the
    string again, and an empty string gives the empty list.  A string of any
    other length is returned as it came. *)
Theorem get_node_interfaces_cuts_uuids w self lab node resp w1 s :
  cml_auth w = Some self ->
  request "GET" ("/api/v0/labs/" ++ lab ++ "/nodes/" ++ node ++ "/interfaces")
    no_kwargs w = Return resp w1 ->
  rp_json (rs_reply resp) = Some (PStr s) ->
  exists v w',
    get_node_interfaces lab node w = Return v w' /\
    if (String.length s mod 36 =? 0)%nat
    then exists ids,
           v = PList (map PStr ids) /\
           String.concat EmptyString ids = s /\
           Forall (fun id => String.length id = 36) ids /\
           List.length ids = String.length s / 36
    else v = PStr s.
Proof.
  intros Hself Hreq Hjs. unfold get_node_interfaces. unfold bind at 1.
  rewrite (check_auth_some w self Hself). cbn [truthy].
  unfold try_except, bind at 1. rewrite Hreq.
  unfold bind at 1, json. rewrite Hjs. unfold ret at 1.
  unfold bind, print, emit.
  destruct (String.length s mod 36 =? 0)%nat eqn:E; unfold ret.
  - do 2 eexists. split; [reflexivity|]. exists (uuid_chunks s).
    split; [reflexivity|]. apply uuid_chunks_correct, Nat.eqb_eq, E.
  - do 2 eexists. split; reflexivity.
Qed.

Lemma physical_details_keeps lab ids : forall acc w,
  Forall physical acc ->
  ensures (Forall physical) (physical_details lab ids acc w).
Proof.
  induction ids as [|i ids IH]; intros acc w Hacc; cbn [physical_details].
  - exact Hacc.
  - apply ensures_bind. intros resp w1 _.
    apply ensures_bind. intros data w2 _.
    apply ensures_bind. intros ty w3 Hty.
    destruct data as [| | | | |items]; try discriminate Hty.
    cbn in Hty. injection Hty as <- _. cbv zeta.
    apply ensures_bind. intros has_type w4 Hin. cbn in Hin. injection Hin as <- _.
    apply ensures_bind. intros is_physical w5 Hp.
    apply IH. destruct is_physical; [|exact Hacc].
    apply Forall_app. split; [exact Hacc|]. constructor; [|constructor].
    exists items. split; [reflexivity|].
    destruct (items_get items (PStr "type")) as [ty|]; cbn [negb] in Hp.
    + cbn in Hp. injection Hp as Hp _. exact Hp.
    + unfold bind, py_in, ret in Hp.
      destruct (items_get items (PStr "slot")); [discriminate|].
      cbn in Hp. discriminate Hp.
Qed.

Lemma physical_scan lab node ids w :
  ensures physical_answer
    ((physical_interfaces <- physical_details lab ids [] ;;
      if negb (truthy (PList physical_interfaces)) then
        ret (PStr ("No physical interfaces found for node " ++ node))
      else ret (PList physical_interfaces)) w).
Proof.
  eapply ensures_bind_post; [apply physical_details_keeps; constructor|].
  cbv beta. intros l w1 Hl. destruct l; cbn; [exact I|].
  split; [discriminate | exact Hl].
Qed.

Lemma get_physical_interfaces_answers lab node w :
  ensures physical_answer (get_physical_interfaces lab node w).
Proof.
  unfold get_physical_interfaces.
  unfold bind at 1, _check_auth. destruct (cml_auth w); cbn [truthy];
    [|exact I].
  apply ensures_try; [|intros e w1; reflexivity].
  apply ensures_bind. intros r w1 _. cbv zeta.
  destruct (is_error_text r) eqn:E.
  - destruct r; try discriminate E. exact I.
  - destruct r; try exact I; try apply physical_scan.
    destruct (String.length s mod 36 =? 0)%nat; [apply physical_scan | exact I].
Qed.

(** X13. What [get_physical_interfaces] returns is a text, a dictionary with
    an error, or a list that is not empty and holds nothing but objects
    that are physical interfaces: their type is physical or, when they have
    no type, they have a slot. *)
Theorem get_physical_interfaces_returns_physical_ones lab node w :
  exists v w',
    get_physical_interfaces lab node w = Return v w' /\ physical_answer v.
Proof.
  pose proof (get_physical_interfaces_answers lab node w) as H.
  destruct (tool_answers _ w (tool_get_physical_interfaces lab node))
    as (v & w' & Hr).
  rewrite Hr in H. eauto.
Qed.

Lemma first_available_run lab ids : forall w self,
  cml_auth w = Some self ->
  match first_available lab ids w with
  | Return (Some v) w' =>
      exists before after,
        ids = (before ++ v :: after)%list /\
        Footprint (map (detail_call lab) (before ++ [v])) w w'
  | Return None w' => Footprint (map (detail_call lab) ids) w w'
  | Raise e w' =>
      exists before x after,
        ids = (before ++ x :: after)%list /\
        Footprint (map (detail_call lab) (before ++ [x])) w w'
  | OutOfFuel => False
  end.
Proof.
  induction ids as [|x ids IH]; intros w self Hself; cbn [first_available].
  - unfold ret. cbn [map]. eapply footprint_refl; eauto.
  - pose proof (request_stops w self "GET" (available_endpoint lab x) no_kwargs Hself)
      as F. cbn [kw_json no_kwargs] in F.
    fold (detail_call lab x) in F.
    assert (Hraise : forall w1, Footprint [detail_call lab x] w w1 ->
              exists before x0 after,
                x :: ids = (before ++ x0 :: after)%list /\
                Footprint (map (detail_call lab) (before ++ [x0])) w w1).
    { intros w1 F1. exists [], x, ids. auto. }
    unfold bind at 1.
    destruct (request _ _ _ w) as [resp w1|e w1|]; cbn [stops_with] in F;
      [|eauto|contradiction].
    unfold bind at 1. destruct (json_pure resp w1) as [[data ->] | [e ->]]; [|eauto].
    unfold bind at 1. destruct (py_get_pure data "type" w1) as [[ty ->] | [e ->]];
      [|eauto].
    unfold bind at 1.
    assert (Hav : (exists b,
              (if eq_str ty "physical"
               then is_connected <- py_get data "is_connected" ;;
                    ret (key_eqb is_connected (PBool false))
               else ret false) w1 = Return b w1) \/
            (exists e,
              (if eq_str ty "physical"
               then is_connected <- py_get data "is_connected" ;;
                    ret (key_eqb is_connected (PBool false))
               else ret false) w1 = Raise e w1)).
    { destruct (eq_str ty "physical"); [|left; eexists; reflexivity].
      unfold bind. destruct (py_get_pure data "is_connected" w1) as [[c ->] | [e ->]];
        [left|right]; eexists; reflexivity. }
    destruct Hav as [[b ->] | [e ->]]; [|eauto].
    destruct b.
    + unfold ret. exists [], ids. auto.
    + destruct (fp_session _ _ _ F) as [self1 Hself1].
      specialize (IH w1 self1 Hself1).
      destruct (first_available lab ids w1) as [[v|] w2|e w2|]; [| | |contradiction].
      * destruct IH as (before & after & -> & F2).
        exists (x :: before), after. split; [reflexivity|].
        exact (footprint_trans _ _ _ _ _ F F2).
      * exact (footprint_trans _ _ _ _ _ F IH).
      * destruct IH as (before & x0 & after & -> & F2).
        exists (x :: before), x0, after. split; [reflexivity|].
        exact (footprint_trans _ _ _ _ _ F F2).
Qed.

Lemma first_available_scan lab ids : forall w,
  match first_available lab ids w with
  | Return (Some v) w' => Scan lab ids w (Free v) w'
  | Return None w' => Scan lab ids w NoFree w'
  | Raise e w' => Scan lab ids w (Stopped e) w'
  | OutOfFuel => True
  end.
Proof.
  induction ids as [|x ids IH]; intros w; cbn [first_available].
  - apply scan_over.
  - unfold bind at 1.
    change (available_endpoint lab x)
      with ("/api/v0/labs/" ++ lab ++ "/interfaces/" ++ py_str x
            ++ "?operational=true").
    destruct (request "GET" ("/api/v0/labs/" ++ lab ++ "/interfaces/" ++ py_str x
                             ++ "?operational=true") no_kwargs w)
      as [resp w1|e w1|] eqn:E; [| |exact I].
    2:{ apply scan_stopped. left. exact E. }
    unfold bind at 1, json.
    destruct (rp_json (rs_reply resp)) as [data|] eqn:J.
    2:{ unfold raise. apply scan_stopped. right. exists resp. rewrite E, J. auto. }
    unfold ret at 1. unfold bind at 1, py_get at 1, py_get_default.
    destruct data as [| | | | |d];
      try (unfold raise; apply scan_stopped; right; exists resp;
           rewrite E, J; auto).
    unfold ret at 1.
    assert (A : answered (request "GET" ("/api/v0/labs/" ++ lab ++ "/interfaces/"
                                         ++ py_str x ++ "?operational=true")
                            no_kwargs w) d w1).
    { exists resp. auto. }
    assert (Hav : (if eq_str match items_get d (PStr "type") with
                              | Some v => v
                              | None => PNone
                              end "physical"
                   then is_connected <- py_get (PDict d) "is_connected" ;;
                        ret (key_eqb is_connected (PBool false))
                   else ret false) w1
                  = Return (free_physical d) w1).
    { unfold free_physical, py_get, py_get_default, bind, ret.
      destruct (items_get d (PStr "type")) as [ty|]; cbn [eq_str];
        [|destruct (items_get d (PStr "is_connected")); reflexivity].
      destruct (eq_str ty "physical");
        destruct (items_get d (PStr "is_connected")) as [c|]; cbn [andb];
        try reflexivity.
      destruct c as [|[|]|z| | |]; reflexivity. }
    unfold bind at 1. rewrite Hav.
    destruct (free_physical d) eqn:Hfree.
    + unfold ret. eapply scan_free; eauto.
    + specialize (IH w1).
      destruct (first_available lab ids w1) as [[v|] w2|e w2|]; [| | |exact I];
        eapply scan_taken; eauto.
Qed.

(** X14. Given the list of a node's interfaces, [find_available_interface]
    asks for the details of the interfaces one by one, in the order of the
    list, and stops at the first one whose details say that it is physical
    and not connected, which it returns; the interfaces after it are never
    asked for.  When the details of every interface say otherwise all of
    them were asked for and the result is an error; when an interface is
    not answered the search ends there, with that error as the result. *)
Theorem find_available_interface_scans_in_order w self lab node resp w1 ids :
  cml_auth w = Some self ->
  request "GET" ("/api/v0/labs/" ++ lab ++ "/nodes/" ++ node
                 ++ "/interfaces?operational=true") no_kwargs w = Return resp w1 ->
  rp_json (rs_reply resp) = Some (PList ids) ->
  exists result w2 w',
    Scan lab ids w1 result w2 /\
    quiet w2 w' /\
    find_available_interface lab node w
    = Return match result with
             | Free interface_id => interface_id
             | NoFree => none_available ids node
             | Stopped e =>
                 PDict [(PStr "error",
                         PStr ("Error during find_available_interface: "
                               ++ str_of_exn e))]
             end w'.
Proof.
  intros Hself Hreq Hjs.
  unfold find_available_interface. unfold bind at 1.
  rewrite (check_auth_some w self Hself). cbn [truthy].
  unfold try_except, bind at 1. rewrite Hreq. unfold bind at 1, json.
  rewrite Hjs. unfold ret at 1. cbv zeta.
  destruct ids as [|x ids].
  - cbn [truthy negb]. unfold ret. exists NoFree, w1, w1.
    split; [apply scan_over|]. split; [apply quiet_refl | reflexivity].
  - cbn [truthy negb]. unfold bind at 1, py_iter, ret at 1.
    pose proof (first_available_scan lab (x :: ids) w1) as S.
    unfold bind.
    destruct (first_available lab (x :: ids) w1) as [[v|] w2|e w2|] eqn:E.
    + exists (Free v), w2, w2. split; [exact S|].
      split; [apply quiet_refl | reflexivity].
    + exists NoFree, w2, w2. split; [exact S|].
      split; [apply quiet_refl | reflexivity].
    + destruct (handle_api_error_quiet "find_available_interface" e w2)
        as (w3 & -> & Q).
      exists (Stopped e), w2, w3. auto.
    + exfalso.
      assert (Hs : exists self1, cml_auth w1 = Some self1).
      { pose proof (request_stops w self "GET"
                      ("/api/v0/labs/" ++ lab ++ "/nodes/" ++ node
                       ++ "/interfaces?operational=true") no_kwargs Hself) as F.
        rewrite Hreq in F. exact (fp_session _ _ _ F). }
      destruct Hs as [self1 Hself1].
      pose proof (first_available_run lab (x :: ids) w1 self1 Hself1) as T.
      rewrite E in T. exact T.
Qed.

Lemma find_available_interface_reads w self lab node :
  cml_auth w = Some self ->
  returns is_get w (find_available_interface lab node w).
Proof.
  intros Hself. eapply find_available_interface_returns; [|exact Hself].
  reflexivity.
Qed.

(** On interface ids that are strings, [create_link_v3] as [link_nodes]
    calls it is the tool itself. *)
Lemma create_link_v3_of_strings lab a b :
  create_link_v3_of lab (PStr a) (PStr b) = create_link_v3 lab a b.
Proof. reflexivity. Qed.

(** X15. [link_nodes] looks for a free interface on the first node, then on
    the second.  When the first search ends in an error that error is the
    result and the second node is never asked about; when the second one
    does, its error is the result.  In both cases nothing was sent but GET
    requests and logins, so no link was created.  Only when both searches
    found an interface is [create_link_v3] called, with the two of them. *)
Theorem link_nodes_needs_two_interfaces w self lab a b ia w1 :
  cml_auth w = Some self ->
  find_available_interface lab a w = Return ia w1 ->
  if has_error ia
  then link_nodes lab a b w = Return ia w1 /\
       Forall reads_or_logs_in (wire (since w w1))
  else forall ib w2,
         find_available_interface lab b w1 = Return ib w2 ->
         if has_error ib
         then link_nodes lab a b w = Return ib w2 /\
              Forall reads_or_logs_in (wire (since w w2))
         else link_nodes lab a b w = create_link_v3_of lab ia ib w2.
Proof.
  intros Hself Ha.
  pose proof (find_available_interface_reads w self lab a Hself) as Ca.
  rewrite Ha in Ca. cbn [returns] in Ca.
  assert (Hrun : link_nodes lab a b w =
            if has_error ia then Return ia w1
            else match find_available_interface lab b w1 with
                 | Return ib w2 =>
                     if has_error ib then Return ib w2
                     else match create_link_v3_of lab ia ib w2 with
                          | Return v w' => Return v w'
                          | Raise e w' => _handle_api_error "link_nodes" e w'
                          | OutOfFuel => OutOfFuel
                          end
                 | Raise e w2 => _handle_api_error "link_nodes" e w2
                 | OutOfFuel => OutOfFuel
                 end).
  { unfold link_nodes. unfold bind at 1.
    rewrite (check_auth_some w self Hself). cbn [truthy].
    unfold try_except, bind at 1. rewrite Ha. cbv beta.
    destruct (has_error ia); [reflexivity|]. unfold bind.
    destruct (find_available_interface lab b w1) as [ib w2|e w2|];
      [destruct (has_error ib)|..]; reflexivity. }
  rewrite Hrun. clear Hrun.
  destruct (has_error ia).
  - split; [reflexivity | apply conduct_wire, Ca].
  - intros ib w2 Hb. rewrite Hb.
    destruct (cd_session _ _ _ Ca) as [self1 Hself1].
    pose proof (find_available_interface_reads w1 self1 lab b Hself1) as Cb.
    rewrite Hb in Cb. cbn [returns] in Cb.
    destruct (has_error ib).
    + split; [reflexivity|]. apply conduct_wire. eapply conduct_trans; eauto.
    + destruct (cd_session _ _ _ Cb) as [self2 Hself2].
      pose proof (create_link_v3_of_lands lab ia ib w2 self2 Hself2) as L.
      destruct (create_link_v3_of lab ia ib w2); cbn [returns] in L;
        [reflexivity | contradiction | contradiction].
Qed.

(** X16. [generate_switch_stp_config] raises (the IndexError of [vlans[0]])
    exactly when the list of VLANs is empty, whatever the other arguments
    are; with at least one VLAN it returns the configuration text. *)
Theorem stp_config_needs_a_vlan name mode role vlans mapping :
  generate_switch_stp_config name mode role vlans mapping = None <-> vlans = [].
Proof.
  unfold generate_switch_stp_config, stp_config_lines.
  destruct vlans as [|v vlans]; split; intros H;
    [reflexivity | reflexivity | discriminate H | discriminate H].
Qed.

(** X17. The mode and the role are read loosely: every mode other than mst
    and rapid-pvst is configured as pvst, and every role other than root and
    secondary as a normal switch. *)
Theorem stp_config_defaults_to_pvst_and_normal name mode role vlans mapping :
  generate_switch_stp_config name mode role vlans mapping
  = generate_switch_stp_config name (known_mode mode) (known_role role) vlans mapping.
Proof.
  unfold generate_switch_stp_config, stp_config_lines, known_mode, known_role.
  destruct (String.eqb mode "mst") eqn:M1;
    [apply String.eqb_eq in M1; subst mode; rewrite String.eqb_refl|];
    [|destruct (String.eqb mode "rapid-pvst") eqn:M2;
      [apply String.eqb_eq in M2; subst mode; rewrite String.eqb_refl;
       change (String.eqb "rapid-pvst" "mst") with false
      |change (String.eqb "pvst" "mst") with false;
       change (String.eqb "pvst" "rapid-pvst") with false]].
  all: destruct (String.eqb role "root") eqn:R1;
    [apply String.eqb_eq in R1; subst role; rewrite String.eqb_refl; reflexivity|];
    destruct (String.eqb role "secondary") eqn:R2;
    [apply String.eqb_eq in R2; subst role; rewrite String.eqb_refl;
     change (String.eqb "secondary" "root") with false; reflexivity
    |change (String.eqb "normal" "root") with false;
     change (String.eqb "normal" "secondary") with false; reflexivity].
Qed.

(** Where a line of the configuration can come from. *)
Ltac scan H :=
  lazymatch type of H with
  | In _ (_ ++ _)%list => apply in_app_or in H; destruct H as [H|H]; scan H
  | In _ (_ :: _) => destruct H as [H|H]; [try discriminate H | scan H]
  | In _ [] => destruct H
  | In _ (map _ _) =>
      let x := fresh "x" in
      apply in_map_iff in H; destruct H as (x & H & _);
      try destruct x; discriminate H
  | In _ (if ?b then _ else _) => destruct b; scan H
  | In _ (match ?m with _ => _ end) => destruct m; scan H
  | _ => idtac
  end.

(** The fragments the configuration is joined from. *)
Lemma stp_config_fragments name mode role vlans mapping config_lines :
  stp_config_lines name mode role vlans mapping = Some config_lines ->
  ~ In "vlan 1" config_lines /\
  forall vlan_id, In vlan_id vlans -> vlan_id <> 1%Z ->
    In ("vlan " ++ str_of_int vlan_id) config_lines.
Proof.
  unfold stp_config_lines. intros H.
  destruct vlans as [|first rest] eqn:Hv; [discriminate H|]. rewrite <- Hv in *.
  clear Hv. injection H as <-. split.
  - intros H. scan H.
    all: apply in_flat_map in H; destruct H as (v & _ & H).
    all: destruct (v =? 1)%Z eqn:E; [destruct H|].
    all: destruct H as [H | [H | [H | []]]]; try discriminate H.
    all: injection H as H; apply (str_of_int_inj v 1) in H.
    all: subst v; discriminate E.
  - intros v Hin Hne.
    match goal with
    | |- context [flat_map ?f vlans] => set (declared := flat_map f vlans)
    end.
    assert (D : In ("vlan " ++ str_of_int v) declared).
    { apply in_flat_map. exists v. split; [exact Hin|].
      destruct (v =? 1)%Z eqn:E; [apply Z.eqb_eq in E; contradiction|].
      left. reflexivity. }
    clearbody declared.
    destruct (String.eqb mode "mst"); [|destruct (String.eqb mode "rapid-pvst")].
    all: destruct (String.eqb role "root"); [|destruct (String.eqb role "secondary")].
    all: try (destruct mapping as [[|]|]).
    all: repeat first [ exact D | apply in_cons | apply in_or_app; left ].
Qed.


Lemma one_line_app s t : one_line (s ++ t) = one_line s && one_line t.
Proof.
  induction s as [|c s IH]; cbn; [reflexivity|].
  rewrite IH. apply andb_assoc.
Qed.

Lemma one_line_uint d : one_line (NilEmpty.string_of_uint d) = true.
Proof. induction d; cbn; auto. Qed.

Lemma one_line_str_of_int z : one_line (str_of_int z) = true.
Proof.
  unfold str_of_int, NilZero.string_of_int.
  destruct (Z.to_int z) as [d|d]; unfold NilZero.string_of_uint;
    destruct d; cbn; auto using one_line_uint.
Qed.

Lemma one_line_concat sep l :
  one_line sep = true -> Forall (fun s => one_line s = true) l ->
  one_line (String.concat sep l) = true.
Proof.
  intros Hsep H. induction H as [|x l Hx Hl IH]; [reflexivity|].
  destruct l as [|y l]; [exact Hx|].
  change (String.concat sep (x :: y :: l))
    with (x ++ sep ++ String.concat sep (y :: l)).
  rewrite !one_line_app, Hx, Hsep, IH. reflexivity.
Qed.

Lemma lines_of_one_line s : one_line s = true -> lines_of s = [s].
Proof.
  induction s as [|c s IH]; cbn; [reflexivity|].
  destruct (Ascii.eqb c newline); cbn; [discriminate|].
  intros H. rewrite (IH H). reflexivity.
Qed.

Lemma lines_of_first s t :
  one_line s = true -> lines_of (s ++ String newline t) = s :: lines_of t.
Proof.
  induction s as [|c s IH]; cbn [append lines_of one_line].
  - intros _. rewrite Ascii.eqb_refl. reflexivity.
  - destruct (Ascii.eqb c newline); cbn [negb andb]; [discriminate|].
    intros H. rewrite (IH H). reflexivity.
Qed.

Lemma lines_of_joined l :
  l <> [] -> Forall (fun s => one_line s = true) l ->
  lines_of (String.concat nl l) = l.
Proof.
  intros Hne H. induction H as [|x l Hx Hl IH]; [contradiction|].
  destruct l as [|y l]; [apply lines_of_one_line, Hx|].
  change (String.concat nl (x :: y :: l))
    with (x ++ String newline (String.concat nl (y :: l))).
  rewrite (lines_of_first _ _ Hx), IH by discriminate. reflexivity.
Qed.

Lemma one_line_int_list (l : list Z) :
  one_line (String.concat "," (map str_of_int l)) = true.
Proof.
  apply one_line_concat; [reflexivity|].
  apply Forall_forall. intros s Hin.
  apply in_map_iff in Hin. destruct Hin as (x & <- & _).
  apply one_line_str_of_int.
Qed.

(** A fragment that is one line. *)
Ltac one_liner :=
  cbn [one_line append]; rewrite ?one_line_app; cbn [one_line append];
  repeat match goal with
  | H : one_line ?n = true |- context [one_line ?n] => rewrite H
  | |- context [one_line (str_of_int ?z)] => rewrite (one_line_str_of_int z)
  | |- context [one_line (String.concat "," (map str_of_int ?l))] =>
      rewrite (one_line_int_list l)
  end;
  reflexivity.

Ltac all_one_line :=
  repeat first
    [ apply Forall_nil
    | apply Forall_app; split
    | apply Forall_cons; [one_liner|]
    | match goal with
      | |- Forall _ (if ?b then _ else _) => destruct b
      | |- Forall _ (match ?m with _ => _ end) => destruct m
      end ].

Lemma stp_config_fragments_one_line name mode role vlans mapping config_lines :
  one_line name = true ->
  stp_config_lines name mode role vlans mapping = Some config_lines ->
  Forall (fun s => one_line s = true) config_lines.
Proof.
  intros Hname. unfold stp_config_lines. intros H.
  destruct vlans as [|first rest] eqn:Hv; [discriminate H|]. rewrite <- Hv in *.
  clear Hv. injection H as <-.
  assert (Hmap : forall (A : Type) (f : A -> string) (l : list A),
            (forall x, one_line (f x) = true) ->
            Forall (fun s => one_line s = true) (map f l)).
  { intros A f l Hf. apply Forall_forall. intros s Hin.
    apply in_map_iff in Hin. destruct Hin as (x & <- & _). apply Hf. }
  match goal with
  | |- context [flat_map ?f vlans] => set (declared := flat_map f vlans)
  end.
  assert (Hdecl : Forall (fun s => one_line s = true) declared).
  { apply Forall_flat_map. apply Forall_forall. intros v _.
    destruct (v =? 1)%Z; all_one_line. }
  clearbody declared.
  all_one_line.
  all: try exact Hdecl.
  all: apply Hmap; try (intros [instance mapped]); intros; one_liner.
Qed.

(** X18. As long as the name of the switch is one line, the default VLAN is
    never declared: no line of the configuration text reads "vlan 1",
    whatever the other arguments, while every other VLAN of the list has its
    line.  (A name with a line break in it can spell any line.) *)
Theorem stp_config_skips_vlan_1 name mode role vlans mapping config :
  one_line name = true ->
  generate_switch_stp_config name mode role vlans mapping = Some config ->
  ~ In "vlan 1" (lines_of config) /\
  forall vlan_id, In vlan_id vlans -> vlan_id <> 1%Z ->
    In ("vlan " ++ str_of_int vlan_id) (lines_of config).
Proof.
  intros Hname. unfold generate_switch_stp_config.
  destruct (stp_config_lines name mode role vlans mapping) as [fragments|] eqn:E;
    [|discriminate].
  intros H. injection H as <-.
  rewrite lines_of_joined.
  - exact (stp_config_fragments name mode role vlans mapping fragments E).
  - unfold stp_config_lines in E. destruct vlans; [discriminate E|].
    injection E as <-. intros H. apply (f_equal (@List.length string)) in H.
    rewrite !length_app in H. cbn in H. lia.
  - exact (stp_config_fragments_one_line name mode role vlans mapping fragments
             Hname E).
Qed.

Lemma add_switch_length lab name k x y layer switches n w :
  List.length switches = n ->
  ensures (fun l => List.length l = S n)
    (add_switch lab name k x y layer switches w).
Proof.
  intros H. unfold add_switch.
  apply ensures_bind. intros r w1 _. apply ensures_bind. intros i w2 _.
  cbn. rewrite length_app, H. cbn. lia.
Qed.

Lemma connect_length lab switches i j links n w :
  List.length links = n ->
  ensures (fun l => List.length l = S n) (connect lab switches i j links w).
Proof.
  intros H. unfold connect.
  do 6 (apply ensures_bind; intros ? ? _).
  cbn. rewrite length_app, H. cbn. lia.
Qed.

Ltac add_one :=
  eapply ensures_bind_post;
  [ eapply add_switch_length; first [eassumption | reflexivity]
  | cbv beta; intros ? ? ? ].

Ltac connect_one :=
  eapply ensures_bind_post;
  [ eapply connect_length; first [eassumption | reflexivity]
  | cbv beta; intros ? ? ? ].

Lemma create_stp_lab_counts t d n k w :
  ensures (fun v => has_error v = true \/ stp_lab_built t n v)
    (create_stp_lab t d n k w).
Proof.
  unfold create_stp_lab.
  unfold bind at 1, _check_auth. destruct (cml_auth w); cbn [truthy];
    [|left; reflexivity].
  apply ensures_try; [|intros e w1; left; reflexivity].
  eapply ensures_bind_post; [apply create_lab_carries|].
  cbv beta. intros lab_response w1 (items & -> & _).
  apply ensures_bind. intros failed w2 Hin. unfold py_in, ret in Hin.
  injection Hin as <- _.
  destruct (items_get items (PStr "error")) eqn:Herr.
  { left. cbn. rewrite Herr. reflexivity. }
  apply ensures_bind. intros lab_id w3 _. cbv zeta.
  add_one. add_one.
  unfold stp_lab_built, stp_switches, stp_links.
  destruct (n >? 2)%Z eqn:N2, (n >? 4)%Z eqn:N4.
  - eapply ensures_bind_post; [add_one; eapply add_switch_length; eassumption|].
    cbv beta. intros s4 ? H4.
    eapply ensures_bind_post; [add_one; eapply add_switch_length; eassumption|].
    cbv beta. intros s6 ? H6. rewrite H6. cbn [Nat.leb].
    connect_one.
    eapply ensures_bind_post;
      [do 4 connect_one; eapply connect_length; eassumption|].
    cbv beta. intros l6 ? L6.
    eapply ensures_bind_post;
      [do 4 connect_one; eapply connect_length; eassumption|].
    cbv beta. intros l11 ? L11.
    right. do 4 eexists. split; [reflexivity|]. split; assumption.
  - eapply ensures_bind_post; [add_one; eapply add_switch_length; eassumption|].
    cbv beta. intros s4 ? H4.
    apply ensures_bind. intros s4' ? Hs. injection Hs as <- _.
    rewrite H4. cbn [Nat.leb].
    connect_one.
    eapply ensures_bind_post;
      [do 4 connect_one; eapply connect_length; eassumption|].
    cbv beta. intros l6 ? L6.
    apply ensures_bind. intros l6' ? Hl. injection Hl as <- _.
    right. do 4 eexists. split; [reflexivity|]. split; assumption.
  - exfalso. apply Z.gtb_lt in N4. rewrite Z.gtb_ltb in N2.
    apply Z.ltb_ge in N2. lia.
  - apply ensures_bind. intros s2 ? Hs. injection Hs as <- _.
    apply ensures_bind. intros s2' ? Hs. injection Hs as <- _.
    match goal with
    | H : List.length ?l = _ |- context [List.length ?l] => rewrite H
    end.
    cbn [Nat.leb List.length].
    connect_one.
    apply ensures_bind. intros l1 ? Hl. injection Hl as <- _.
    apply ensures_bind. intros l1' ? Hl. injection Hl as <- _.
    right. do 4 eexists. split; [reflexivity|]. split; assumption.
Qed.

(** X19. [create_stp_lab] builds two, four or six switches, never another
    number: [num_switches] is only compared with 2 and with 4.  When nothing
    failed the result lists 2 switches and 1 link for a number up to 2, 4
    and 6 for 3 or 4, and 6 and 11 for any greater one; a link that could
    not be made is listed all the same. *)
Theorem create_stp_lab_builds_two_four_or_six t d n k w :
  exists v w',
    create_stp_lab t d n k w = Return v w' /\
    (has_error v = true \/ stp_lab_built t n v).
Proof.
  pose proof (create_stp_lab_counts t d n k w) as H.
  destruct (tool_answers _ w (tool_create_stp_lab t d n k)) as (v & w' & Hr).
  rewrite Hr in H. eauto.
Qed.

End MoreToolFacts.


(** * Concrete runs *)

Lemma authenticate_fails_iff_login_rejected_witness :
  @cml_auth scripted (fresh_world login_ok_script) = Some session0 /\
  exists check w',
    @authenticate scripted (fresh_world login_ok_script) = Return (Some "abc123") w' /\
    @stored_token scripted w' = Some "abc123" /\
    verifications (since (fresh_world login_ok_script) w')
      = [(Some "abc123", authok_request (refreshed session0 (quoted "abc123")), check)].
Proof.
  split; [reflexivity|].
  destruct (@authenticate_fails_iff_login_rejected scripted
              (fresh_world login_ok_script) session0
              (fst (reply 200 (quoted "abc123") None)) 20%N
              [reply 500 "down" None] eq_refl eq_refl) as [_ H].
  specialize (H _ eq_refl eq_refl). cbv zeta in H.
  match type of H with
  | if ?b then _ else _ => replace b with true in H by reflexivity
  end.
  destruct H as (check & w' & Hr & Hs & Ht & Hev).
  exists check, w'. split; [exact Hr|]. split.
  - unfold stored_token. rewrite Hs. reflexivity.
  - rewrite Hev. reflexivity.
Defined.

Lemma authenticate_raises_on_unencodable_token :
  ~ @verifies_accepted_login scripted (fresh_world umlaut_login_script).
Proof.
  intros H.
  destruct (H session0 _ _ _ eq_refl eq_refl eq_refl) as (t & w' & Hrun & _).
  vm_compute in Hrun. discriminate Hrun.
Qed.

(** What the run with that token looks like: the token is stored, nothing
    but the login went out. *)
Example authenticate_with_unencodable_token :
  let w := fresh_world umlaut_login_script in
  exists w',
    @authenticate scripted w = Raise (UnicodeEncodeError ("Bearer " ++ umlaut_token)) w' /\
    stored_token w' = Some umlaut_token /\
    map rq_endpoint (wire (since w w')) = ["/api/v0/authenticate"] /\
    hget (ac_headers (client session0)) "Authorization" = None /\
    option_map (fun self => hget (ac_headers (client self)) "Authorization")
      (cml_auth w') = Some None.
Proof.
  cbv zeta. eexists. split; [vm_compute; reflexivity|].
  repeat split; reflexivity.
Qed.

Lemma request_gives_up_when_relogin_fails :
  ~ @retries_once_on_401 scripted (signed_in "stale" relogin_refused_script)
      "GET" "/x" no_kwargs /\
  ~ @retries_once_on_401 scripted (signed_in "stale" relogin_umlaut_script)
      "GET" "/x" no_kwargs.
Proof.
  split; intros H; unfold retries_once_on_401 in H; cbv zeta in H;
    (edestruct H as [_ Hlen]; [vm_compute; reflexivity | reflexivity |]);
    discriminate Hlen.
Qed.

Lemma request_reauthenticates_once_witness :
  let w := signed_in "stale" relogin_ok_script in
  let evs := since w (final (@request scripted "GET" "/x" no_kwargs w) w) in
  kwargs_ok no_kwargs /\
  auth_calls (after_issue evs) = 1 /\ length (issued evs) = 2.
Proof.
  cbv zeta. split; [exact I|]. split.
  - refine (proj1 (@request_reauthenticates_once scripted
              (signed_in "stale" relogin_ok_script) (refreshed session0 "stale")
              "GET" "/x" no_kwargs _ _ _ _ eq_refl I eq_refl eq_refl)).
  - reflexivity.
Defined.

Lemma request_without_token_authenticates_first_witness :
  let w := fresh_world login_ok_script in
  let evs := since w (final (@request scripted "GET" "/x" no_kwargs w) w) in
  auth_calls (before_issue evs) = 1 /\
  Forall (fun x : exchange =>
            exists t, fst (fst x) = Some t /\
                      hget (rq_headers (snd (fst x))) "Authorization"
                        = Some ("Bearer " ++ t))
         (issued evs).
Proof.
  exact (@request_without_token_authenticates_first scripted
           (fresh_world login_ok_script) session0 "GET" "/x" no_kwargs
           eq_refl eq_refl I).
Defined.

Lemma authenticate_stores_empty_token :
  ~ @authenticate_keeps_token_ok scripted (fresh_world empty_token_script).
Proof.
  intros H. apply (H I). reflexivity.
Qed.

Lemma steady_login_bodies_nonempty : @login_bodies_nonempty steady.
Proof.
  intros s rq rp lat s' Hserve _ _. cbn in Hserve.
  injection Hserve as <- _ _. discriminate.
Defined.

Lemma token_invariant_preserved_witness :
  @login_bodies_nonempty steady /\
  token_ok (stored_token (final (@request steady "GET" "/x" no_kwargs steady_world)
                                steady_world)).
Proof.
  split; [exact steady_login_bodies_nonempty|].
  exact (proj2 (proj2 (@token_invariant_preserved steady steady_login_bodies_nonempty)
                  steady_world steady_session eq_refl I) "GET" "/x" no_kwargs).
Defined.

Lemma token_is_not_the_only_shared_state :
  ~ @authenticate_touches_only_token scripted (fresh_world login_ok_script) /\
  ~ @token_is_the_only_mutable_state scripted
      (initialize_client "https://other" "root" "pw" true)
      (signed_in "tok" login_ok_script).
Proof.
  split.
  - intros H. specialize (H session0 _ eq_refl eq_refl).
    unfold only_token_differs in H. vm_compute in H. discriminate H.
  - intros H. specialize (H _ _ eq_refl eq_refl).
    unfold only_token_differs in H. vm_compute in H. discriminate H.
Qed.

Lemma gateway_frame_witness :
  let w := fresh_world login_ok_script in
  exists self',
    cml_auth (final (@authenticate scripted w) w) = Some self' /\
    session_step session0 self'.
Proof.
  exact (proj1 (@gateway_frame scripted (fresh_world login_ok_script) session0
                  eq_refl)).
Defined.

Lemma collections_not_normalized_as_specified :
  ~ @normalizes_as_specified scripted list_node_definitions
      (signed_in "tok" node_definitions_script) /\
  ~ @normalizes_as_specified scripted (get_lab_links "lab1")
      (signed_in "tok" repeated_id_script) /\
  ~ @normalizes_as_specified scripted (get_lab_links "lab1")
      (signed_in "tok" false_id_script).
Proof.
  split; [|split].
  - intros [_ H]. destruct (H _ eq_refl) as [w' Hw']. discriminate Hw'.
  - intros [H _].
    destruct (H [link_a; link_b] link_a _ (PStr "l1") eq_refl (or_introl eq_refl)
                eq_refl eq_refl) as (d & w' & Hrun & Hget).
    vm_compute in Hrun. injection Hrun as <- _. discriminate Hget.
  - intros [H _].
    destruct (H [link_zero] link_zero _ (PInt 0) eq_refl (or_introl eq_refl)
                eq_refl eq_refl) as (d & w' & Hrun & Hget).
    vm_compute in Hrun. injection Hrun as <- _. discriminate Hget.
Qed.

Lemma collections_indexed_by_id_witness :
  let w := signed_in "tok" nodes_list_script in
  exists d w2,
    @get_lab_nodes scripted "lab1" w = Return (PDict d) w2 /\
    items_get d (PStr "n2") = Some node_r2.
Proof.
  cbv zeta.
  destruct (@collections_indexed_by_id scripted (signed_in "tok" nodes_list_script)
              (refreshed session0 "tok") "lab1" _ _ _ _ _ (PList [node_r1; node_r2])
              eq_refl (query_nodes "lab1") eq_refl eq_refl)
    as (d & w2 & Hrun & Hfiled).
  - repeat constructor; eexists; (split; [reflexivity|reflexivity]).
  - exists d, w2. split; [exact Hrun|].
    apply (Hfiled [node_r1] node_r2 [] (PStr "n2")); try reflexivity.
    intros y k' [].
Defined.

Lemma create_interface_refuses_running_lab_witness :
  let w := signed_in "tok" running_lab_script in
  exists w1,
    @create_interface scripted "lab1" "n1" 4 w
      = Return (PDict [(PStr "error", PStr LAB_RUNNING)]) w1 /\
    map rq_endpoint (wire (since w w1)) = ["/api/v0/labs/lab1"].
Proof.
  cbv zeta. eexists. split.
  - exact (proj1 (@create_interface_refuses_running_lab scripted
                    (signed_in "tok" running_lab_script) "lab1" "n1" 4 _ _
                    eq_refl eq_refl)).
  - reflexivity.
Defined.

Lemma empty_lab_with_zero_timeout_times_out :
  ~ @empty_lab_always_ready scripted (signed_in "tok" empty_lab_script) "lab1" 0.
Proof.
  intros H.
  specialize (H _ _ _ eq_refl eq_refl eq_refl 2 (le_n 2)).
  vm_compute in H. discriminate H.
Qed.

Lemma empty_lab_poll_witness :
  let w := signed_in "tok" empty_lab_script in
  exists w2,
    @wait_for_lab_nodes scripted 2 "lab1" 60 w = Return (PStr ALL_READY) w2 /\
    sleeps (since w w2) = [].
Proof.
  cbv zeta.
  destruct (@empty_lab_poll scripted (signed_in "tok" empty_lab_script) "lab1" 60
              _ _ _ eq_refl eq_refl eq_refl) as (Hrun & _ & Hsleep).
  eexists. split; [exact (Hrun 2 (le_n 2)) | exact Hsleep].
Defined.

Lemma wait_for_lab_nodes_reports_witness :
  let w := signed_in "tok" booting_lab_script in
  let nodes := PDict [(PStr "n1", node_in "DEFINED_ON_CORE")] in
  exists w1 w2 w3 w4,
    @get_lab_details scripted "lab1" w = Return started_lab w1 /\
    @get_lab_nodes scripted "lab1" (waiting "lab1" w1) = Return nodes w2 /\
    @Poll scripted "lab1" nodes (clock w2) 60 w2 AllReady w3 /\
    quiet w3 w4 /\
    @wait_for_lab_nodes scripted (poll_fuel 60) "lab1" 60 w
      = Return (PStr "All nodes in the lab are initialized and ready") w4 /\
    steps (since w w4)
      = [Called ("GET", "/api/v0/labs/lab1", None);
         Called ("GET", "/api/v0/labs/lab1/nodes", None);
         Called ("GET", "/api/v0/labs/lab1/nodes/n1", None);
         Slept 5;
         Called ("GET", "/api/v0/labs/lab1/nodes/n1", None)].
Proof.
  cbv zeta.
  destruct (proj2 (@wait_for_lab_nodes_reports scripted
                     (signed_in "tok" booting_lab_script) "lab1" 60)
              _ _ _ _ eq_refl eq_refl eq_refl eq_refl)
    as (outcome & w3 & w4 & Hpoll & Hq & Hwait).
  specialize (Hwait (poll_fuel 60) (le_n _)).
  assert (Hc : exists w',
             @wait_for_lab_nodes scripted (poll_fuel 60) "lab1" 60
               (signed_in "tok" booting_lab_script)
             = Return (PStr "All nodes in the lab are initialized and ready") w' /\
             steps (since (signed_in "tok" booting_lab_script) w')
             = [Called ("GET", "/api/v0/labs/lab1", None);
                Called ("GET", "/api/v0/labs/lab1/nodes", None);
                Called ("GET", "/api/v0/labs/lab1/nodes/n1", None);
                Slept 5;
                Called ("GET", "/api/v0/labs/lab1/nodes/n1", None)]).
  { eexists. split; vm_compute; reflexivity. }
  destruct Hc as (w' & Hc & Hst). rewrite Hc in Hwait.
  injection Hwait as Hs Hw. subst w'.
  destruct outcome as [| |e];
    [|vm_compute in Hs; discriminate Hs|cbn in Hs; discriminate Hs].
  do 4 eexists. split; [reflexivity|]. split; [reflexivity|].
  split; [exact Hpoll|]. split; [exact Hq|]. split; [exact Hc | exact Hst].
Defined.

(** The scenarios of the specification. *)

Example send_after_login_carries_bearer_abc123 :
  let w := fresh_world abc123_script in
  let r := @request scripted "GET" "/x" no_kwargs w in
  map (fun x : exchange => hget (rq_headers (snd (fst x))) "Authorization")
      (issued (since w (final r w)))
    = [Some "Bearer abc123"].
Proof. reflexivity. Qed.

Example unauthorized_then_ok_refreshes_once :
  let w := signed_in "stale" expired_then_fine_script in
  let r := @request scripted "GET" "/x" no_kwargs w in
  (exists rs w', r = Return rs w' /\ status_code rs = 200%Z) /\
  auth_calls (since w (final r w)) = 1 /\
  stored_token (final r w) = Some "fresh".
Proof.
  cbv zeta. split; [|split]; [|reflexivity|reflexivity].
  do 2 eexists. split; [vm_compute; reflexivity | reflexivity].
Qed.

(** Link creation without a client, and with a server that only takes the
    second payload. *)

Example create_link_v3_without_client :
  @create_link_v3 scripted "lab1" "if-a" "if-b" (uninitialized [])
    = Return (PDict [(PStr "error", PStr NOT_INITIALIZED)]) (uninitialized []).
Proof. reflexivity. Qed.

Example create_link_v3_falls_back :
  let w := signed_in "tok" second_payload_script in
  let r := @create_link_v3 scripted "lab1" "if-a" "if-b" w in
  map (fun c : call => snd c) (request_calls (since w (final r w)))
    = [Some (PDict [(PStr "src_int", PStr "if-a"); (PStr "dst_int", PStr "if-b")]);
       Some (PDict [(PStr "i1", PStr "if-a"); (PStr "i2", PStr "if-b")])] /\
  exists v w', r = Return v w' /\ items_get_link_id v = Some (PStr "l9").
Proof.
  cbv zeta. split; [reflexivity|].
  do 2 eexists. split; [vm_compute; reflexivity | reflexivity].
Qed.

(** [initialize_client] binds the global and logs in. *)

Example initialize_client_stores_token :
  let r := @initialize_client scripted "cml.example" "admin" "secret" false
             (uninitialized login_ok_script) in
  stored_token (final r (uninitialized login_ok_script)) = Some "abc123" /\
  exists w', r = Return (PStr ("Successfully authenticated with CML at "
                               ++ "https://cml.example (SSL verification: "
                               ++ "disabled (accepting self-signed certificates))"))
                        w'.
Proof.
  cbv zeta. split; [reflexivity|]. eexists. vm_compute. reflexivity.
Qed.

(** Runs of the other tools. *)

Lemma tools_refuse_without_client_witness :
  exists v,
    @start_lab scripted "lab1" (uninitialized []) = Return v (uninitialized []) /\
    refusal v.
Proof.
  exact (@tools_refuse_without_client scripted _ (uninitialized [])
           (tool_start_lab "lab1") eq_refl).
Defined.

Lemma tools_always_answer_witness :
  let w := signed_in "tok" nodes_list_script in
  exists v w',
    @get_lab_topology scripted "lab1" w = Return v w' /\
    (forall self, cml_auth w = Some self -> exists self', cml_auth w' = Some self').
Proof.
  exact (@tools_always_answer scripted _ (signed_in "tok" nodes_list_script)
           (tool_get_lab_topology "lab1")).
Defined.

Lemma queries_only_read_witness :
  let w := signed_in "tok" nodes_list_script in
  Forall reads_or_logs_in
    (wire (since w (final (@get_lab_nodes scripted "lab1" w) w))).
Proof.
  exact (@queries_only_read scripted _ (signed_in "tok" nodes_list_script) _ _
           (query_get_lab_nodes "lab1") eq_refl).
Defined.

Lemma request_returns_accepted_reply_witness :
  let w := signed_in "tok" accepted_script in
  exists resp w',
    @request scripted "GET" "/x" no_kwargs w = Return resp w' /\
    is_success (status_code resp) = true /\
    rq_endpoint (rs_request resp) = "/x".
Proof.
  cbv zeta.
  destruct (@request_returns_accepted_reply scripted (signed_in "tok" accepted_script)
              "GET" "/x" no_kwargs _ _ eq_refl) as (Hok & _ & Hep & _).
  refine (ex_intro _ _ (ex_intro _ _ (conj _ (conj Hok Hep)))). vm_compute. reflexivity.
Defined.

Lemma stored_token_is_never_quoted_witness :
  let w := fresh_world login_ok_script in
  unquoted (stored_token (final (@authenticate scripted w) w)).
Proof.
  exact (proj1 (proj2 (@stored_token_is_never_quoted scripted)
                 (fresh_world login_ok_script) session0 eq_refl I)).
Defined.

Lemma command_reports_the_server_verdict_witness :
  let w := signed_in "tok" no_content_script in
  exists v w',
    @start_lab scripted "lab1" w = Return (PStr v) w' /\
    request_calls (since w w') = [("PUT", "/api/v0/labs/lab1/start", None)] /\
    issues_only "PUT" "/api/v0/labs/lab1/start" None None (since w w') /\
    ((accepted (since w w') /\ v = "Lab lab1 started successfully") \/
     (~ accepted (since w w') /\ v <> "Lab lab1 started successfully" /\
      exists e, v = "Error starting lab: " ++ @str_of_exn scripted e)).
Proof.
  exact (@command_reports_the_server_verdict scripted _ _ _ _ _ _
           (signed_in "tok" no_content_script) _
           (command_start_lab "lab1") eq_refl).
Defined.

Lemma delete_lab_stops_a_running_lab_first_witness :
  let w := signed_in "tok" stop_refused_script in
  exists v w',
    @delete_lab scripted "lab1" w = Return (PStr v) w' /\
    steps (since w w')
      = [Called ("GET", "/api/v0/labs/lab1", None);
         Called ("PUT", "/api/v0/labs/lab1/stop", None);
         Slept 2;
         Called ("DELETE", "/api/v0/labs/lab1", None)].
Proof.
  exact (@delete_lab_stops_a_running_lab_first scripted
           (signed_in "tok" stop_refused_script) _ "lab1" _ _ eq_refl eq_refl).
Defined.

Lemma list_labs_needs_a_mapping_witness :
  exists w',
    @list_labs scripted (signed_in "tok" lab_ids_script)
    = Return (PStr "Error listing labs: no attribute items") w'.
Proof.
  exact (@list_labs_needs_a_mapping scripted (signed_in "tok" lab_ids_script) _ _ _
           [PStr "lab1"] eq_refl eq_refl eq_refl).
Defined.

Lemma creations_return_an_id_or_an_error_witness :
  exists v w',
    @create_lab scripted "Lab" "a lab" (signed_in "tok" new_lab_script)
      = Return v w' /\
    carries "lab_id" v.
Proof.
  exact (@creations_return_an_id_or_an_error scripted _ _
           (signed_in "tok" new_lab_script) (creation_create_lab "Lab" "a lab")).
Defined.

Lemma routers_and_switches_are_nodes_witness :
  let w := signed_in "tok" new_lab_script in
  exists v w',
    @create_switch scripted "lab1" "SW1" 8 0 0 w = Return v w' /\
    request_calls (since w w')
      = [new_node_call "lab1" "SW1" "iosvl2" 0 0 [(PStr "slot1", PStr "8")]].
Proof.
  exact (proj2 (@routers_and_switches_are_nodes scripted
                  (signed_in "tok" new_lab_script) _ "lab1" "SW1" 0%Z 0%Z eq_refl)
           8%Z).
Defined.

Lemma get_node_interfaces_cuts_uuids_witness :
  exists v w' ids,
    @get_node_interfaces scripted "lab1" "n1" (signed_in "tok" uuid_string_script)
      = Return v w' /\
    v = PList (map PStr ids) /\
    String.concat EmptyString ids = two_uuids /\
    List.length ids = 2.
Proof.
  destruct (@get_node_interfaces_cuts_uuids scripted
              (signed_in "tok" uuid_string_script) _ "lab1" "n1" _ _ two_uuids
              eq_refl eq_refl eq_refl)
    as (v & w' & Hrun & ids & Hv & Hc & _ & Hl).
  exists v, w', ids. auto.
Defined.

Lemma find_available_interface_scans_in_order_witness :
  let w := signed_in "tok" interfaces_script in
  exists w1 w2 w',
    @Scan scripted "lab1" [PStr "i1"; PStr "i2"; PStr "i3"] w1
      (Free (PStr "i2")) w2 /\
    quiet w2 w' /\
    @find_available_interface scripted "lab1" "n1" w = Return (PStr "i2") w' /\
    request_calls (since w w')
      = [("GET", "/api/v0/labs/lab1/nodes/n1/interfaces?operational=true", None);
         ("GET", "/api/v0/labs/lab1/interfaces/i1?operational=true", None);
         ("GET", "/api/v0/labs/lab1/interfaces/i2?operational=true", None)].
Proof.
  cbv zeta.
  destruct (@find_available_interface_scans_in_order scripted
              (signed_in "tok" interfaces_script) _ "lab1" "n1" _ _
              [PStr "i1"; PStr "i2"; PStr "i3"] eq_refl eq_refl eq_refl)
    as (result & w2 & w' & Hscan & Hq & Hrun).
  assert (Hc : exists w'',
             @find_available_interface scripted "lab1" "n1"
               (signed_in "tok" interfaces_script) = Return (PStr "i2") w'' /\
             request_calls (since (signed_in "tok" interfaces_script) w'')
             = [("GET", "/api/v0/labs/lab1/nodes/n1/interfaces?operational=true",
                 None);
                ("GET", "/api/v0/labs/lab1/interfaces/i1?operational=true", None);
                ("GET", "/api/v0/labs/lab1/interfaces/i2?operational=true", None)]).
  { eexists. split; vm_compute; reflexivity. }
  destruct Hc as (w'' & Hc & Hcalls). rewrite Hc in Hrun.
  injection Hrun as Hv Hw. subst w''.
  destruct result as [id| |e]; try discriminate Hv. subst id.
  do 3 eexists. split; [exact Hscan|]. split; [exact Hq|].
  split; [exact Hc | exact Hcalls].
Defined.

Lemma link_nodes_needs_two_interfaces_witness :
  let w := signed_in "tok" no_interfaces_script in
  exists w1,
    @link_nodes scripted "lab1" "n1" "n2" w
      = Return (none_available [] "n1") w1 /\
    Forall reads_or_logs_in (wire (since w w1)).
Proof.
  cbv zeta. eexists.
  exact (@link_nodes_needs_two_interfaces scripted
           (signed_in "tok" no_interfaces_script) _ "lab1" "n1" "n2" _ _
           eq_refl eq_refl).
Defined.

Lemma stp_config_skips_vlan_1_witness :
  exists config,
    generate_switch_stp_config "SW1" "mst" "root" [1; 10]%Z None = Some config /\
    ~ In "vlan 1" (lines_of config) /\ In "vlan 10" (lines_of config).
Proof.
  eexists. split; [reflexivity|].
  destruct (stp_config_skips_vlan_1 "SW1" "mst" "root" [1; 10]%Z None _
              eq_refl eq_refl) as [H1 H2].
  split; [exact H1|].
  apply (H2 10%Z); [right; left; reflexivity | discriminate].
Defined.

(** A name with a line break in it can spell the line all the same. *)
Example stp_config_name_with_line_break :
  exists config,
    generate_switch_stp_config ("SW1" ++ nl ++ "vlan 1") "pvst" "normal" [10]%Z None
      = Some config /\
    In "vlan 1" (lines_of config).
Proof.
  eexists. split; [reflexivity|]. vm_compute. tauto.
Qed.

(** [initialize_client] with an address httpx refuses, and with a server
    whose token cannot be written into a header. *)
Example initialize_client_raises_on_bad_address :
  let w := uninitialized login_ok_script in
  @initialize_client scripted ("cml" ++ nl) "admin" "secret" true w
  = Raise (InvalidURL ("https://cml" ++ nl))
      (final (@print scripted ("Initializing CML client with base_url: https://cml"
                               ++ nl) w) w).
Proof. reflexivity. Qed.

Example initialize_client_with_unencodable_token :
  let w := uninitialized umlaut_login_script in
  let r := @initialize_client scripted "cml.example" "admin" "secret" true w in
  stored_token (final r w) = Some umlaut_token /\
  exists w', r = Return (PStr ("Error connecting to CML: cannot encode Bearer "
                               ++ umlaut_token)) w'.
Proof.
  cbv zeta. split; [reflexivity|]. eexists. vm_compute. reflexivity.
Qed.

(** A token that expired, and a new login whose token cannot be written
    into a header: the request is not sent again. *)
Example request_after_unencodable_relogin :
  let w := signed_in "stale" relogin_umlaut_script in
  let r := @request scripted "GET" "/x" no_kwargs w in
  (exists w', r = Raise (UnicodeEncodeError ("Bearer " ++ umlaut_token)) w') /\
  List.length (issued (since w (final r w))) = 1 /\
  stored_token (final r w) = Some umlaut_token.
Proof.
  cbv zeta. split; [|split; reflexivity].
  eexists. vm_compute. reflexivity.
Qed.
